(** * HA-TrueX: the signed API client and the device synchroniser

    A shallow embedding of the two [CustomerApi] clients of the repository
    and of the device [Manager]:

    - [Sdk]          follows [truex_sharing/customerapi.py];
    - [Integration]  follows
      [custom_components/truex/truex_sharing/customerapi.py] and
      [custom_components/truex/truex_sharing/manager.py], with the
      [CustomerDevice] record of [truex_sharing/device.py].

    Python values that the source leaves untyped ([Any], decoded JSON) are
    modelled dynamically by [json]; operations that Python rejects at run
    time return an exception.  A [float] is the rational its binary64
    value denotes, and float arithmetic rounds to binary64.  Asynchronous methods are programs of a
    resumption monad whose suspension points are the HTTP exchanges: sending
    a request and reading the body of its response count as one exchange.
    Logging has no effect in the model; the arguments of a logging call are
    still evaluated where they can raise. *)

From Stdlib Require Import ZArith QArith Qabs Lqa List String Ascii Bool Lia.
From stdpp Require Import base list strings sorting pretty.
Import ListNotations.

Local Open Scope Z_scope.

(** ** Python values *)

(** Decoded JSON and the other dynamically typed values the source handles.
    A float is carried as the rational it denotes and every float operation
    rounds its result to binary64 ([round64] below); the model has no
    infinities and no NaN. *)
#[warnings="-register-all"]
Inductive json : Type :=
| JNull
| JBool (b : bool)
| JInt (n : Z)
| JFloat (q : Q)
| JStr (s : string)
| JList (l : list json)
| JObj (o : list (string * json)).

(** A [dict[str, Any]]: insertion-ordered, looked up by first match. *)
Abbreviation dict := (list (string * json)).

(** The exceptions of the model.  Every one of them is a Python
    [Exception]: cancellation and the other [BaseException]s are not
    modelled. *)
Inductive exn : Type :=
| TrueXAPIError (what : string) (msg code : json)
| AttributeError
| TypeError
| OtherError (name : string).

Inductive res (A : Type) : Type :=
| Ok (a : A)
| Exn (e : exn).
Arguments Ok {A} a.
Arguments Exn {A} e.

Definition res_bind {A B} (r : res A) (f : A -> res B) : res B :=
  match r with
  | Ok a => f a
  | Exn e => Exn e
  end.


(** What the interpreter cannot compute from the model: [repr] of floats
    and containers, and the [json] module.  [json_loads] gives the decoded
    value or the exception [json.loads] raises: [OtherError
    "JSONDecodeError"] for a text that is not JSON, another exception for a
    text it gives up on (a [ValueError] for an integer of too many digits, a
    [RecursionError] for a nesting too deep). *)
Class PyRuntime : Type := {
  py_repr : json -> string;
  json_dumps : json -> string;
  json_loads : string -> res json
}.

(** The numeric tower: [bool] and [int] are integers, [float] a rational. *)
Definition as_num (v : json) : option Q :=
  match v with
  | JBool b => Some (inject_Z (if b then 1 else 0))
  | JInt n => Some (inject_Z n)
  | JFloat q => Some q
  | _ => None
  end.

(** [bool(v)]. *)
Definition truthy (v : json) : bool :=
  match v with
  | JNull => false
  | JBool b => b
  | JInt n => negb (n =? 0)
  | JFloat q => negb (Qeq_bool q 0)
  | JStr s => negb (String.eqb s "")
  | JList l => match l with [] => false | _ => true end
  | JObj o => match o with [] => false | _ => true end
  end.

(** [d.get(k)] on a dictionary. *)
Fixpoint dict_get (d : dict) (k : string) : option json :=
  match d with
  | [] => None
  | (k', v) :: d' => if String.eqb k' k then Some v else dict_get d' k
  end.

Definition dict_get_default (d : dict) (k : string) (dflt : json) : json :=
  match dict_get d k with
  | Some v => v
  | None => dflt
  end.

(** [v.get(k, dflt)] on an untyped value: only a dictionary has [get]. *)
Definition py_get (v : json) (k : string) (dflt : json) : res json :=
  match v with
  | JObj d => Ok (dict_get_default d k dflt)
  | _ => Exn AttributeError
  end.

Definition chars (s : string) : list json :=
  map (fun c => JStr (String c EmptyString)) (list_ascii_of_string s).

(** [iter(v)]: what a [for] loop over [v] visits. *)
Definition py_iter (v : json) : res (list json) :=
  match v with
  | JList l => Ok l
  | JObj d => Ok (map (fun kv => JStr (fst kv)) d)
  | JStr s => Ok (chars s)
  | _ => Exn TypeError
  end.

(** [len(v)]. *)
Definition py_len (v : json) : res Z :=
  match v with
  | JList l => Ok (Z.of_nat (length l))
  | JObj d => Ok (Z.of_nat (length d))
  | JStr s => Ok (Z.of_nat (String.length s))
  | _ => Exn TypeError
  end.

(** [str(v)], as an f-string formats [v]. *)
Definition py_str `{PyRuntime} (v : json) : string :=
  match v with
  | JStr s => s
  | JInt n => pretty n
  | JBool true => "True"
  | JBool false => "False"
  | JNull => "None"
  | _ => py_repr v
  end.

(** [a + b] where [a] is a [str]. *)
Definition str_add (a : string) (b : json) : res string :=
  match b with
  | JStr s => Ok (a +:+ s)
  | _ => Exn TypeError
  end.

Fixpoint repeat_string (n : nat) (s : string) : string :=
  match n with
  | O => ""
  | S n' => s +:+ repeat_string n' s
  end.

Fixpoint repeat_list {A} (n : nat) (l : list A) : list A :=
  match n with
  | O => []
  | S n' => l ++ repeat_list n' l
  end.

(** [n / d] rounded to the nearest integer, a half to the even one. *)
Definition half_even (n d : Z) : Z :=
  let q := n / d in
  match (2 * (n mod d)) ?= d with
  | Lt => q
  | Gt => q + 1
  | Eq => if Z.even q then q else q + 1
  end.

(** The binary64 number nearest to [x], a half to the even significand:
    what a float operation makes of its exact result [x].  The last place
    of the result has the exponent [e]: 52 binary places below the leading
    one, and never below [-1074], the last place of the subnormal numbers. *)
Definition round64 (x : Q) : Q :=
  let n := Qnum x in
  let d := Z.pos (Qden x) in
  let k := Z.log2 (Z.abs n * 2 ^ 1074 / d) in
  let e := Z.max (k - 52) 0 - 1074 in
  Qred (if e <? 0
        then Qmake (half_even (n * 2 ^ (- e)) d) (Z.to_pos (2 ^ (- e)))
        else inject_Z (half_even n (d * 2 ^ e) * 2 ^ e)).
Arguments round64 : simpl never.

(** [float(n)] for an [int], as arithmetic with a [float] operand converts
    it: the nearest binary64 number, and [OverflowError] beyond the range. *)
Definition float_of_int (n : Z) : res Q :=
  let r := round64 (inject_Z n) in
  if Qle_bool (inject_Z (2 ^ 1024)) (Qabs r)
  then Exn (OtherError "OverflowError")
  else Ok r.

(** The operand of a float operation. *)
Definition as_float (v : json) : res Q :=
  match v with
  | JBool b => Ok (inject_Z (if b then 1 else 0))
  | JInt n => float_of_int n
  | JFloat q => Ok q
  | _ => Exn TypeError
  end.

(** [a op b] on numbers: exact on integers, rounded when an operand is a
    float. *)
Definition num_json (a b : json) (zop : Z -> Z -> Z) (qop : Q -> Q -> Q)
  : res json :=
  match a, b with
  | JFloat x, _ => res_bind (as_float b) (fun y => Ok (JFloat (round64 (qop x y))))
  | _, JFloat y => res_bind (as_float a) (fun x => Ok (JFloat (round64 (qop x y))))
  | (JInt _ | JBool _), (JInt _ | JBool _) =>
      let z v := match v with JInt n => n | JBool true => 1 | _ => 0 end in
      Ok (JInt (zop (z a) (z b)))
  | _, _ => Exn TypeError
  end.

(** [a * n] for an integer literal [n]. *)
Definition py_mul_int (a : json) (n : Z) : res json :=
  match a with
  | JStr s => Ok (JStr (repeat_string (Z.to_nat n) s))
  | JList l => Ok (JList (repeat_list (Z.to_nat n) l))
  | _ => num_json a (JInt n) Z.mul Qmult
  end.

(** [a + b]. *)
Definition py_add (a b : json) : res json :=
  match a, b with
  | JStr s, JStr t => Ok (JStr (s +:+ t))
  | JList l, JList m => Ok (JList (l ++ m))
  | _, _ => num_json a b Z.add Qplus
  end.

(** [a - b]. *)
Definition py_sub (a b : json) : res json :=
  num_json a b Z.sub Qminus.

(** Ordering of two numbers, which Python compares by their exact values
    also across [int] and [float]; [None] when one operand is not a
    number. *)
Definition num_le (a b : json) : option bool :=
  match a, b with
  | (JInt _ | JBool _), (JInt _ | JBool _) =>
      let z v := match v with JInt n => n | JBool true => 1 | _ => 0 end in
      Some (z a <=? z b)
  | _, _ => match as_num a, as_num b with
            | Some x, Some y => Some (Qle_bool x y)
            | _, _ => None
            end
  end.

Definition num_lt (a b : json) : option bool :=
  match num_le b a with
  | Some r => Some (negb r)
  | None => None
  end.

(** ** Dictionaries keyed by arbitrary hashable values *)

Definition hashable (k : json) : bool :=
  match k with
  | JList _ | JObj _ => false
  | _ => true
  end.

(** [a == b] on hashable values: numbers compare by value across [bool],
    [int] and [float]. *)
Definition key_eqb (a b : json) : bool :=
  match a, b with
  | JStr s, JStr t => String.eqb s t
  | JNull, JNull => true
  | _, _ => match as_num a, as_num b with
            | Some x, Some y => Qeq_bool x y
            | _, _ => false
            end
  end.

(** A Python [dict] whose keys come from untyped data: insertion-ordered,
    at most one entry per key up to [key_eqb]. *)
Definition pydict (V : Type) : Type := list (json * V).

Fixpoint pd_get {V} (d : pydict V) (k : json) : option V :=
  match d with
  | [] => None
  | (k', v) :: d' => if key_eqb k' k then Some v else pd_get d' k
  end.

(** [d[k] = v] for a hashable [k]: an existing entry keeps its place and its
    key object, a new one goes last. *)
Fixpoint pd_put {V} (d : pydict V) (k : json) (v : V) : pydict V :=
  match d with
  | [] => [(k, v)]
  | (k', v') :: d' =>
      if key_eqb k' k then (k', v) :: d' else (k', v') :: pd_put d' k v
  end.

(** [d[k] = v]: unhashable keys are rejected. *)
Definition pd_set {V} (d : pydict V) (k : json) (v : V) : res (pydict V) :=
  if hashable k then Ok (pd_put d k v) else Exn TypeError.

Definition pd_keys {V} (d : pydict V) : list json := map fst d.

(** A change made to the object stored under [k], if there is one. *)
Fixpoint pd_alter {V} (f : V -> V) (k : json) (d : pydict V) : pydict V :=
  match d with
  | [] => []
  | (k', v) :: d' =>
      if key_eqb k' k then (k', f v) :: d' else (k', v) :: pd_alter f k d'
  end.

(** ** hashlib and hmac *)

(** SHA-256 (FIPS 180-4) over 32-bit words held in [Z], and HMAC
    (RFC 2104) on top of it: [hashlib.sha256(..).hexdigest()] and
    [hmac.new(.., hashlib.sha256).hexdigest()].  A [str] is its UTF-8
    encoding, so [encode("utf-8")] is the list of its bytes. *)
Module Sha256.

Definition word (x : Z) : Z := x mod 2 ^ 32.

Definition add32 (x y : Z) : Z := word (x + y).

Definition rotr (n x : Z) : Z :=
  Z.lor (Z.shiftr x n) (word (Z.shiftl x (32 - n))).

Definition not32 (x : Z) : Z := Z.lxor x 0xffffffff.

Definition ch (x y z : Z) : Z := Z.lxor (Z.land x y) (Z.land (not32 x) z).

Definition maj (x y z : Z) : Z :=
  Z.lxor (Z.lxor (Z.land x y) (Z.land x z)) (Z.land y z).

Definition bsig0 (x : Z) : Z := Z.lxor (Z.lxor (rotr 2 x) (rotr 13 x)) (rotr 22 x).
Definition bsig1 (x : Z) : Z := Z.lxor (Z.lxor (rotr 6 x) (rotr 11 x)) (rotr 25 x).
Definition ssig0 (x : Z) : Z := Z.lxor (Z.lxor (rotr 7 x) (rotr 18 x)) (Z.shiftr x 3).
Definition ssig1 (x : Z) : Z := Z.lxor (Z.lxor (rotr 17 x) (rotr 19 x)) (Z.shiftr x 10).

(** The first [n] primes, by trial division. *)
Definition is_prime (p : Z) : bool :=
  forallb (fun d => negb (p mod d =? 0)) (map Z.of_nat (seq 2 (Z.to_nat p - 2))).

Definition primes (n : nat) : list Z :=
  take n (filter (fun p => is_prime p = true) (map Z.of_nat (seq 2 310))).

(** The integer cube root, one bit at a time from bit [bits - 1] down. *)
Fixpoint cube_root (bits : nat) (n r : Z) : Z :=
  match bits with
  | O => r
  | S b =>
      let r' := r + 2 ^ Z.of_nat b in
      cube_root b n (if r' * r' * r' <=? n then r' else r)
  end.

(** The first 32 bits of the fractional parts of the cube roots of the
    first 64 primes. *)
Definition round_constants : list Z :=
  Eval vm_compute in map (fun p => word (cube_root 36 (p * 2 ^ 96) 0)) (primes 64).

(** The first 32 bits of the fractional parts of the square roots of the
    first 8 primes. *)
Definition initial_hash : list Z :=
  Eval vm_compute in map (fun p => word (Z.sqrt (p * 2 ^ 64))) (primes 8).

Definition bytes_of_string (s : string) : list Z :=
  map (fun c => Z.of_N (N_of_ascii c)) (list_ascii_of_string s).

(** The [n] low bytes of [x], most significant first. *)
Fixpoint be_bytes (n : nat) (x : Z) : list Z :=
  match n with
  | O => []
  | S n' => be_bytes n' (Z.shiftr x 8) ++ [x mod 256]
  end.

Definition be_word (bs : list Z) : Z :=
  fold_left (fun acc b => acc * 256 + b) bs 0.

(** Padding: a one bit, zeros up to 56 modulo 64, the bit length on 8 bytes. *)
Definition pad (msg : list Z) : list Z :=
  let len := Z.of_nat (length msg) in
  let zeros := Z.to_nat ((55 - len) mod 64) in
  msg ++ [0x80] ++ repeat 0 zeros ++ be_bytes 8 (8 * len).

Fixpoint chunks {A} (fuel size : nat) (l : list A) : list (list A) :=
  match fuel with
  | O => []
  | S fuel' =>
      match l with
      | [] => []
      | _ => take size l :: chunks fuel' size (drop size l)
      end
  end.

Definition chunk {A} (size : nat) (l : list A) : list (list A) :=
  chunks (length l) size l.

(** The message schedule, most recent word first. *)
Fixpoint extend (n : nat) (ws : list Z) : list Z :=
  match n with
  | O => ws
  | S n' =>
      let at_ i := nth i ws 0 in
      let w := add32 (add32 (ssig1 (at_ 1%nat)) (at_ 6%nat))
                     (add32 (ssig0 (at_ 14%nat)) (at_ 15%nat)) in
      extend n' (w :: ws)
  end.

Definition schedule (block : list Z) : list Z :=
  rev (extend 48 (rev (map be_word (chunk 4 block)))).

Record vars := Vars { va : Z; vb : Z; vc : Z; vd : Z; ve : Z; vf : Z; vg : Z; vh : Z }.

Definition round (v : vars) (kw : Z * Z) : vars :=
  let t1 := add32 (add32 (add32 (vh v) (bsig1 (ve v)))
                         (add32 (ch (ve v) (vf v) (vg v)) (fst kw))) (snd kw) in
  let t2 := add32 (bsig0 (va v)) (maj (va v) (vb v) (vc v)) in
  Vars (add32 t1 t2) (va v) (vb v) (vc v) (add32 (vd v) t1) (ve v) (vf v) (vg v).

Definition vars_of (h : list Z) : vars :=
  let at_ i := nth i h 0 in
  Vars (at_ 0%nat) (at_ 1%nat) (at_ 2%nat) (at_ 3%nat)
       (at_ 4%nat) (at_ 5%nat) (at_ 6%nat) (at_ 7%nat).

Definition list_of (v : vars) : list Z :=
  [va v; vb v; vc v; vd v; ve v; vf v; vg v; vh v].

Definition compress (h : list Z) (block : list Z) : list Z :=
  let v := fold_left round (combine round_constants (schedule block)) (vars_of h) in
  map (fun p => add32 (fst p) (snd p)) (combine h (list_of v)).

Definition digest (msg : list Z) : list Z :=
  concat (map (be_bytes 4) (fold_left compress (chunk 64 (pad msg)) initial_hash)).

Definition hex_digit (upper : bool) (d : Z) : ascii :=
  ascii_of_N (Z.to_N (if d <? 10 then 48 + d
                      else (if upper then 55 else 87) + d)).

Definition hex_byte (upper : bool) (b : Z) : string :=
  String (hex_digit upper (b / 16)) (String (hex_digit upper (b mod 16)) "").

Definition hex (upper : bool) (bs : list Z) : string :=
  fold_right (fun b acc => hex_byte upper b +:+ acc) "" bs.

Definition hmac (key msg : list Z) : list Z :=
  let k0 := if (64 <? Z.of_nat (length key)) then digest key else key in
  let k := k0 ++ repeat 0 (64 - length k0)%nat in
  let inner := digest (map (Z.lxor 0x36) k ++ msg) in
  digest (map (Z.lxor 0x5c) k ++ inner).

End Sha256.

(** [hashlib.sha256(s.encode("utf-8")).hexdigest()] *)
Definition sha256_hexdigest (s : string) : string :=
  Sha256.hex false (Sha256.digest (Sha256.bytes_of_string s)).

(** [hmac.new(key.encode("utf-8"), msg.encode("utf-8"),
    hashlib.sha256).hexdigest().upper()] *)

(** ** Strings *)

Definition nl : string := String (ascii_of_N 10) "".

Fixpoint join (sep : string) (l : list string) : string :=
  match l with
  | [] => ""
  | [s] => s
  | s :: l' => s +:+ sep +:+ join sep l'
  end.

(** [sorted(keys)] on strings: code-point order, which on UTF-8 encodings is
    the byte-wise order of [String.leb]. *)
Definition str_le (s t : string) : Prop := String.leb s t = true.

#[global] Instance str_le_dec s t : Decision (str_le s t).
Proof. unfold str_le. apply _. Defined.

Definition sorted (l : list string) : list string := merge_sort str_le l.

(** [s.rstrip("/")] *)
Fixpoint rstrip_slash (s : string) : string :=
  match s with
  | EmptyString => EmptyString
  | String c s' =>
      match rstrip_slash s' with
      | EmptyString => if Ascii.eqb c "/" then EmptyString else String c EmptyString
      | r => String c r
      end
  end.

(** [s.upper()] on ASCII letters. *)
Definition upper_ascii (c : ascii) : ascii :=
  let n := N_of_ascii c in
  if ((97 <=? n) && (n <=? 122))%N then ascii_of_N (n - 32) else c.

Fixpoint upper (s : string) : string :=
  match s with
  | EmptyString => EmptyString
  | String c s' => String (upper_ascii c) (upper s')
  end.

(** [hmac.new(key.encode("utf-8"), msg.encode("utf-8"),
    hashlib.sha256).hexdigest().upper()] *)
Definition hmac_sha256_upper (key msg : string) : string :=
  upper (Sha256.hex false
           (Sha256.hmac (Sha256.bytes_of_string key) (Sha256.bytes_of_string msg))).

(** [urllib.parse.quote_plus]: letters, digits and [_.-~] are kept, a space
    becomes [+], any other byte is percent-escaped. *)
Definition quote_byte (c : ascii) : string :=
  let n := N_of_ascii c in
  if (((48 <=? n) && (n <=? 57)) || ((65 <=? n) && (n <=? 90))
      || ((97 <=? n) && (n <=? 122))
      || (n =? 95) || (n =? 46) || (n =? 45) || (n =? 126))%N
  then String c ""
  else if (n =? 32)%N then "+"
  else "%" +:+ Sha256.hex_byte true (Z.of_N n).

Fixpoint quote_plus (s : string) : string :=
  match s with
  | EmptyString => EmptyString
  | String c s' => quote_byte c +:+ quote_plus s'
  end.

(** [urllib.parse.urlencode(params)] for a dictionary. *)
Definition urlencode `{PyRuntime} (params : dict) : string :=
  join "&" (map (fun kv => quote_plus (fst kv) +:+ "=" +:+ quote_plus (py_str (snd kv)))
                params).

(** [int(t)] for a float [t]: truncation towards zero. *)
Definition int_of_float (t : Q) : Z := Z.quot (Qnum t) (Z.pos (Qden t)).

(** [int(time.time() * 1000)] for the clock reading [t]: the product is
    rounded to binary64 before it is truncated. *)
Definition millis (t : Q) : Z := int_of_float (round64 (t * 1000)%Q).
Arguments millis : simpl never.

(** ** Devices *)

(** [CustomerDevice] ([truex_sharing/device.py]).  The fields filled from
    the device-list entry hold whatever the entry holds. *)
Record CustomerDevice : Type := {
  id : json;
  name : json;
  category : json;
  product_id : json;
  product_name : json;
  online : json;
  icon : json;
  ip : json;
  time_zone : json;
  local_key : json;
  sub : json;
  uuid : json;
  active_time : json;
  create_time : json;
  update_time : json;
  status : pydict json;
  functions : pydict json;
  status_range : pydict json;
  set_up : bool
}.

(** [CustomerDevice.from_api_response(data)] *)
Definition from_api_response (data : json) : res CustomerDevice :=
  match data with
  | JObj d =>
      let get k dflt := dict_get_default d k dflt in
      Ok {| id := get "id" (JStr "");
            name := get "name" (JStr "");
            category := get "category" (JStr "");
            product_id := get "product_id" (JStr "");
            product_name := get "product_name" (JStr "");
            online := get "online" (JBool false);
            icon := get "icon" (JStr "");
            ip := get "ip" (JStr "");
            time_zone := get "time_zone" (JStr "");
            local_key := get "local_key" (JStr "");
            sub := get "sub" (JBool false);
            uuid := get "uuid" (JStr "");
            active_time := get "active_time" (JInt 0);
            create_time := get "create_time" (JInt 0);
            update_time := get "update_time" (JInt 0);
            status := [];
            functions := [];
            status_range := [];
            set_up := false |}
  | _ => Exn AttributeError
  end.

Definition set_status (st : pydict json) (d : CustomerDevice) : CustomerDevice :=
  {| id := id d; name := name d; category := category d;
     product_id := product_id d; product_name := product_name d;
     online := online d; icon := icon d; ip := ip d;
     time_zone := time_zone d; local_key := local_key d; sub := sub d;
     uuid := uuid d; active_time := active_time d;
     create_time := create_time d; update_time := update_time d;
     status := st; functions := functions d;
     status_range := status_range d; set_up := set_up d |}.

Definition set_functions (fs : pydict json) (d : CustomerDevice) : CustomerDevice :=
  {| id := id d; name := name d; category := category d;
     product_id := product_id d; product_name := product_name d;
     online := online d; icon := icon d; ip := ip d;
     time_zone := time_zone d; local_key := local_key d; sub := sub d;
     uuid := uuid d; active_time := active_time d;
     create_time := create_time d; update_time := update_time d;
     status := status d; functions := fs;
     status_range := status_range d; set_up := set_up d |}.

Definition set_status_range (sr : pydict json) (d : CustomerDevice) : CustomerDevice :=
  {| id := id d; name := name d; category := category d;
     product_id := product_id d; product_name := product_name d;
     online := online d; icon := icon d; ip := ip d;
     time_zone := time_zone d; local_key := local_key d; sub := sub d;
     uuid := uuid d; active_time := active_time d;
     create_time := create_time d; update_time := update_time d;
     status := status d; functions := functions d;
     status_range := sr; set_up := set_up d |}.

(** ** The network, the clock and the listeners *)

(** What [session.request] is called with.  The aiohttp session itself
    (created on first use, closed on shutdown) is not modelled. *)
Record http_request : Type := {
  rq_method : string;
  rq_url : string;
  rq_headers : dict;
  rq_data : option string;
  rq_json : option dict
}.

Definition with_headers (headers : dict) (rq : http_request) : http_request :=
  {| rq_method := rq_method rq; rq_url := rq_url rq; rq_headers := headers;
     rq_data := rq_data rq; rq_json := rq_json rq |}.

(** What comes back: the call raises, or a response arrives with its [ok]
    flag and what [resp.text()] and [resp.json()] evaluate to. *)
Inductive http_reply : Type :=
| ConnError (e : exn)
| Response (ok : bool) (text : res string) (body : res json).

(** The points where a program asks its environment for something.  Only
    [Http] suspends the running task. *)
Inductive event : Type -> Type :=
| Http (rq : http_request) : event http_reply
| Clock : event Q
| TokenListener (snapshot : dict) : event (res unit)
| DeviceListener (listener : nat) (d : CustomerDevice) : event (res unit).

(** ** Programs *)

(** A program has run to completion, or waits for the answer to an event.
    The state is handed back at every event, so that what another task did
    to it in between is seen when the program resumes. *)
Inductive react (S A : Type) : Type :=
| Done (r : res A) (s : S)
| Ask {X : Type} (s : S) (e : event X) (k : X -> S -> react S A).
Arguments Done {S A} r s.
Arguments Ask {S A X} s e k.

Definition prog (S A : Type) : Type := S -> react S A.

Fixpoint bind_react {S A B} (r : react S A) (f : A -> prog S B) : react S B :=
  match r with
  | Done (Ok a) s => f a s
  | Done (Exn e) s => Done (Exn e) s
  | Ask s e k => Ask s e (fun x s' => bind_react (k x s') f)
  end.

Definition ret {S A} (a : A) : prog S A := fun s => Done (Ok a) s.
Definition raise {S A} (e : exn) : prog S A := fun s => Done (Exn e) s.
Definition bind {S A B} (m : prog S A) (f : A -> prog S B) : prog S B :=
  fun s => bind_react (m s) f.
Definition lift {S A} (r : res A) : prog S A := fun s => Done r s.
Definition get {S} : prog S S := fun s => Done (Ok s) s.
Definition modify {S} (f : S -> S) : prog S unit := fun s => Done (Ok tt) (f s).
Definition ask {S X} (e : event X) : prog S X :=
  fun s => Ask s e (fun x s' => Done (Ok x) s').

Declare Scope prog_scope.
Delimit Scope prog_scope with prog.
Declare Scope res_scope.
Delimit Scope res_scope with res.
Notation "x <- m ;; k" := (bind m (fun x => k))
  (at level 20, m at level 99, k at level 200, only parsing) : prog_scope.
Notation "m ;; k" := (bind m (fun _ => k))
  (at level 100, k at level 200, only parsing, right associativity) : prog_scope.
Notation "x <- m ;; k" := (res_bind m (fun x => k))
  (at level 20, m at level 99, k at level 200, only parsing) : res_scope.

(** [try: r except Exception: h] *)
Fixpoint catch_react {S A} (r : react S A) (h : exn -> prog S A) : react S A :=
  match r with
  | Done (Ok a) s => Done (Ok a) s
  | Done (Exn e) s => h e s
  | Ask s e k => Ask s e (fun x s' => catch_react (k x s') h)
  end.

Definition catch {S A} (m : prog S A) (h : exn -> prog S A) : prog S A :=
  fun s => catch_react (m s) h.

(** [try: r finally: s = fin(s)] *)
Fixpoint finally_react {S A} (r : react S A) (fin : S -> S) : react S A :=
  match r with
  | Done x s => Done x (fin s)
  | Ask s e k => Ask s e (fun x s' => finally_react (k x s') fin)
  end.

Definition finally {S A} (m : prog S A) (fin : S -> S) : prog S A :=
  fun s => finally_react (m s) fin.

(** [for x in l: body(x)] *)
Fixpoint for_each {S X} (l : list X) (body : X -> prog S unit) : prog S unit :=
  match l with
  | [] => ret tt
  | x :: l' => bind (body x) (fun _ => for_each l' body)
  end.

(** A program of an object [T] run on the state [S] that owns the object. *)
Fixpoint zoom_react {S T A} (getl : S -> T) (setl : T -> S -> S)
    (r : react T A) (outer : S) : react S A :=
  match r with
  | Done x t => Done x (setl t outer)
  | Ask t e k =>
      Ask (setl t outer) e (fun x s' => zoom_react getl setl (k x (getl s')) s')
  end.

Definition zoom {S T A} (getl : S -> T) (setl : T -> S -> S) (m : prog T A)
  : prog S A :=
  fun s => zoom_react getl setl (m (getl s)) s.

(** *** One task alone *)

Inductive obs : Type :=
| OHttp (rq : http_request)
| OClock
| OToken (snapshot : dict)
| ODevice (listener : nat) (d : CustomerDevice).

(** The environment of a run: its answer to an event, given what has
    happened so far (oldest first). *)
Record env : Type := {
  net : list obs -> http_request -> http_reply;
  clock : list obs -> Q;
  on_token : list obs -> dict -> res unit;
  on_device : list obs -> nat -> CustomerDevice -> res unit
}.

Definition answer (E : env) (tr : list obs) {X} (e : event X) : X :=
  match e with
  | Http rq => net E tr rq
  | Clock => clock E tr
  | TokenListener d => on_token E tr d
  | DeviceListener i d => on_device E tr i d
  end.

Definition observe {X} (e : event X) : obs :=
  match e with
  | Http rq => OHttp rq
  | Clock => OClock
  | TokenListener d => OToken d
  | DeviceListener i d => ODevice i d
  end.

(** Running a program to its end; [tr] is what happened so far, oldest
    first. *)
Fixpoint run {S A} (E : env) (r : react S A) (tr : list obs)
  : res A * S * list obs :=
  match r with
  | Done x s => (x, s, tr)
  | Ask s e k => run E (k (answer E tr e) s) (tr ++ [observe e])
  end.

Definition result_of {S A} (x : res A * S * list obs) : res A := fst (fst x).
Definition state_of {S A} (x : res A * S * list obs) : S := snd (fst x).
Definition trace_of {S A} (x : res A * S * list obs) : list obs := snd x.

(** The HTTP exchanges of a trace, oldest first. *)
Fixpoint http_calls (tr : list obs) : list http_request :=
  match tr with
  | [] => []
  | OHttp rq :: tr' => rq :: http_calls tr'
  | _ :: tr' => http_calls tr'
  end.

(** The same loop when no iteration stops it: every element is visited, each
    from the state and the history its predecessor left. *)
Fixpoint visit {S X} (E : env) (body : X -> prog S unit) (l : list X)
    (s : S) (tr : list obs) : S * list obs :=
  match l with
  | [] => (s, tr)
  | x :: l' =>
      let out := run E (body x s) tr in
      visit E body l' (snd (fst out)) (snd out)
  end.

(** [preserves R m]: whatever the environment answers, the state [m] ends in
    is related by [R] to the state it started from. *)
Definition preserves {S A} (R : relation S) (m : prog S A) : Prop :=
  forall E s tr, R s (state_of (run E (m s) tr)).

(** [quiet m]: [m] makes no HTTP exchange. *)
Definition quiet {S A} (m : prog S A) : Prop :=
  forall E s tr, http_calls (trace_of (run E (m s) tr)) = http_calls tr.

(** *** Several tasks on one event loop *)

(** A task is yet to start, suspended in an HTTP exchange, or finished. *)
Inductive task (S A : Type) : Type :=
| Ready (m : prog S A)
| Waiting (rq : http_request) (k : http_reply -> S -> react S A)
| Finished (r : res A).
Arguments Ready {S A} m.
Arguments Waiting {S A} rq k.
Arguments Finished {S A} r.

(** The running task keeps the loop until its next HTTP exchange: clock
    readings and listener calls are answered on the spot. *)
Fixpoint advance {S A} (E : env) (r : react S A) (tr : list obs)
  : task S A * S * list obs :=
  match r with
  | Done x s => (Finished x, s, tr)
  | Ask s e k =>
      match e in event X return (X -> S -> react S A) -> task S A * S * list obs with
      | Http rq => fun k => (Waiting rq k, s, tr ++ [OHttp rq])
      | Clock => fun k => advance E (k (clock E tr) s) (tr ++ [OClock])
      | TokenListener d =>
          fun k => advance E (k (on_token E tr d) s) (tr ++ [OToken d])
      | DeviceListener i d =>
          fun k => advance E (k (on_device E tr i d) s) (tr ++ [ODevice i d])
      end k
  end.

(** What the loop does next: start a task, or hand a suspended task the
    reply to its exchange. *)
Inductive action : Type :=
| Start (i : nat)
| Deliver (i : nat) (reply : http_reply).

Record loop (S A : Type) : Type := {
  shared : S;
  tasks : list (task S A);
  history : list obs
}.
Arguments shared {S A} l.
Arguments tasks {S A} l.
Arguments history {S A} l.

Definition resume {S A} (E : env) (l : loop S A) (i : nat) (r : react S A)
  : loop S A :=
  let '(t, s, tr) := advance E r (history l) in
  {| shared := s; tasks := <[i := t]> (tasks l); history := tr |}.

Definition loop_step {S A} (E : env) (l : loop S A) (a : action) : loop S A :=
  match a with
  | Start i =>
      match tasks l !! i with
      | Some (Ready m) => resume E l i (m (shared l))
      | _ => l
      end
  | Deliver i reply =>
      match tasks l !! i with
      | Some (Waiting _ k) => resume E l i (k reply (shared l))
      | _ => l
      end
  end.

Definition run_loop {S A} (E : env) (l : loop S A) (schedule : list action)
  : loop S A :=
  fold_left (loop_step E) schedule l.

(** *** What holds while a task runs *)

(** [during P Q r]: the state satisfies [P] at every event of [r], provided
    it is handed back satisfying [P] each time, and [Q] when [r] is done. *)
Fixpoint during {S A} (P Q : S -> Prop) (r : react S A) : Prop :=
  match r with
  | Done _ s => Q s
  | Ask s e k => P s /\ forall x s', P s' -> during P Q (k x s')
  end.

(** A task that is suspended in an exchange and satisfies [during P Q] from
    there on. *)
Definition in_flight {S A} (P Q : S -> Prop) (t : task S A) : Prop :=
  match t with
  | Waiting _ k => forall x s', P s' -> during P Q (k x s')
  | _ => False
  end.

(** A task that leaves [P] as it finds it, wherever it stands. *)
Definition bystander {S A} (P : S -> Prop) (t : task S A) : Prop :=
  match t with
  | Ready m => forall s, P s -> during P P (m s)
  | Waiting _ k => forall x s', P s' -> during P P (k x s')
  | Finished _ => True
  end.

(** [keeps P m]: from a state that satisfies [P], [m] satisfies it at every
    event and at its end. *)
Definition keeps {S A} (P : S -> Prop) (m : prog S A) : Prop :=
  forall s, P s -> during P P (m s).

(** The refresh task [i] of a loop is done, or it is in flight with [P]
    holding of the shared state and every other task a bystander. *)
Definition guarded_loop {S A} (P Q : S -> Prop) (i : nat) (l : loop S A) : Prop :=
  (exists r, tasks l !! i = Some (Finished r))
  \/ (P (shared l)
      /\ (exists t, tasks l !! i = Some t /\ in_flight P Q t)
      /\ forall j t, j <> i -> tasks l !! j = Some t -> bystander P t).

(** What a finished HTTP exchange gives the code that awaited it. *)
Definition session_json {S} (rq : http_request) : prog S json :=
  (reply <- ask (Http rq) ;;
   match reply with
   | ConnError e => raise e
   | Response _ _ body => lift body
   end)%prog.

(** * The SDK client
    [truex_sharing/customerapi.py] *)
Module Sdk.

Record TrueXTokenInfo : Type := {
  access_token : json;
  refresh_token : json;
  expire_time : json;
  uid : json;
  token_acquired_at : json
}.

(** The fields of [CustomerApi]. *)
Record CustomerApi : Type := {
  api_url : string;
  client_id : string;
  secret : string;
  schema : string;
  token_info : TrueXTokenInfo;
  token_listener : bool
}.

Section WithRuntime.
Context `{PyRuntime}.

(** [TrueXTokenInfo(token_response)] *)
Definition new_token_info {S} (token_response : option dict) : prog S TrueXTokenInfo :=
  match token_response with
  | Some ((_ :: _) as r) =>
      (let result := dict_get_default r "result" (JObj r) in
       access <- lift (py_get result "access_token" (JStr "")) ;;
       refresh <- lift (py_get result "refresh_token" (JStr "")) ;;
       expire <- lift (py_get result "expire_time" (JInt 0)) ;;
       u <- lift (py_get result "uid" (JStr "")) ;;
       now <- ask Clock ;;
       ret {| access_token := access; refresh_token := refresh;
              expire_time := expire; uid := u;
              token_acquired_at := JFloat now |})%prog
  | _ =>
      ret {| access_token := JStr ""; refresh_token := JStr "";
             expire_time := JInt 0; uid := JStr "";
             token_acquired_at := JFloat 0 |}
  end.

(** [TrueXTokenInfo.is_expired] *)
Definition is_expired {S} (t : TrueXTokenInfo) : prog S bool :=
  if negb (truthy (access_token t)) then ret true
  else
    (now <- ask Clock ;;
     lift (a <- py_add (token_acquired_at t) (expire_time t) ;;
           d <- py_sub a (JInt 60) ;;
           match num_lt d (JFloat now) with
           | Some b => Ok b
           | None => Exn TypeError
           end)%res)%prog.

(** [TrueXTokenInfo.to_dict] *)
Definition to_dict (t : TrueXTokenInfo) : dict :=
  [ ("access_token", access_token t);
    ("refresh_token", refresh_token t);
    ("expire_time", expire_time t);
    ("uid", uid t);
    ("token_acquired_at", token_acquired_at t) ].

(** [TrueXTokenInfo.from_dict] *)
Definition from_dict (data : dict) : TrueXTokenInfo :=
  {| access_token := dict_get_default data "access_token" (JStr "");
     refresh_token := dict_get_default data "refresh_token" (JStr "");
     expire_time := dict_get_default data "expire_time" (JInt 0);
     uid := dict_get_default data "uid" (JStr "");
     token_acquired_at := dict_get_default data "token_acquired_at" (JFloat 0) |}.

(** [CustomerApi.__init__] *)
Definition new_api (url cid sec sch : string) : CustomerApi :=
  {| api_url := rstrip_slash url; client_id := cid; secret := sec; schema := sch;
     token_info := {| access_token := JStr ""; refresh_token := JStr "";
                      expire_time := JInt 0; uid := JStr "";
                      token_acquired_at := JFloat 0 |};
     token_listener := false |}.

Definition set_token_info (t : TrueXTokenInfo) (a : CustomerApi) : CustomerApi :=
  {| api_url := api_url a; client_id := client_id a; secret := secret a;
     schema := schema a; token_info := t; token_listener := token_listener a |}.

(** The [string_to_sign] that [_calc_sign] builds before it signs. *)
Definition string_to_sign (method path : string) (query_params : option dict)
    (body : string) : string :=
  let content_hash := sha256_hexdigest body in
  let sorted_query :=
    match query_params with
    | Some ((_ :: _) as q) =>
        let sorted_keys := sorted (map fst q) in
        join "&" (map (fun k => k +:+ "=" +:+ py_str (dict_get_default q k JNull))
                      sorted_keys)
    | _ => ""
    end in
  let url_with_query :=
    if negb (String.eqb sorted_query "") then path +:+ "?" +:+ sorted_query
    else path in
  let headers_str := "" in
  method +:+ nl +:+ content_hash +:+ nl +:+ headers_str +:+ nl +:+ url_with_query.

(** The signature [_calc_sign] computes for a timestamp. *)
Definition sign_with (self : CustomerApi) (method path : string)
    (query_params : option dict) (body timestamp nonce : string)
    (use_token : bool) : string :=
  let access_token := if use_token then access_token (token_info self) else JStr "" in
  let sign_str := client_id self +:+ py_str access_token +:+ timestamp +:+ nonce
                  +:+ string_to_sign method path query_params body in
  hmac_sha256_upper (secret self) sign_str.

(** [CustomerApi._calc_sign], called without a timestamp as everywhere in
    the client: the signature and the timestamp it read. *)
Definition _calc_sign (method path : string) (query_params : option dict)
    (body nonce : string) (use_token : bool) : prog CustomerApi (string * string) :=
  (now <- ask Clock ;;
   let timestamp := pretty (millis now) in
   self <- get ;;
   ret (sign_with self method path query_params body timestamp nonce use_token,
        timestamp))%prog.

(** The headers [_build_headers] makes of a signature and its timestamp. *)
Definition headers_with (self : CustomerApi) (sign timestamp : string)
    (use_token : bool) : dict :=
  let headers :=
    [ ("client_id", JStr (client_id self)); ("sign", JStr sign);
      ("t", JStr timestamp); ("sign_method", JStr "HMAC-SHA256");
      ("Content-Type", JStr "application/json") ] in
  if use_token && truthy (access_token (token_info self))
  then headers ++ [("access_token", access_token (token_info self))]
  else headers.

(** [CustomerApi._build_headers] *)
Definition _build_headers (method path : string) (query_params : option dict)
    (body : string) (use_token : bool) : prog CustomerApi dict :=
  (let nonce := "" in
   st <- _calc_sign method path query_params body nonce use_token ;;
   self <- get ;;
   ret (headers_with self (fst st) (snd st) use_token))%prog.

(** The success branch shared by the two token calls. *)
Definition store_token (response : json) : prog CustomerApi unit :=
  (info <- new_token_info (match response with JObj d => Some d | _ => None end) ;;
   modify (set_token_info info) ;;
   self <- get ;;
   if token_listener self
   then (r <- ask (TokenListener (to_dict (token_info self))) ;; lift r)
   else ret tt)%prog.

(** [CustomerApi.get_access_token] *)
Definition get_access_token : prog CustomerApi json :=
  (let path := "/v1.0/token" in
   let query_params := [("grant_type", JStr "1")] in
   headers <- _build_headers "GET" path (Some query_params) "" false ;;
   self <- get ;;
   let url := api_url self +:+ path +:+ "?" +:+ urlencode query_params in
   response <- session_json {| rq_method := "GET"; rq_url := url; rq_headers := headers;
                               rq_data := None; rq_json := None |} ;;
   success <- lift (py_get response "success" JNull) ;;
   if truthy success
   then (store_token response ;; ret response)
   else (msg <- lift (py_get response "msg" (JStr "Unknown error")) ;;
         code <- lift (py_get response "code" (JStr "N/A")) ;;
         raise (TrueXAPIError "Failed to get access token" msg code)))%prog.

(** [CustomerApi.refresh_access_token] *)
Definition refresh_access_token : prog CustomerApi json :=
  (self <- get ;;
   if negb (truthy (refresh_token (token_info self))) then get_access_token
   else
     let path := "/v1.0/token/" +:+ py_str (refresh_token (token_info self)) in
     headers <- _build_headers "GET" path None "" false ;;
     self <- get ;;
     let url := api_url self +:+ path in
     response <- session_json {| rq_method := "GET"; rq_url := url;
                                 rq_headers := headers;
                                 rq_data := None; rq_json := None |} ;;
     success <- lift (py_get response "success" JNull) ;;
     if truthy success
     then (store_token response ;; ret response)
     else get_access_token)%prog.

(** [CustomerApi._ensure_token] *)
Definition _ensure_token : prog CustomerApi unit :=
  (self <- get ;;
   expired <- is_expired (token_info self) ;;
   if expired
   then if truthy (refresh_token (token_info self))
        then (refresh_access_token ;; ret tt)
        else (get_access_token ;; ret tt)
   else ret tt)%prog.

(** [code in (1010, "1010")] *)
Definition invalid_token_code (code : json) : bool :=
  key_eqb code (JInt 1010) || key_eqb code (JStr "1010").

(** One [session.request(method, url, **kwargs)] of [request], with the
    headers built for it. *)
Definition send (method url : string) (headers : dict) (data : option string)
  : prog CustomerApi json :=
  session_json {| rq_method := method; rq_url := url; rq_headers := headers;
                  rq_data := data; rq_json := None |}.

(** [CustomerApi.request] *)
Definition request (method path : string) (query_params body : option dict)
  : prog CustomerApi json :=
  (_ensure_token ;;
   let body_str := match body with
                   | Some ((_ :: _) as b) => json_dumps (JObj b)
                   | _ => ""
                   end in
   headers <- _build_headers method path query_params body_str true ;;
   self <- get ;;
   let url := match query_params with
              | Some ((_ :: _) as p) => api_url self +:+ path +:+ "?" +:+ urlencode p
              | _ => api_url self +:+ path
              end in
   let data := match body with
               | Some (_ :: _) => Some body_str
               | _ => None
               end in
   response <- send method url headers data ;;
   success <- lift (py_get response "success" JNull) ;;
   if negb (truthy success)
   then
     code <- lift (py_get response "code" (JStr "N/A")) ;;
     msg <- lift (py_get response "msg" (JStr "Unknown error")) ;;
     if invalid_token_code code
     then
       get_access_token ;;
       headers <- _build_headers method path query_params body_str true ;;
       response <- send method url headers data ;;
       success <- lift (py_get response "success" JNull) ;;
       if negb (truthy success)
       then (msg <- lift (py_get response "msg" JNull) ;;
             code <- lift (py_get response "code" JNull) ;;
             raise (TrueXAPIError "API error after retry" msg code))
       else ret response
     else ret response
   else ret response)%prog.

(** The exchange [request] makes for a client in the state [self] that reads
    the clock at [now]. *)
Definition request_at (self : CustomerApi) (now : Q) (method path : string)
    (query_params body : option dict) : http_request :=
  let body_str := match body with
                  | Some ((_ :: _) as b) => json_dumps (JObj b)
                  | _ => ""
                  end in
  let timestamp := pretty (millis now) in
  {| rq_method := method;
     rq_url := match query_params with
               | Some ((_ :: _) as p) => api_url self +:+ path +:+ "?" +:+ urlencode p
               | _ => api_url self +:+ path
               end;
     rq_headers := headers_with self
                     (sign_with self method path query_params body_str timestamp "" true)
                     timestamp true;
     rq_data := match body with
                | Some (_ :: _) => Some body_str
                | _ => None
                end;
     rq_json := None |}.

(** The exchange [get_access_token] makes. *)
Definition token_request_at (self : CustomerApi) (now : Q) : http_request :=
  let timestamp := pretty (millis now) in
  {| rq_method := "GET";
     rq_url := api_url self +:+ "/v1.0/token" +:+ "?"
               +:+ urlencode [("grant_type", JStr "1")];
     rq_headers := headers_with self
                     (sign_with self "GET" "/v1.0/token"
                        (Some [("grant_type", JStr "1")]) "" timestamp "" false)
                     timestamp false;
     rq_data := None;
     rq_json := None |}.

(** [CustomerApi.get], [post], [put] and [delete] *)
Definition get_ (path : string) (query_params : option dict) : prog CustomerApi json :=
  request "GET" path query_params None.

Definition post (path : string) (body query_params : option dict)
  : prog CustomerApi json :=
  request "POST" path query_params body.

Definition put (path : string) (body query_params : option dict)
  : prog CustomerApi json :=
  request "PUT" path query_params body.

Definition delete (path : string) (query_params : option dict)
  : prog CustomerApi json :=
  request "DELETE" path query_params None.

(** [CustomerApi.get_user_by_username] *)
Definition get_user_by_username (username : json) : prog CustomerApi json :=
  (self <- get ;;
   get_ ("/v2.0/apps/" +:+ schema self +:+ "/users") (Some [("username", username)]))%prog.

(** [CustomerApi.get_user_homes] *)
Definition get_user_homes (uid : json) : prog CustomerApi json :=
  get_ ("/v1.0/users/" +:+ py_str uid +:+ "/homes") None.

(** [CustomerApi.get_user_devices] *)
Definition get_user_devices (uid : json) : prog CustomerApi json :=
  get_ ("/v1.0/users/" +:+ py_str uid +:+ "/devices") (Some [("page_size", JStr "100")]).

(** [CustomerApi.get_device_status] *)
Definition get_device_status (device_id : json) : prog CustomerApi json :=
  get_ ("/v1.0/devices/" +:+ py_str device_id +:+ "/status") None.

(** [CustomerApi.get_device_specifications] *)
Definition get_device_specifications (device_id : json) : prog CustomerApi json :=
  get_ ("/v1.0/devices/" +:+ py_str device_id +:+ "/specifications") None.

(** [CustomerApi.send_device_commands] *)
Definition send_device_commands (device_id commands : json) : prog CustomerApi json :=
  post ("/v1.0/devices/" +:+ py_str device_id +:+ "/commands")
       (Some [("commands", commands)]) None.

(** [CustomerApi.get_device_info] *)
Definition get_device_info (device_id : json) : prog CustomerApi json :=
  get_ ("/v1.0/devices/" +:+ py_str device_id) None.

End WithRuntime.
End Sdk.

(** * The integration client
    [custom_components/truex/truex_sharing/customerapi.py] *)
Module Integration.

Section WithRuntime.
Context `{PyRuntime}.

Record TrueXTokenInfo : Type := {
  access_token : json;
  refresh_token : json;
  uid : json;
  expire_time : json;
  expire_at : json
}.

(** [TrueXTokenInfo(token_response)] *)
Definition new_token_info (token_response : option dict) : res TrueXTokenInfo :=
  match token_response with
  | Some ((_ :: _) as r) =>
      let t := dict_get_default r "t" (JInt 0) in
      let expire_secs := dict_get_default r "expire_time" (JInt 0) in
      (ms <- py_mul_int expire_secs 1000 ;;
       at_ <- py_add t ms ;;
       Ok {| access_token := dict_get_default r "access_token" (JStr "");
             refresh_token := dict_get_default r "refresh_token" (JStr "");
             uid := dict_get_default r "uid" (JStr "");
             expire_time := expire_secs;
             expire_at := at_ |})%res
  | _ =>
      Ok {| access_token := JStr ""; refresh_token := JStr ""; uid := JStr "";
            expire_time := JInt 0; expire_at := JInt 0 |}
  end.

(** [TrueXTokenInfo.is_expired] *)
Definition is_expired {S} (t : TrueXTokenInfo) : prog S bool :=
  if negb (truthy (access_token t)) then ret true
  else
    (now <- ask Clock ;;
     let now_ms := JInt (millis now) in
     lift (d <- py_sub (expire_at t) (JInt 60000) ;;
           match num_le d now_ms with
           | Some b => Ok b
           | None => Exn TypeError
           end)%res)%prog.

(** [TrueXTokenInfo.to_dict] *)
Definition to_dict (t : TrueXTokenInfo) : dict :=
  [ ("access_token", access_token t);
    ("refresh_token", refresh_token t);
    ("uid", uid t);
    ("expire_time", expire_time t);
    ("expire_at", expire_at t) ].

(** [TrueXTokenInfo.from_dict] *)
Definition from_dict (data : dict) : TrueXTokenInfo :=
  {| access_token := dict_get_default data "access_token" (JStr "");
     refresh_token := dict_get_default data "refresh_token" (JStr "");
     uid := dict_get_default data "uid" (JStr "");
     expire_time := dict_get_default data "expire_time" (JInt 0);
     expire_at := dict_get_default data "expire_at" (JInt 0) |}.

(** [_calc_sign]: the access token selects business mode. *)
Definition _calc_sign (client_id secret timestamp nonce sign_str : string)
    (access_token : json) : res string :=
  (raw <- (if truthy access_token
           then (a <- str_add client_id access_token ;;
                 Ok (a +:+ timestamp +:+ nonce +:+ sign_str))
           else Ok (client_id +:+ timestamp +:+ nonce +:+ sign_str)) ;;
   Ok (hmac_sha256_upper secret raw))%res.

(** [_string_to_sign] *)
Definition _string_to_sign (method path : string) (query : option dict)
    (body : string) : string :=
  let body_hash := sha256_hexdigest body in
  let url :=
    match query with
    | Some ((_ :: _) as q) =>
        let sorted_keys := sorted (map fst q) in
        let qs := join "&" (map (fun k => k +:+ "=" +:+ py_str (dict_get_default q k JNull))
                                sorted_keys) in
        path +:+ "?" +:+ qs
    | _ => path
    end in
  let headers_str := "" in
  method +:+ nl +:+ body_hash +:+ nl +:+ headers_str +:+ nl +:+ url.

(** The fields of [CustomerApi]. *)
Record CustomerApi : Type := {
  api_url : string;
  client_id : string;
  secret : string;
  schema : string;
  token_info : TrueXTokenInfo;
  token_listener : bool;
  _refreshing_token : bool
}.

(** [CustomerApi.__init__] *)
Definition new_api (url cid sec sch : string) : CustomerApi :=
  {| api_url := rstrip_slash url; client_id := cid; secret := sec; schema := sch;
     token_info := {| access_token := JStr ""; refresh_token := JStr "";
                      uid := JStr ""; expire_time := JInt 0; expire_at := JInt 0 |};
     token_listener := false;
     _refreshing_token := false |}.

Definition set_token_info (t : TrueXTokenInfo) (a : CustomerApi) : CustomerApi :=
  {| api_url := api_url a; client_id := client_id a; secret := secret a;
     schema := schema a; token_info := t; token_listener := token_listener a;
     _refreshing_token := _refreshing_token a |}.

Definition set_refreshing (b : bool) (a : CustomerApi) : CustomerApi :=
  {| api_url := api_url a; client_id := client_id a; secret := secret a;
     schema := schema a; token_info := token_info a;
     token_listener := token_listener a; _refreshing_token := b |}.

Definition token_headers (cid sign timestamp : string) : dict :=
  [ ("client_id", JStr cid); ("sign", JStr sign); ("t", JStr timestamp);
    ("sign_method", JStr "HMAC-SHA256"); ("Content-Type", JStr "application/json") ].

(** The success branch shared by the two token calls: the stored token is
    replaced as a whole and the listener, if any, is told. *)
Definition store_token (response : json) : prog CustomerApi unit :=
  (result <- lift (py_get response "result" (JObj [])) ;;
   t <- lift (py_get response "t" (JInt 0)) ;;
   expire <- lift (py_get result "expire_time" (JInt 0)) ;;
   u <- lift (py_get result "uid" (JStr "")) ;;
   access <- lift (py_get result "access_token" (JStr "")) ;;
   refresh <- lift (py_get result "refresh_token" (JStr "")) ;;
   let token_data := [ ("t", t); ("expire_time", expire); ("uid", u);
                       ("access_token", access); ("refresh_token", refresh) ] in
   info <- lift (new_token_info (Some token_data)) ;;
   modify (set_token_info info) ;;
   self <- get ;;
   if token_listener self
   then (r <- ask (TokenListener (to_dict (token_info self))) ;; lift r)
   else ret tt)%prog.

(** [CustomerApi.get_access_token] *)
Definition get_access_token : prog CustomerApi json :=
  (self <- get ;;
   let path := "/v1.0/token" in
   let query_params := [("grant_type", JStr "1")] in
   now <- ask Clock ;;
   let timestamp := pretty (millis now) in
   let sign_str := _string_to_sign "GET" path (Some query_params) "" in
   sign <- lift (_calc_sign (client_id self) (secret self) timestamp "" sign_str (JStr "")) ;;
   let headers := token_headers (client_id self) sign timestamp in
   let url := api_url self +:+ path +:+ "?" +:+ urlencode query_params in
   response <- session_json {| rq_method := "GET"; rq_url := url; rq_headers := headers;
                               rq_data := None; rq_json := None |} ;;
   success <- lift (py_get response "success" JNull) ;;
   if truthy success
   then (store_token response ;; ret response)
   else (msg <- lift (py_get response "msg" (JStr "Unknown error")) ;;
         code <- lift (py_get response "code" (JStr "N/A")) ;;
         raise (TrueXAPIError "Failed to get access token" msg code)))%prog.

(** [CustomerApi._refresh_access_token] *)
Definition _refresh_access_token : prog CustomerApi unit :=
  (self <- get ;;
   if _refreshing_token self then ret tt
   else
     modify (set_refreshing true) ;;
     finally
       (catch
          (self <- get ;;
           path <- lift (str_add "/v1.0/token/" (refresh_token (token_info self))) ;;
           now <- ask Clock ;;
           let timestamp := pretty (millis now) in
           let sign_str := _string_to_sign "GET" path None "" in
           sign <- lift (_calc_sign (client_id self) (secret self) timestamp ""
                                    sign_str (JStr "")) ;;
           let headers := token_headers (client_id self) sign timestamp in
           let url := api_url self +:+ path in
           response <- session_json {| rq_method := "GET"; rq_url := url;
                                       rq_headers := headers;
                                       rq_data := None; rq_json := None |} ;;
           success <- lift (py_get response "success" JNull) ;;
           if truthy success
           then store_token response
           else (get_access_token ;; ret tt))
          (fun _ => get_access_token ;; ret tt))
       (set_refreshing false))%prog.

(** [CustomerApi._ensure_token] *)
Definition _ensure_token : prog CustomerApi unit :=
  (self <- get ;;
   expired <- is_expired (token_info self) ;;
   if expired
   then if truthy (refresh_token (token_info self))
        then _refresh_access_token
        else (get_access_token ;; ret tt)
   else ret tt)%prog.

Definition truthy_dict (d : option dict) : bool :=
  match d with
  | Some (_ :: _) => true
  | _ => false
  end.

(** The first half of [CustomerApi.request], up to the call of
    [session.request]: the signed request for the clock reading [now]. *)
Definition signed_request (self : CustomerApi) (now : Q) (method path : string)
    (params body : option dict) : res http_request :=
  let timestamp := pretty (millis now) in
  let body_str := match body with
                  | Some ((_ :: _) as b) => json_dumps (JObj b)
                  | _ => ""
                  end in
  let sign_str := _string_to_sign method path params body_str in
  (sign <- _calc_sign (client_id self) (secret self) timestamp "" sign_str
                      (access_token (token_info self)) ;;
   let headers :=
     [ ("client_id", JStr (client_id self));
       ("access_token", access_token (token_info self));
       ("sign", JStr sign); ("t", JStr timestamp);
       ("sign_method", JStr "HMAC-SHA256");
       ("Content-Type", JStr "application/json") ] in
   let url := match params with
              | Some ((_ :: _) as p) => api_url self +:+ path +:+ "?" +:+ urlencode p
              | _ => api_url self +:+ path
              end in
   Ok {| rq_method := method; rq_url := url; rq_headers := headers;
         rq_data := None;
         rq_json := if truthy_dict body then body else None |})%res.

(** The second half of [CustomerApi.request]: what it makes of the reply. *)
Definition read_response (reply : http_reply) : res json :=
  match reply with
  | ConnError e => Exn e
  | Response false text _ =>
      (_ <- text ;; Ok (JObj [("success", JBool false)]))%res
  | Response true _ body =>
      (response <- body ;;
       success <- py_get response "success" JNull ;;
       if negb (truthy success)
       then (code <- py_get response "code" (JStr "N/A") ;;
             msg <- py_get response "msg" (JStr "Unknown error") ;;
             Exn (TrueXAPIError "API error" msg code))
       else Ok response)%res
  end.

(** [CustomerApi.request] *)
Definition request (method path : string) (params body : option dict)
  : prog CustomerApi json :=
  (_ensure_token ;;
   now <- ask Clock ;;
   self <- get ;;
   rq <- lift (signed_request self now method path params body) ;;
   reply <- ask (Http rq) ;;
   lift (read_response reply))%prog.

(** [CustomerApi.get] and [CustomerApi.post] *)
Definition get_ (path : string) (params : option dict) : prog CustomerApi json :=
  request "GET" path params None.

Definition post (path : string) (params body : option dict) : prog CustomerApi json :=
  request "POST" path params body.

(** [CustomerApi.get_user_devices] *)
Definition get_user_devices (uid : string) : prog CustomerApi json :=
  get_ ("/v1.0/users/" +:+ uid +:+ "/devices") None.

(** [CustomerApi.get_device_status] *)
Definition get_device_status (device_id : json) : prog CustomerApi json :=
  get_ ("/v1.0/devices/" +:+ py_str device_id +:+ "/status") None.

(** [CustomerApi.get_device_specifications] *)
Definition get_device_specifications (device_id : json) : prog CustomerApi json :=
  get_ ("/v1.0/devices/" +:+ py_str device_id +:+ "/specifications") None.

(** [CustomerApi.send_device_commands] *)
Definition send_device_commands (device_id commands : json) : prog CustomerApi json :=
  post ("/v1.0/devices/" +:+ py_str device_id +:+ "/commands") None
       (Some [("commands", commands)]).

(** [CustomerApi.put] and [CustomerApi.delete] *)
Definition put (path : string) (body : option dict) : prog CustomerApi json :=
  request "PUT" path None body.

Definition delete (path : string) (params : option dict) : prog CustomerApi json :=
  request "DELETE" path params None.

(** [CustomerApi.get_user_by_username] *)
Definition get_user_by_username (username : json) : prog CustomerApi json :=
  (self <- get ;;
   get_ ("/v2.0/apps/" +:+ schema self +:+ "/users") (Some [("username", username)]))%prog.

(** [CustomerApi.get_user_homes] *)
Definition get_user_homes (uid : json) : prog CustomerApi json :=
  get_ ("/v1.0/users/" +:+ py_str uid +:+ "/homes") None.

(** [CustomerApi.get_device_info] *)
Definition get_device_info (device_id : json) : prog CustomerApi json :=
  get_ ("/v1.0/devices/" +:+ py_str device_id) None.

(** [CustomerApi.get_device_stream_allocate] *)
Definition get_device_stream_allocate (uid : string) (device_id stream_type : json)
  : prog CustomerApi json :=
  post ("/v1.0/users/" +:+ uid +:+ "/devices/" +:+ py_str device_id
        +:+ "/stream/actions/allocate")
       None (Some [("type", stream_type)]).

(** [CustomerApi.get_device_functions] *)
Definition get_device_functions (device_id : json) : prog CustomerApi json :=
  get_ ("/v1.0/devices/" +:+ py_str device_id +:+ "/functions") None.

(** The exchange [get_access_token] makes for a client in the state [self]
    that reads the clock at [now]. *)
Definition token_request_at (self : CustomerApi) (now : Q) : http_request :=
  let timestamp := pretty (millis now) in
  {| rq_method := "GET";
     rq_url := api_url self +:+ "/v1.0/token" +:+ "?"
               +:+ urlencode [("grant_type", JStr "1")];
     rq_headers := token_headers (client_id self)
                     (hmac_sha256_upper (secret self)
                        (client_id self +:+ timestamp +:+ ""
                         +:+ _string_to_sign "GET" "/v1.0/token"
                               (Some [("grant_type", JStr "1")]) ""))
                     timestamp;
     rq_data := None;
     rq_json := None |}.

(** The exchange [_refresh_access_token] makes with the refresh token
    [refresh]. *)
Definition refresh_request_at (self : CustomerApi) (now : Q) (refresh : string)
  : http_request :=
  let timestamp := pretty (millis now) in
  let path := "/v1.0/token/" +:+ refresh in
  {| rq_method := "GET";
     rq_url := api_url self +:+ path;
     rq_headers := token_headers (client_id self)
                     (hmac_sha256_upper (secret self)
                        (client_id self +:+ timestamp +:+ ""
                         +:+ _string_to_sign "GET" path None ""))
                     timestamp;
     rq_data := None;
     rq_json := None |}.

End WithRuntime.
End Integration.

(** * The device manager
    [custom_components/truex/truex_sharing/manager.py] *)
Module Sync.
Import Integration.

Section WithRuntime.
Context `{PyRuntime}.

(** The fields of [Manager]; listeners are known by their position in
    [device_listeners]. *)
Record Manager : Type := {
  api : CustomerApi;
  uid : string;
  device_map : pydict CustomerDevice;
  device_listeners : nat
}.

(** [Manager.__init__] *)
Definition new_manager (a : CustomerApi) (u : string) : Manager :=
  {| api := a; uid := u; device_map := []; device_listeners := 0 |}.

Definition set_api (a : CustomerApi) (m : Manager) : Manager :=
  {| api := a; uid := uid m; device_map := device_map m;
     device_listeners := device_listeners m |}.

Definition set_device_map (dm : pydict CustomerDevice) (m : Manager) : Manager :=
  {| api := api m; uid := uid m; device_map := dm;
     device_listeners := device_listeners m |}.

(** [Manager.add_device_listener] *)
Definition add_device_listener (m : Manager) : Manager :=
  {| api := api m; uid := uid m; device_map := device_map m;
     device_listeners := S (device_listeners m) |}.

(** A call on [self.api]. *)
Definition on_api {A} (m : prog CustomerApi A) : prog Manager A :=
  zoom api set_api m.

(** An in-place change of the device object stored under [k]. *)
Definition modify_device (k : json) (f : CustomerDevice -> CustomerDevice)
  : prog Manager unit :=
  modify (fun m => set_device_map (pd_alter f k (device_map m)) m).

(** The loop [for status_item in status_list: ... status[code] = value]:
    the mapping as the loop leaves it, and whether the loop raised. *)
Fixpoint merge_status (items : list json) (st : pydict json)
  : pydict json * res unit :=
  match items with
  | [] => (st, Ok tt)
  | JObj status_item :: rest =>
      let code := dict_get_default status_item "code" (JStr "") in
      let value := dict_get_default status_item "value" JNull in
      if truthy code
      then match pd_set st code value with
           | Ok st' => merge_status rest st'
           | Exn e => (st, Exn e)
           end
      else merge_status rest st
  | _ :: _ => (st, Exn AttributeError)
  end.

(** The exceptions [except (json.JSONDecodeError, TypeError)] catches. *)
Definition decode_error (e : exn) : bool :=
  match e with
  | TypeError => true
  | OtherError name => String.eqb name "JSONDecodeError"
  | _ => false
  end.

(** [json.loads(values) if isinstance(values, str) else values], with [{}]
    when the text is not JSON; any other exception of [json.loads] goes on
    to the caller. *)
Definition parse_values (values : json) : res json :=
  match values with
  | JStr s => match json_loads s with
              | Ok v => Ok v
              | Exn e => if decode_error e then Ok (JObj []) else Exn e
              end
  | v => Ok v
  end.

(** The loops over [result["functions"]] and [result["status"]], which
    differ only in the mapping they fill. *)
Fixpoint merge_specs (items : list json) (m : pydict json)
  : pydict json * res unit :=
  match items with
  | [] => (m, Ok tt)
  | JObj entry :: rest =>
      let code := dict_get_default entry "code" (JStr "") in
      if truthy code
      then
        let values := dict_get_default entry "values" (JStr "{}") in
        match parse_values values with
        | Ok parsed_values =>
            match pd_set m code
                    (JObj [ ("type", dict_get_default entry "type" (JStr ""));
                            ("values", parsed_values) ]) with
            | Ok m' => merge_specs rest m'
            | Exn e => (m, Exn e)
            end
        | Exn e => (m, Exn e)
        end
      else merge_specs rest m
  | _ :: _ => (m, Exn AttributeError)
  end.

(** A loop that fills one mapping of the device object stored under [k]. *)
Definition fill (k : json) (items : list json)
    (merge : list json -> pydict json -> pydict json * res unit)
    (field : CustomerDevice -> pydict json)
    (set_field : pydict json -> CustomerDevice -> CustomerDevice)
  : prog Manager unit :=
  (self <- get ;;
   match pd_get (device_map self) k with
   | None => ret tt
   | Some device =>
       let '(m, r) := merge items (field device) in
       modify_device k (set_field m) ;; lift r
   end)%prog.

(** [Manager._fetch_device_specifications], for the device object stored
    under [k]. *)
Definition _fetch_device_specifications (k : json) : prog Manager unit :=
  catch
    (self <- get ;;
     match pd_get (device_map self) k with
     | None => ret tt
     | Some device =>
         response <- on_api (get_device_specifications (id device)) ;;
         success <- lift (py_get response "success" JNull) ;;
         if negb (truthy success) then ret tt
         else
           result <- lift (py_get response "result" (JObj [])) ;;
           fs <- lift (py_get result "functions" (JList [])) ;;
           fitems <- lift (py_iter fs) ;;
           fill k fitems merge_specs functions set_functions ;;
           srs <- lift (py_get result "status" (JList [])) ;;
           sitems <- lift (py_iter srs) ;;
           fill k sitems merge_specs status_range set_status_range
     end)%prog
    (fun _ => ret tt).

(** The first loop of [update_device_cache]: one entry of the device list. *)
Definition cache_device (dm : pydict CustomerDevice) (dev_data : json)
  : res (pydict CustomerDevice) :=
  (device_id <- py_get dev_data "id" (JStr "") ;;
   if negb (truthy device_id) then Ok dm
   else
     device <- from_api_response dev_data ;;
     status_list <- py_get dev_data "status" (JList []) ;;
     items <- py_iter status_list ;;
     match merge_status items (status device) with
     | (st, Ok _) => pd_set dm device_id (set_status st device)
     | (_, Exn e) => Exn e
     end)%res.

(** The first loop of [update_device_cache]: the registry as the loop leaves
    it, and whether the loop raised. *)
Fixpoint cache_devices (devices : list json) (dm : pydict CustomerDevice)
  : pydict CustomerDevice * res unit :=
  match devices with
  | [] => (dm, Ok tt)
  | dev_data :: rest =>
      match cache_device dm dev_data with
      | Ok dm' => cache_devices rest dm'
      | Exn e => (dm, Exn e)
      end
  end.

(** [Manager.update_device_cache] *)
Definition update_device_cache : prog Manager unit :=
  (self <- get ;;
   response <- on_api (get_user_devices (uid self)) ;;
   success <- lift (py_get response "success" JNull) ;;
   if negb (truthy success) then ret tt
   else
     devices_data <- lift (py_get response "result" (JList [])) ;;
     _ <- lift (py_len devices_data) ;;
     devices <- lift (py_iter devices_data) ;;
     self <- get ;;
     let '(dm, r) := cache_devices devices (device_map self) in
     modify (set_device_map dm) ;;
     lift r ;;
     self <- get ;;
     for_each (pd_keys (device_map self)) _fetch_device_specifications)%prog.

(** [for listener in self.device_listeners: listener.update_device(device)] *)
Fixpoint notify_listeners (n i : nat) (k : json) : prog Manager unit :=
  match n with
  | O => ret tt
  | S n' =>
      (self <- get ;;
       match pd_get (device_map self) k with
       | None => ret tt
       | Some device =>
           r <- ask (DeviceListener i device) ;;
           lift r ;;
           notify_listeners n' (S i) k
       end)%prog
  end.

(** The body of the loop of [update_device_status], for the device stored
    under [k]. *)
Definition poll_device (k : json) : prog Manager unit :=
  catch
    (response <- on_api (get_device_status k) ;;
     success <- lift (py_get response "success" JNull) ;;
     if truthy success
     then
       status_list <- lift (py_get response "result" (JList [])) ;;
       items <- lift (py_iter status_list) ;;
       fill k items merge_status status set_status ;;
       self <- get ;;
       notify_listeners (device_listeners self) 0 k
     else ret tt)%prog
    (fun _ => ret tt).

(** [Manager.update_device_status] *)
Definition update_device_status : prog Manager unit :=
  (self <- get ;;
   for_each (pd_keys (device_map self)) poll_device)%prog.

(** [Manager.send_commands] *)
Definition send_commands (device_id commands : json) : prog Manager bool :=
  catch
    (response <- on_api (send_device_commands device_id commands) ;;
     success <- lift (py_get response "success" JNull) ;;
     if truthy success then ret true else ret false)%prog
    (fun _ => ret false).

(** [str.upper], which the model has for hexadecimal digits only: what it
    makes of a stream type is left open. *)
Variable str_upper : string -> string.

(** [stream_type.upper()]: only a [str] has the method. *)
Definition py_upper (v : json) : res json :=
  match v with
  | JStr s => Ok (JStr (str_upper s))
  | _ => Exn AttributeError
  end.

(** [Manager.get_device_stream_allocate]; [None] is [JNull]. *)
Definition get_device_stream_allocate (device_id stream_type : json)
  : prog Manager json :=
  catch
    (self <- get ;;
     kind <- lift (py_upper stream_type) ;;
     response <- on_api (Integration.get_device_stream_allocate
                           (uid self) device_id kind) ;;
     success <- lift (py_get response "success" JNull) ;;
     if truthy success
     then (result <- lift (py_get response "result" (JObj [])) ;;
           lift (py_get result "url" JNull))
     else ret JNull)%prog
    (fun _ => ret JNull).

End WithRuntime.
End Sync.

(** * Test doubles *)

Module Mock.

(** A runtime for running the model on examples: [json.dumps] is exact on
    integers, booleans, [None] and on lists and dictionaries of plain ASCII
    strings; [json.loads] knows the empty object only and takes any other
    text for malformed. *)
Fixpoint dumps (v : json) : string :=
  match v with
  | JNull => "null"
  | JBool true => "true"
  | JBool false => "false"
  | JInt n => pretty n
  | JFloat _ => "0.0"
  | JStr s => String (ascii_of_N 34) s +:+ String (ascii_of_N 34) ""
  | JList l => "[" +:+ join ", " (map dumps l) +:+ "]"
  | JObj o =>
      "{" +:+ join ", " (map (fun kv : string * json =>
                                let (k, x) := kv in
                                String (ascii_of_N 34) k
                                +:+ String (ascii_of_N 34) ": " +:+ dumps x) o)
          +:+ "}"
  end.

Definition runtime : PyRuntime :=
  {| py_repr := dumps;
     json_dumps := dumps;
     json_loads := fun s => if String.eqb s "{}" then Ok (JObj [])
                            else Exn (OtherError "JSONDecodeError") |}.

(** A transport that answers the exchanges in order from a script. *)
Definition scripted (replies : list http_reply) (tr : list obs)
    (rq : http_request) : http_reply :=
  nth (length (http_calls tr)) replies (ConnError (OtherError "ClientError")).

(** A stopped clock, a scripted transport, listeners that do nothing. *)
Definition world (now : Q) (replies : list http_reply) : env :=
  {| net := scripted replies;
     clock := fun _ => now;
     on_token := fun _ _ => Ok tt;
     on_device := fun _ _ _ => Ok tt |}.

(** A query in two insertion orders. *)
Definition page_query : dict := [("page_size", JStr "100"); ("last_row_key", JStr "a")].

(** The SDK client holding a token acquired at 900 s and good for two
    hours. *)
Definition sdk0 : Sdk.CustomerApi :=
  Sdk.set_token_info
    {| Sdk.access_token := JStr "tok"; Sdk.refresh_token := JStr "ref";
       Sdk.expire_time := JInt 7200; Sdk.uid := JStr "u1";
       Sdk.token_acquired_at := JFloat 900 |}
    (Sdk.new_api "https://api.example/" "cid" "sec" "app").

(** "A mocked transport that returns success=false with the sentinel
    invalid-token code exactly once then success=true": the business call is
    refused with code 1010, then a token is granted, then the call
    succeeds. *)
Definition rejected : dict :=
  [("success", JBool false); ("code", JInt 1010); ("msg", JStr "token invalid")].

Definition granted : json :=
  JObj [("success", JBool true); ("t", JInt 1000000);
        ("result", JObj [("access_token", JStr "tok2");
                         ("refresh_token", JStr "ref2");
                         ("expire_time", JInt 7200); ("uid", JStr "u1")])].

Definition served : json := JObj [("success", JBool true); ("result", JInt 42)].

Definition invalid_once : list http_reply :=
  [ Response true (Ok "") (Ok (JObj rejected));
    Response true (Ok "") (Ok granted);
    Response true (Ok "") (Ok served) ].

(** A client holding a token that is good for hours, and its manager. *)
Definition api0 : Integration.CustomerApi :=
  Integration.set_token_info
    {| Integration.access_token := JStr "tok";
       Integration.refresh_token := JStr "ref";
       Integration.uid := JStr "u1";
       Integration.expire_time := JInt 7200;
       Integration.expire_at := JInt 9000000 |}
    (Integration.new_api "https://api.example/" "cid" "sec" "app").

Definition manager0 : Sync.Manager := Sync.new_manager api0 "u1".

(** A client whose token has expired and can be refreshed, and two callers
    of [request] on one event loop. *)
Definition expired_api : Integration.CustomerApi :=
  Integration.set_token_info
    {| Integration.access_token := JStr "stale";
       Integration.refresh_token := JStr "ref";
       Integration.uid := JStr "u1";
       Integration.expire_time := JInt 7200;
       Integration.expire_at := JInt 1000 |}
    (Integration.new_api "https://api.example/" "cid" "sec" "app").

Definition two_callers : loop Integration.CustomerApi json :=
  {| shared := expired_api;
     tasks := [ Ready (Integration.request (H := runtime) "GET" "/v1.0/a" None None);
                Ready (Integration.request (H := runtime) "GET" "/v1.0/b" None None) ];
     history := [] |}.

(** The first caller starts and waits for its refresh; the second caller
    starts; then the refresh is answered. *)
Definition overlapped : loop Integration.CustomerApi json :=
  run_loop (world 1000 []) two_callers
    [Start 0; Start 1; Deliver 0 (Response true (Ok "") (Ok granted))].

(** The same business call through either client. *)
Definition sdk_called : res json * Sdk.CustomerApi * list obs :=
  run (world 1000 invalid_once)
      (Sdk.request (H := runtime) "GET" "/v1.0/devices/d1/status" None None sdk0) [].

Definition integration_called : res json * Integration.CustomerApi * list obs :=
  run (world 1000 invalid_once)
      (Integration.request (H := runtime) "GET" "/v1.0/devices/d1/status"
         None None api0) [].

(** A decoded 2xx reply. *)
Definition ok_json (body : json) : http_reply := Response true (Ok "") (Ok body).

Definition success (result : json) : http_reply :=
  ok_json (JObj [("success", JBool true); ("result", result)]).

Definition item (code : string) (value : json) : json :=
  JObj [("code", JStr code); ("value", value)].

(** A list of two devices; the specification of the first cannot be
    fetched, that of the second declares one function. *)
Definition two_devices : list http_reply :=
  [ success (JList
      [ JObj [ ("id", JStr "d1"); ("name", JStr "Lamp");
               ("status", JList [ item "switch_1" (JBool false);
                                  item "bright_value" (JInt 500) ]) ];
        JObj [ ("id", JStr "d2"); ("name", JStr "Plug") ] ]);
    ConnError (OtherError "ClientError");
    success (JObj
      [ ("functions", JList [ JObj [ ("code", JStr "switch");
                                     ("type", JStr "Boolean");
                                     ("values", JStr "{}") ] ]);
        ("status", JList [ JObj [ ("code", JStr "switch");
                                  ("type", JStr "Boolean");
                                  ("values", JStr "{}") ] ]) ]) ].

(** The first device as the list gives it. *)
Definition lamp : CustomerDevice :=
  {| id := JStr "d1"; name := JStr "Lamp"; category := JStr "";
     product_id := JStr ""; product_name := JStr ""; online := JBool false;
     icon := JStr ""; ip := JStr ""; time_zone := JStr ""; local_key := JStr "";
     sub := JBool false; uuid := JStr ""; active_time := JInt 0;
     create_time := JInt 0; update_time := JInt 0;
     status := [(JStr "switch_1", JBool false); (JStr "bright_value", JInt 500)];
     functions := []; status_range := []; set_up := false |}.

(** The registry once the list above is read, before any specification is. *)
Definition listed : Sync.Manager :=
  Sync.set_device_map
    (fst (Sync.cache_devices
            [ JObj [ ("id", JStr "d1"); ("name", JStr "Lamp");
                     ("status", JList [ item "switch_1" (JBool false);
                                        item "bright_value" (JInt 500) ]) ];
              JObj [ ("id", JStr "d2"); ("name", JStr "Plug") ] ] []))
    manager0.

(** A poll that returns [switch_1] for the first device and nothing for the
    second. *)
Definition switch_on : list http_reply :=
  [ success (JList [item "switch_1" (JBool true)]); success (JList []) ].

(** A poll whose only entry has an empty code. *)
Definition empty_code : list http_reply :=
  [ success (JList [item "" (JBool true)]); success (JList []) ].

Definition switch_response : dict :=
  [("success", JBool true); ("result", JList [item "switch_1" (JBool true)])].

Definition polled_switch_on : res unit * Sync.Manager * list obs :=
  run (world 1000 switch_on) (Sync.update_device_status (H := runtime) listed) [].

Definition polled_empty_code : res unit * Sync.Manager * list obs :=
  run (world 1000 empty_code) (Sync.update_device_status (H := runtime) listed) [].

(** The status call for the first device alone. *)
Definition status_called : res json * Integration.CustomerApi * list obs :=
  run (world 1000 switch_on)
      (Integration.get_device_status (H := runtime) (JStr "d1") (Sync.api listed)) [].

(** The device list answered with a 503. *)
Definition list_unavailable : res unit * Sync.Manager * list obs :=
  run (world 1000 [Response false (Ok "Service Unavailable")
                     (Exn (OtherError "ContentTypeError"))])
      (Sync.update_device_cache (H := runtime) manager0) [].

(** The list call of [two_devices] alone, and what it returns. *)
Definition list_called : res json * Sync.Manager * list obs :=
  run (world 1000 two_devices)
      (Sync.on_api (Integration.get_user_devices (H := runtime) "u1") manager0) [].

Definition list_entries : list json :=
  [ JObj [ ("id", JStr "d1"); ("name", JStr "Lamp");
           ("status", JList [ item "switch_1" (JBool false);
                              item "bright_value" (JInt 500) ]) ];
    JObj [ ("id", JStr "d2"); ("name", JStr "Plug") ] ].

Definition list_response : dict :=
  [("success", JBool true); ("result", JList list_entries)].

Definition cached : res unit * Sync.Manager * list obs :=
  run (world 1000 two_devices)
      (Sync.update_device_cache (H := runtime) manager0) [].

(** The second device listed once more, now with a status. *)
Definition relisted : dict :=
  [ ("id", JStr "d2"); ("name", JStr "Plug");
    ("status", JList [item "switch" (JBool true)]) ].

(** A status list that names one code twice. *)
Definition toggled : list json :=
  [ item "switch_1" (JBool true); item "bright_value" (JInt 10);
    item "switch_1" (JBool false) ].

(** A token response that grants a token, and one that refuses it. *)
Definition grant_result : dict :=
  [ ("access_token", JStr "tok2"); ("refresh_token", JStr "ref2");
    ("expire_time", JInt 7200); ("uid", JStr "u1") ].

Definition grant : dict :=
  [ ("success", JBool true); ("t", JInt 1000000); ("result", JObj grant_result) ].

Definition refusal : dict :=
  [ ("success", JBool false); ("code", JInt 1004); ("msg", JStr "sign invalid") ].

(** A client as [__init__] leaves it, and one that a listener watches. *)
Definition fresh_api : Integration.CustomerApi :=
  Integration.new_api "https://api.example/" "cid" "sec" "app".

Definition watched_api : Integration.CustomerApi :=
  {| Integration.api_url := Integration.api_url fresh_api;
     Integration.client_id := "cid"; Integration.secret := "sec";
     Integration.schema := "app";
     Integration.token_info := Integration.token_info fresh_api;
     Integration.token_listener := true;
     Integration._refreshing_token := false |}.

(** A client whose stored access token is a number. *)
Definition numbered_api : Integration.CustomerApi :=
  Integration.set_token_info
    {| Integration.access_token := JInt 7;
       Integration.refresh_token := JStr "ref";
       Integration.uid := JStr "u1";
       Integration.expire_time := JInt 7200;
       Integration.expire_at := JInt 9000000 |}
    fresh_api.

(** A refresh that is refused, a first fallback that cannot connect, a
    second one that is granted. *)
Definition refresh_refused : list http_reply :=
  [ ok_json (JObj refusal); ConnError (OtherError "ClientError"); ok_json (JObj grant) ].

(** A refresh and a caller of the refresh path on one event loop: the
    refresh starts and is refused, and while its fallback token call is in
    flight the caller starts. *)
Definition refresher_and_caller : loop Integration.CustomerApi unit :=
  {| shared := expired_api;
     tasks := [ Ready (Integration._refresh_access_token (H := runtime));
                Ready (Integration._ensure_token (H := runtime)) ];
     history := [] |}.

Definition fallback_in_flight : loop Integration.CustomerApi unit :=
  run_loop (world 1000 []) refresher_and_caller
    [Start 0; Deliver 0 (ok_json (JObj refusal)); Start 1].







(** Two listeners of which the first raises, and a manager they are
    registered with. *)
Definition first_listener_raises (replies : list http_reply) : env :=
  {| net := scripted replies;
     clock := fun _ => inject_Z 1000;
     on_token := fun _ _ => Ok tt;
     on_device := fun _ listener _ =>
                    if Nat.eqb listener 0 then Exn (OtherError "RuntimeError")
                    else Ok tt |}.

Definition watched : Sync.Manager :=
  Sync.add_device_listener (Sync.add_device_listener listed).

End Mock.

(** * The specification's own definitions *)

Module Spec.
Section WithRuntime.
Context `{PyRuntime}.

(** The order of two query pairs: lexicographic on their keys. *)
Definition pair_le (p q : string * json) : Prop := str_le (fst p) (fst q).

#[global] Instance pair_le_dec p q : Decision (pair_le p q).
Proof. unfold pair_le. apply _. Defined.

(** "[sortedQueryString] joins [key=value] pairs sorted lexicographically
    by key with [&]". *)
Definition sortedQueryString (query : dict) : string :=
  join "&" (map (fun kv => fst kv +:+ "=" +:+ py_str (snd kv))
                (merge_sort pair_le query)).

(** "[canonicalRequestString(method, path, query, bodyText)]": the method,
    the SHA-256 hex digest of the body, an empty line for the signed
    headers, and the canonical URL. *)
Definition canonicalRequestString (method path : string) (query : dict)
    (bodyText : string) : string :=
  let contentHash := sha256_hexdigest bodyText in
  let canonicalURL :=
    match query with
    | [] => path
    | _ => path +:+ "?" +:+ sortedQueryString query
    end in
  method +:+ nl +:+ contentHash +:+ nl +:+ "" +:+ nl +:+ canonicalURL.

End WithRuntime.

(** [response.get("success")] taken as a condition, where it can be. *)
Definition success_flag (response : json) : bool :=
  match py_get response "success" JNull with
  | Ok v => truthy v
  | Exn _ => false
  end.

(** The registry [s'] has the devices of [s], and every device but the one
    stored under [k] is in it as it is in [s]. *)
Definition only_device_changed (k : json) (s s' : Sync.Manager) : Prop :=
  pd_keys (Sync.device_map s') = pd_keys (Sync.device_map s)
  /\ forall c, key_eqb k c = false ->
       pd_get (Sync.device_map s') c = pd_get (Sync.device_map s) c.

(** The registry [s'] has exactly the devices of [s]. *)
Definition same_devices (s s' : Sync.Manager) : Prop :=
  pd_keys (Sync.device_map s') = pd_keys (Sync.device_map s).

(** What [await resp.json()] gives for a reply. *)
Definition decoded (reply : http_reply) : res json :=
  match reply with
  | ConnError e => Exn e
  | Response _ _ body => body
  end.

(** "The server reported success": a 2xx reply whose body decodes to an
    object with a true success flag. *)
Definition reported_success (reply : http_reply) : bool :=
  match reply with
  | Response true _ (Ok (JObj d)) => truthy (dict_get_default d "success" JNull)
  | _ => false
  end.

(** A well-formed entry of a status list: an object whose code, unless it
    is empty, can be a dictionary key. *)
Definition status_entry (item : json) : bool :=
  match item with
  | JObj d =>
      let code := dict_get_default d "code" (JStr "") in
      negb (truthy code) || hashable code
  | _ => false
  end.

(** The value a poll response returns for the code [c]: that of the last
    entry whose code is not empty and equals [c]. *)
Fixpoint last_value (items : list json) (c : json) : option json :=
  match items with
  | [] => None
  | item :: rest =>
      match last_value rest c with
      | Some v => Some v
      | None =>
          match item with
          | JObj d =>
              let code := dict_get_default d "code" (JStr "") in
              if truthy code && key_eqb code c
              then Some (dict_get_default d "value" JNull)
              else None
          | _ => None
          end
      end
  end.

End Spec.

(** * What a call leaves alone *)

(** The mapping [m'] has the keys of [m], in their order, and perhaps more
    after them. *)
Definition keys_kept {V} (m m' : pydict V) : Prop :=
  exists extra, pd_keys m' = pd_keys m ++ extra.

(** The manager [s'] has the devices of [s], each as it was but for its
    status mapping, which has lost no code. *)
Definition only_status_changed (s s' : Sync.Manager) : Prop :=
  Sync.uid s' = Sync.uid s
  /\ Sync.device_listeners s' = Sync.device_listeners s
  /\ pd_keys (Sync.device_map s') = pd_keys (Sync.device_map s)
  /\ forall c d, pd_get (Sync.device_map s) c = Some d ->
       exists d', pd_get (Sync.device_map s') c = Some d'
                  /\ set_status (status d) d' = d
                  /\ keys_kept (status d) (status d').

(** The manager [s'] has the devices of [s], each as it was but for its
    [functions] and [status_range], which have lost no code. *)
Definition only_specifications_changed (s s' : Sync.Manager) : Prop :=
  Sync.uid s' = Sync.uid s
  /\ Sync.device_listeners s' = Sync.device_listeners s
  /\ pd_keys (Sync.device_map s') = pd_keys (Sync.device_map s)
  /\ forall c d, pd_get (Sync.device_map s) c = Some d ->
       exists d', pd_get (Sync.device_map s') c = Some d'
                  /\ set_functions (functions d)
                       (set_status_range (status_range d) d') = d
                  /\ keys_kept (functions d) (functions d')
                  /\ keys_kept (status_range d) (status_range d').

(** The manager [s'] has the devices of [s] under the keys and in the order
    they had, and perhaps more after them. *)
Definition devices_kept (s s' : Sync.Manager) : Prop :=
  keys_kept (Sync.device_map s) (Sync.device_map s').

(** The client [a'] is [a] but for its stored token. *)
Definition only_token_changed (a a' : Integration.CustomerApi) : Prop :=
  Integration.api_url a' = Integration.api_url a
  /\ Integration.client_id a' = Integration.client_id a
  /\ Integration.secret a' = Integration.secret a
  /\ Integration.schema a' = Integration.schema a
  /\ Integration.token_listener a' = Integration.token_listener a
  /\ Integration._refreshing_token a' = Integration._refreshing_token a.

(** The refresh guard of the integration client. *)
Definition guard_set (a : Integration.CustomerApi) : Prop :=
  Integration._refreshing_token a = true.

Definition guard_clear (a : Integration.CustomerApi) : Prop :=
  Integration._refreshing_token a = false.

(** Every device of the registry is stored under a key equal to its [id],
    which is not empty. *)
Definition keyed_by_id (dm : pydict CustomerDevice) : Prop :=
  forall k d, pd_get dm k = Some d -> truthy (id d) = true /\ key_eqb (id d) k = true.

(** The listener calls [update_device(d)] on the listeners [0 .. j - 1]. *)
Definition notified (d : CustomerDevice) (j : nat) : list obs :=
  map (fun i => ODevice i d) (seq 0 j).

(** * Facts about programs *)

Section RunFacts.
Context {S : Type}.

Lemma run_bind {A B} E (m : prog S A) (f : A -> prog S B) s tr :
  run E (bind m f s) tr =
  match run E (m s) tr with
  | (Ok a, s', tr') => run E (f a s') tr'
  | (Exn e, s', tr') => (Exn e, s', tr')
  end.
Proof.
  unfold bind. generalize (m s) as r. intros r. revert tr.
  induction r as [[a | e] s0 | X s0 e k IH]; intros tr; simpl; auto.
Qed.

Lemma run_catch {A} E (m : prog S A) (h : exn -> prog S A) s tr :
  run E (catch m h s) tr =
  match run E (m s) tr with
  | (Ok a, s', tr') => (Ok a, s', tr')
  | (Exn e, s', tr') => run E (h e s') tr'
  end.
Proof.
  unfold catch. generalize (m s) as r. intros r. revert tr.
  induction r as [[a | e] s0 | X s0 e k IH]; intros tr; simpl; auto.
Qed.

Lemma run_finally {A} E (m : prog S A) (fin : S -> S) s tr :
  run E (finally m fin s) tr =
  let '(x, s', tr') := run E (m s) tr in (x, fin s', tr').
Proof.
  unfold finally. generalize (m s) as r. intros r. revert tr.
  induction r as [x s0 | X s0 e k IH]; intros tr; simpl; auto.
Qed.

Lemma run_ret {A} E (a : A) (s : S) tr : run E (ret a s) tr = (Ok a, s, tr).
Proof. reflexivity. Qed.

Lemma run_raise {A} E e (s : S) tr : run E (@raise S A e s) tr = (Exn e, s, tr).
Proof. reflexivity. Qed.

Lemma run_lift {A} E (r : res A) (s : S) tr : run E (lift r s) tr = (r, s, tr).
Proof. reflexivity. Qed.

Lemma run_get E (s : S) tr : run E (get s) tr = (Ok s, s, tr).
Proof. reflexivity. Qed.

Lemma run_modify E (f : S -> S) s tr : run E (modify f s) tr = (Ok tt, f s, tr).
Proof. reflexivity. Qed.

Lemma run_ask {X} E (e : event X) (s : S) tr :
  run E (ask e s) tr = (Ok (answer E tr e), s, tr ++ [observe e]).
Proof. reflexivity. Qed.

(** A loop whose body never raises visits every element. *)
Lemma run_for_each_cons {X} E (body : X -> prog S unit) x l s tr :
  run E (for_each (x :: l) body s) tr =
  match run E (body x s) tr with
  | (Ok _, s', tr') => run E (for_each l body s') tr'
  | (Exn e, s', tr') => (Exn e, s', tr')
  end.
Proof. simpl. apply run_bind. Qed.

End RunFacts.

(** A program of a part of the state leaves the rest of the state alone. *)
Lemma run_zoom {S T A} (getl : S -> T) (setl : T -> S -> S) E
    (m : prog T A) s tr :
  (forall t s0, getl (setl t s0) = t) ->
  (forall t t' s0, setl t' (setl t s0) = setl t' s0) ->
  run E (zoom getl setl m s) tr =
  let '(x, t', tr') := run E (m (getl s)) tr in (x, setl t' s, tr').
Proof.
  intros Hgs Hss. unfold zoom.
  generalize (m (getl s)) as r. intros r. revert s tr.
  induction r as [x t | X t e k IH]; intros s tr; simpl.
  - reflexivity.
  - rewrite IH, Hgs.
    destruct (run E (k (answer E tr e) t) (tr ++ [observe e])) as [[x t'] tr'].
    now rewrite Hss.
Qed.

Create HintDb run.
Create Rewrite HintDb run.
#[global] Hint Rewrite @run_bind @run_catch @run_finally @run_ret @run_raise
  @run_lift @run_get @run_modify @run_ask : run.

(** ** What a program leaves unchanged *)

Section Preserves.
Context {S : Type} (R : relation S) `{!Reflexive R} `{!Transitive R}.

Lemma preserves_ret {A} (a : A) : preserves R (ret a).
Proof. intros E s tr. reflexivity. Qed.

Lemma preserves_raise {A} e : preserves R (@raise S A e).
Proof. intros E s tr. reflexivity. Qed.

Lemma preserves_lift {A} (r : res A) : preserves R (lift r).
Proof. intros E s tr. reflexivity. Qed.

Lemma preserves_get : preserves R get.
Proof. intros E s tr. reflexivity. Qed.

Lemma preserves_ask {X} (e : event X) : preserves R (ask e).
Proof. intros E s tr. reflexivity. Qed.

Lemma preserves_modify (f : S -> S) : (forall s, R s (f s)) -> preserves R (modify f).
Proof. intros Hf E s tr. apply Hf. Qed.

Lemma preserves_bind {A B} (m : prog S A) (f : A -> prog S B) :
  preserves R m -> (forall a, preserves R (f a)) -> preserves R (bind m f).
Proof.
  intros Hm Hf E s tr. rewrite run_bind.
  specialize (Hm E s tr).
  destruct (run E (m s) tr) as [[[a | e] s'] tr']; unfold state_of in *; simpl in *.
  - transitivity s'; [exact Hm | apply Hf].
  - exact Hm.
Qed.

Lemma preserves_catch {A} (m : prog S A) (h : exn -> prog S A) :
  preserves R m -> (forall e, preserves R (h e)) -> preserves R (catch m h).
Proof.
  intros Hm Hh E s tr. rewrite run_catch.
  specialize (Hm E s tr).
  destruct (run E (m s) tr) as [[[a | e] s'] tr']; unfold state_of in *; simpl in *.
  - exact Hm.
  - transitivity s'; [exact Hm | apply Hh].
Qed.

Lemma preserves_for_each {X} (l : list X) (body : X -> prog S unit) :
  (forall x, preserves R (body x)) -> preserves R (for_each l body).
Proof.
  intros Hb. induction l as [|x l IH]; simpl.
  - apply preserves_ret.
  - apply preserves_bind; [apply Hb | intros _; exact IH].
Qed.

End Preserves.

(** ** Dictionaries *)

Lemma Qeq_bool_sym x y : Qeq_bool x y = Qeq_bool y x.
Proof.
  destruct (Qeq_bool x y) eqn:H1, (Qeq_bool y x) eqn:H2; try reflexivity.
  - apply Qeq_bool_iff in H1. symmetry in H1. apply Qeq_bool_iff in H1. congruence.
  - apply Qeq_bool_iff in H2. symmetry in H2. apply Qeq_bool_iff in H2. congruence.
Qed.

Lemma Qeq_bool_trans x y z :
  Qeq_bool x y = true -> Qeq_bool y z = true -> Qeq_bool x z = true.
Proof.
  rewrite !Qeq_bool_iff. intros H1 H2. now rewrite H1.
Qed.

Lemma key_eqb_sym a b : key_eqb a b = key_eqb b a.
Proof.
  destruct a, b; simpl; try reflexivity;
    try apply Qeq_bool_sym; try apply String.eqb_sym.
Qed.

Lemma key_eqb_trans a b c :
  key_eqb a b = true -> key_eqb b c = true -> key_eqb a c = true.
Proof.
  destruct a, b; simpl; try discriminate; destruct c; simpl; try discriminate;
    try apply Qeq_bool_trans; try reflexivity.
  intros H1 H2. apply String.eqb_eq in H1, H2. subst. apply String.eqb_refl.
Qed.

(** Two equal keys find the same entries. *)
Lemma key_eqb_congr a b c : key_eqb a b = true -> key_eqb a c = key_eqb b c.
Proof.
  intros Hab.
  destruct (key_eqb a c) eqn:Hac, (key_eqb b c) eqn:Hbc; try reflexivity.
  - rewrite key_eqb_sym in Hab. now rewrite (key_eqb_trans _ _ _ Hab Hac) in Hbc.
  - now rewrite (key_eqb_trans _ _ _ Hab Hbc) in Hac.
Qed.

Section DictFacts.
Context {V : Type}.
Implicit Types (d : pydict V) (k c : json).

Lemma pd_get_put d k v c :
  pd_get (pd_put d k v) c = if key_eqb k c then Some v else pd_get d c.
Proof.
  induction d as [|[k' v'] d IH]; simpl.
  - reflexivity.
  - destruct (key_eqb k' k) eqn:Hk; simpl.
    + rewrite (key_eqb_congr _ _ c Hk). now destruct (key_eqb k c).
    + rewrite IH. destruct (key_eqb k' c) eqn:Hc; [|reflexivity].
      destruct (key_eqb k c) eqn:Hkc; [|reflexivity].
      rewrite key_eqb_sym in Hkc.
      now rewrite (key_eqb_trans _ _ _ Hc Hkc) in Hk.
Qed.

Lemma pd_keys_alter f k d : pd_keys (pd_alter f k d) = pd_keys d.
Proof.
  unfold pd_keys. induction d as [|[k' v'] d IH]; simpl; [reflexivity|].
  destruct (key_eqb k' k); simpl; [reflexivity | now rewrite IH].
Qed.

Lemma pd_get_alter f k d c :
  pd_get (pd_alter f k d) c
  = if key_eqb k c then option_map f (pd_get d c) else pd_get d c.
Proof.
  induction d as [|[k' v'] d IH]; simpl.
  - now destruct (key_eqb k c).
  - destruct (key_eqb k' k) eqn:Hk; simpl.
    + rewrite (key_eqb_congr _ _ c Hk). now destruct (key_eqb k c).
    + rewrite IH. destruct (key_eqb k' c) eqn:Hc; [|reflexivity].
      destruct (key_eqb k c) eqn:Hkc; [|reflexivity].
      rewrite key_eqb_sym in Hkc.
      now rewrite (key_eqb_trans _ _ _ Hc Hkc) in Hk.
Qed.

End DictFacts.

(** Running a program step by step. *)
Ltac exec :=
  repeat (first [ rewrite run_bind | rewrite run_lift | rewrite run_get
                | rewrite run_modify | rewrite run_ret | rewrite run_raise
                | rewrite run_ask | rewrite run_catch ];
          cbn [py_get negb]; cbv beta iota).

(** * The device manager *)

Section SyncFacts.
Context `{PyRuntime}.

Lemma run_on_api {A} E (m : prog Integration.CustomerApi A) s tr :
  run E (Sync.on_api m s) tr =
  let '(x, a', tr') := run E (m (Sync.api s)) tr in (x, Sync.set_api a' s, tr').
Proof. unfold Sync.on_api. apply run_zoom; reflexivity. Qed.

(** [request]: token maintenance, then one signed exchange. *)
Lemma run_request E method path params body a tr :
  run E (Integration.request method path params body a) tr =
  match run E (Integration._ensure_token a) tr with
  | (Ok _, a1, tr1) =>
      match Integration.signed_request a1 (clock E tr1) method path params body with
      | Ok rq =>
          (Integration.read_response (net E (tr1 ++ [OClock]) rq), a1,
           (tr1 ++ [OClock]) ++ [OHttp rq])
      | Exn e => (Exn e, a1, tr1 ++ [OClock])
      end
  | (Exn e, a1, tr1) => (Exn e, a1, tr1)
  end.
Proof.
  unfold Integration.request. rewrite run_bind.
  destruct (run E (Integration._ensure_token a) tr) as [[[[] | e] a1] tr1];
    [|reflexivity].
  rewrite run_bind, run_ask. simpl answer. simpl observe.
  rewrite run_bind, run_get, run_bind, run_lift.
  destruct (Integration.signed_request _ _ _ _ _ _) as [rq | e]; [|reflexivity].
  rewrite run_bind, run_ask. reflexivity.
Qed.

(** What [request] returns is a dictionary. *)
Lemma read_response_object reply response :
  Integration.read_response reply = Ok response -> exists d, response = JObj d.
Proof.
  destruct reply as [e | [] text [r | e]]; simpl; try discriminate.
  - destruct r; simpl; try discriminate.
    destruct (negb (truthy (dict_get_default o "success" JNull)));
      [discriminate|]. intros Heq. inversion Heq. now exists o.
  - destruct text; simpl; [|discriminate]. intros Heq. inversion Heq. eauto.
  - destruct text; simpl; [|discriminate]. intros Heq. inversion Heq. eauto.
Qed.

Lemma request_returns_object E method path params body a tr response :
  result_of (run E (Integration.request method path params body a) tr) = Ok response ->
  exists d, response = JObj d.
Proof.
  rewrite run_request.
  destruct (run E (Integration._ensure_token a) tr) as [[[[] | e] a1] tr1];
    [|discriminate].
  destruct (Integration.signed_request _ _ _ _ _ _); [|discriminate].
  apply read_response_object.
Qed.

Lemma read_response_success reply :
  match Integration.read_response reply with
  | Ok response =>
      match py_get response "success" JNull with
      | Ok v => truthy v
      | Exn _ => false
      end
  | Exn _ => false
  end = Spec.reported_success reply.
Proof.
  destruct reply as [e | [] text [response | e]]; simpl; try reflexivity.
  - destruct response; simpl; try reflexivity.
    destruct (truthy (dict_get_default o "success" JNull)) eqn:Hs; simpl;
      [now rewrite Hs | reflexivity].
  - now destruct text.
  - now destruct text.
Qed.

(** *** One device at a time *)

#[global] Instance only_device_changed_refl k : Reflexive (Spec.only_device_changed k).
Proof. intros s. now split. Qed.

#[global] Instance only_device_changed_trans k : Transitive (Spec.only_device_changed k).
Proof.
  intros s1 s2 s3 [Hk12 Hg12] [Hk23 Hg23]. split.
  - now rewrite Hk23.
  - intros c Hc. now rewrite Hg23, Hg12.
Qed.

Lemma preserves_on_api {A} k (m : prog Integration.CustomerApi A) :
  preserves (Spec.only_device_changed k) (Sync.on_api m).
Proof.
  intros E s tr. rewrite run_on_api.
  destruct (run E (m (Sync.api s)) tr) as [[x a'] tr']. now split.
Qed.

Lemma preserves_modify_device k f :
  preserves (Spec.only_device_changed k) (Sync.modify_device k f).
Proof.
  apply preserves_modify. intros s. split; simpl.
  - apply pd_keys_alter.
  - intros c Hc. now rewrite pd_get_alter, Hc.
Qed.

Ltac frame :=
  repeat first
    [ apply preserves_ret; apply _
    | apply preserves_raise; apply _
    | apply preserves_lift; apply _
    | apply preserves_get; apply _
    | apply preserves_ask; apply _
    | apply preserves_on_api
    | apply preserves_modify_device
    | apply preserves_bind; [apply _ | | intros ?]
    | apply preserves_catch; [apply _ | | intros ?]
    | match goal with
      | |- preserves _ (match ?x with _ => _ end) => destruct x
      end ].

Lemma preserves_fill k items merge field set_field :
  preserves (Spec.only_device_changed k) (Sync.fill k items merge field set_field).
Proof. unfold Sync.fill. frame. Qed.

Lemma preserves_notify k n i :
  preserves (Spec.only_device_changed k) (Sync.notify_listeners n i k).
Proof. revert i. induction n as [|n IH]; intros i; simpl; frame. apply IH. Qed.

Lemma preserves_fetch k :
  preserves (Spec.only_device_changed k) (Sync._fetch_device_specifications k).
Proof.
  unfold Sync._fetch_device_specifications.
  repeat (frame; apply preserves_fill).
Qed.

Lemma preserves_poll k :
  preserves (Spec.only_device_changed k) (Sync.poll_device k).
Proof.
  unfold Sync.poll_device.
  repeat (frame; first [apply preserves_fill | apply preserves_notify]).
Qed.

(** A [try] whose handler only logs never raises. *)
Lemma run_catch_log {S} E (m : prog S unit) s tr :
  result_of (run E (catch m (fun _ => ret tt) s) tr) = Ok tt.
Proof.
  rewrite run_catch.
  now destruct (run E (m s) tr) as [[[[] | e] s'] tr'].
Qed.

(** A loop of such bodies visits every element. *)
Lemma run_for_each_visit {S X} E (body : X -> prog S unit) l s tr :
  (forall x s tr, result_of (run E (body x s) tr) = Ok tt) ->
  run E (for_each l body s) tr = (Ok tt, fst (visit E body l s tr), snd (visit E body l s tr)).
Proof.
  intros Hb. revert s tr. induction l as [|x l IH]; intros s tr; [reflexivity|].
  rewrite run_for_each_cons. simpl visit.
  specialize (Hb x s tr).
  destruct (run E (body x s) tr) as [[r s'] tr']. unfold result_of in Hb.
  simpl in *. subst r. apply IH.
Qed.



(** *** The status merge *)

Lemma merge_status_ok items st :
  forallb Spec.status_entry items = true -> snd (Sync.merge_status items st) = Ok tt.
Proof.
  revert st. induction items as [|item items IH]; intros st Hwf; [reflexivity|].
  simpl in Hwf. apply andb_true_iff in Hwf. destruct Hwf as [Hitem Hwf].
  destruct item; try discriminate. simpl in *.
  destruct (truthy (dict_get_default o "code" (JStr ""))); simpl in *;
    [|now apply IH].
  unfold pd_set. rewrite Hitem. now apply IH.
Qed.

Lemma merge_status_values items st c :
  snd (Sync.merge_status items st) = Ok tt ->
  pd_get (fst (Sync.merge_status items st)) c
  = match Spec.last_value items c with
    | Some v => Some v
    | None => pd_get st c
    end.
Proof.
  revert st. induction items as [|item items IH]; intros st Hok; [reflexivity|].
  destruct item; try discriminate. simpl in *.
  destruct (truthy (dict_get_default o "code" (JStr ""))) eqn:Hcode; simpl in *.
  - unfold pd_set in *.
    destruct (hashable (dict_get_default o "code" (JStr ""))); [|discriminate].
    rewrite (IH _ Hok), pd_get_put.
    destruct (Spec.last_value items c); [reflexivity|].
    now destruct (key_eqb _ c).
  - rewrite (IH _ Hok). now destruct (Spec.last_value items c).
Qed.

Lemma notify_keeps_state E k n i (s : Sync.Manager) tr :
  state_of (run E (Sync.notify_listeners n i k s) tr) = s.
Proof.
  revert i tr. induction n as [|n IH]; intros i tr; [reflexivity|].
  simpl. rewrite run_bind, run_get.
  destruct (pd_get (Sync.device_map s) k) as [device|]; [|reflexivity].
  rewrite run_bind, run_ask, run_bind, run_lift.
  destruct (answer E tr (DeviceListener i device)); [apply IH | reflexivity].
Qed.

(** A successful poll writes what the merge loop leaves, also when the loop
    or a listener raises. *)
Lemma run_poll_success E k s tr device d a1 tr1 items :
  pd_get (Sync.device_map s) k = Some device ->
  run E (Integration.get_device_status k (Sync.api s)) tr = (Ok (JObj d), a1, tr1) ->
  truthy (dict_get_default d "success" JNull) = true ->
  py_iter (dict_get_default d "result" (JList [])) = Ok items ->
  Sync.device_map (state_of (run E (Sync.poll_device k s) tr))
  = pd_alter (set_status (fst (Sync.merge_status items (status device)))) k
             (Sync.device_map s).
Proof.
  intros Hk Hcall Hsucc Hitems. unfold Sync.poll_device.
  rewrite run_catch, run_bind, run_on_api, Hcall. exec.
  rewrite Hsucc. exec. rewrite Hitems. cbv beta iota.
  unfold Sync.fill. exec. simpl Sync.device_map. rewrite Hk.
  destruct (Sync.merge_status items (status device)) as [st r].
  unfold Sync.modify_device. exec.
  destruct r as [[] | e]; [|reflexivity].
  cbv beta iota. exec.
  match goal with
  | |- context [run E (Sync.notify_listeners ?n ?i k ?s0) ?tr0] =>
      pose proof (notify_keeps_state E k n i s0 tr0) as Hn;
      destruct (run E (Sync.notify_listeners n i k s0) tr0) as [[[[] | e] s2] tr2]
  end; unfold state_of in *; simpl in *; now subst s2.
Qed.

Lemma key_eqb_refl_of_get {V} (d : pydict V) k v : pd_get d k = Some v -> key_eqb k k = true.
Proof.
  induction d as [|[k' v'] d IH]; simpl; [discriminate|].
  destruct (key_eqb k' k) eqn:Hk; [|exact IH].
  intros _. rewrite <- (key_eqb_congr _ _ k Hk). exact Hk.
Qed.

Lemma run_update_device_status E s tr :
  run E (Sync.update_device_status s) tr
  = (Ok tt, fst (visit E Sync.poll_device (pd_keys (Sync.device_map s)) s tr),
     snd (visit E Sync.poll_device (pd_keys (Sync.device_map s)) s tr)).
Proof.
  unfold Sync.update_device_status. rewrite run_bind, run_get.
  apply run_for_each_visit. intros. apply run_catch_log.
Qed.

#[global] Instance same_devices_refl : Reflexive Spec.same_devices.
Proof. intros s. reflexivity. Qed.

#[global] Instance same_devices_trans : Transitive Spec.same_devices.
Proof. intros s1 s2 s3 H12 H23. unfold Spec.same_devices in *. now rewrite H23. Qed.

Lemma preserves_weaken {A} k (m : prog Sync.Manager A) :
  preserves (Spec.only_device_changed k) m -> preserves Spec.same_devices m.
Proof. intros Hm E s tr. apply Hm. Qed.

End SyncFacts.

(** * The signer *)

Lemma str_le_trans s t u : str_le s t -> str_le t u -> str_le s u.
Proof.
  unfold str_le, String.leb. revert t u.
  induction s as [|a s IH]; intros [|b t] [|c u]; simpl; try easy.
  unfold Ascii.compare.
  destruct (N.compare_spec (N_of_ascii a) (N_of_ascii b)),
           (N.compare_spec (N_of_ascii b) (N_of_ascii c)),
           (N.compare_spec (N_of_ascii a) (N_of_ascii c));
    try easy; try lia.
  apply IH.
Qed.

#[global] Instance str_le_transitive : Transitive str_le.
Proof. intros s t u. apply str_le_trans. Qed.

#[global] Instance str_le_total : Total str_le.
Proof. intros s t. apply String.leb_total. Qed.

#[global] Instance str_le_antisym : AntiSymm eq str_le.
Proof. intros s t. apply String.leb_antisym. Qed.

#[global] Instance pair_le_transitive : Transitive Spec.pair_le.
Proof. intros p q r. unfold Spec.pair_le. apply str_le_trans. Qed.

#[global] Instance pair_le_total : Total Spec.pair_le.
Proof. intros p q. unfold Spec.pair_le. apply String.leb_total. Qed.

Lemma StronglySorted_map_fst (l : dict) :
  StronglySorted Spec.pair_le l -> StronglySorted str_le (map fst l).
Proof.
  induction 1 as [|p l Hl IH Hall]; simpl; constructor; auto.
  apply Forall_forall. intros k Hk.
  apply list_elem_of_In, in_map_iff in Hk. destruct Hk as [q [<- Hq]].
  apply (proj1 (Forall_forall _ _) Hall). now apply list_elem_of_In.
Qed.

(** Sorting the pairs by key and sorting the keys visit the keys alike. *)
Lemma sorted_keys_of_pairs (q : dict) :
  map fst (merge_sort Spec.pair_le q) = sorted (map fst q).
Proof.
  apply (StronglySorted_unique str_le).
  - apply StronglySorted_map_fst, StronglySorted_merge_sort; apply _.
  - apply StronglySorted_merge_sort; apply _.
  - unfold sorted. now rewrite !merge_sort_Permutation.
Qed.

(** In a dictionary a key has one value. *)
Lemma dict_get_unique (q : dict) k v dflt :
  NoDup (map fst q) -> In (k, v) q -> dict_get_default q k dflt = v.
Proof.
  unfold dict_get_default.
  induction q as [|[k' v'] q IH]; simpl; intros Hnd Hin; [easy|].
  apply NoDup_cons in Hnd. destruct Hnd as [Hk' Hnd].
  destruct Hin as [Heq | Hin].
  - inversion Heq; subst. now rewrite String.eqb_refl.
  - destruct (String.eqb_spec k' k) as [-> | Hne].
    + exfalso. apply Hk'. apply list_elem_of_In, in_map_iff.
      now exists (k, v).
    + now apply IH.
Qed.

Section SignerFacts.
Context `{PyRuntime}.

Lemma query_string_sorted_pairs (q : dict) :
  NoDup (map fst q) ->
  join "&" (map (fun k => k +:+ "=" +:+ py_str (dict_get_default q k JNull))
                (sorted (map fst q)))
  = Spec.sortedQueryString q.
Proof.
  intros Hnd. unfold Spec.sortedQueryString.
  rewrite <- sorted_keys_of_pairs, map_map. f_equal.
  apply map_ext_in. intros [k v] Hin. simpl. do 3 f_equal.
  apply dict_get_unique; [exact Hnd|].
  apply list_elem_of_In. rewrite <- (merge_sort_Permutation Spec.pair_le q).
  now apply list_elem_of_In.
Qed.

Lemma append_empty s t : s +:+ t = "" -> s = "".
Proof. destruct s; simpl; [easy | discriminate]. Qed.

Lemma join_nonempty sep (l : list string) :
  l <> [] -> Forall (fun s => s <> "") l -> join sep l <> "".
Proof.
  destruct l as [|s l]; [easy|]. intros _ Hall.
  apply Forall_cons in Hall. destruct Hall as [Hs _].
  destruct l; simpl; [exact Hs|].
  intros Heq. now apply append_empty in Heq.
Qed.

Lemma query_string_nonempty (q : dict) :
  q <> [] ->
  join "&" (map (fun k => k +:+ "=" +:+ py_str (dict_get_default q k JNull))
                (sorted (map fst q))) <> "".
Proof.
  intros Hq. apply join_nonempty.
  - intros Hnil. apply map_eq_nil in Hnil.
    assert (Hp : sorted (map fst q) ≡ₚ map fst q) by apply merge_sort_Permutation.
    rewrite Hnil in Hp. symmetry in Hp. apply Permutation_nil_r in Hp.
    destruct q; [easy | discriminate].
  - apply Forall_forall. intros s Hs.
    apply list_elem_of_In, in_map_iff in Hs. destruct Hs as [k [<- _]].
    intros Heq. destruct k; simpl in Heq; discriminate.
Qed.

(** Two insertion orders of one dictionary sort to the same pairs. *)
Lemma sort_pairs_insertion_order (q q' : dict) :
  NoDup (map fst q) -> q' ≡ₚ q ->
  merge_sort Spec.pair_le q' = merge_sort Spec.pair_le q.
Proof.
  intros Hnd Hperm.
  apply (StronglySorted_unique_strong Spec.pair_le).
  - intros [k1 v1] [k2 v2] H1 H2 Hle1 Hle2.
    unfold Spec.pair_le in *. simpl in *.
    assert (k1 = k2) by now apply String.leb_antisym. subst k2.
    rewrite merge_sort_Permutation, Hperm in H1.
    rewrite merge_sort_Permutation in H2.
    apply list_elem_of_In in H1, H2.
    f_equal.
    rewrite <- (dict_get_unique q k1 v1 JNull Hnd H1).
    now rewrite <- (dict_get_unique q k1 v2 JNull Hnd H2).
  - apply StronglySorted_merge_sort; apply _.
  - apply StronglySorted_merge_sort; apply _.
  - now rewrite !merge_sort_Permutation.
Qed.

End SignerFacts.

(** * The token store *)

(** C9: restoring a snapshot gives back the token it was taken from, field
    for field, in both clients. *)
Theorem token_snapshot_round_trip :
  (forall t : Integration.TrueXTokenInfo,
      Integration.from_dict (Integration.to_dict t) = t)
  /\ (forall t : Sdk.TrueXTokenInfo, Sdk.from_dict (Sdk.to_dict t) = t).
Proof. split; intros []; reflexivity. Qed.

(** * The canonical string-to-sign *)

(** C4: in both clients the string-to-sign is the specification's canonical
    request string -- the method, the SHA-256 hex digest of the body (of the
    empty string for an empty body), an empty signed-headers line and the
    path, followed when the query is not empty by [?] and the [key=value]
    pairs in key order joined by [&] -- and it is the same for every
    insertion order of the query. *)
Theorem string_to_sign_canonical `{PyRuntime} (method path : string)
    (query : dict) (body : string) :
  NoDup (map fst query) ->
  Integration._string_to_sign method path (Some query) body
    = Spec.canonicalRequestString method path query body
  /\ Sdk.string_to_sign method path (Some query) body
    = Spec.canonicalRequestString method path query body
  /\ Integration._string_to_sign method path None body
    = method +:+ nl +:+ sha256_hexdigest body +:+ nl +:+ "" +:+ nl +:+ path
  /\ Sdk.string_to_sign method path None body
    = method +:+ nl +:+ sha256_hexdigest body +:+ nl +:+ "" +:+ nl +:+ path
  /\ sha256_hexdigest ""
    = "e3b0c44298fc1c149afbf4c8996fb92427ae41e4649b934ca495991b7852b855"
  /\ (forall query', query' ≡ₚ query ->
        Integration._string_to_sign method path (Some query') body
          = Integration._string_to_sign method path (Some query) body
        /\ Sdk.string_to_sign method path (Some query') body
          = Sdk.string_to_sign method path (Some query) body).
Proof.
  intros Hnd.
  assert (Hint : forall q, NoDup (map fst q) ->
            Integration._string_to_sign method path (Some q) body
            = Spec.canonicalRequestString method path q body).
  { intros q Hq. unfold Integration._string_to_sign, Spec.canonicalRequestString.
    destruct q as [|p q]; [reflexivity|].
    now rewrite (query_string_sorted_pairs (p :: q) Hq). }
  assert (Hsdk : forall q, NoDup (map fst q) ->
            Sdk.string_to_sign method path (Some q) body
            = Spec.canonicalRequestString method path q body).
  { intros q Hq. unfold Sdk.string_to_sign, Spec.canonicalRequestString.
    destruct q as [|p q]; [reflexivity|].
    pose proof (query_string_nonempty (p :: q)) as Hne.
    rewrite (query_string_sorted_pairs (p :: q) Hq) in *.
    destruct (String.eqb_spec (Spec.sortedQueryString (p :: q)) "") as [Heq | _];
      [now elim Hne | reflexivity]. }
  assert (Hspec : forall q', q' ≡ₚ query ->
            Spec.canonicalRequestString method path q' body
            = Spec.canonicalRequestString method path query body).
  { intros q' Hperm. unfold Spec.canonicalRequestString, Spec.sortedQueryString.
    rewrite (sort_pairs_insertion_order query q' Hnd Hperm).
    destruct q' as [|p' q'], query as [|p q]; try reflexivity.
    - apply Permutation_nil_l in Hperm. discriminate.
    - symmetry in Hperm. apply Permutation_nil_l in Hperm. discriminate. }
  split; [now apply Hint|]. split; [now apply Hsdk|].
  split; [reflexivity|]. split; [reflexivity|].
  split; [vm_compute; reflexivity|].
  intros query' Hperm.
  assert (Hnd' : NoDup (map fst query')).
  { assert (Hk : map fst query' ≡ₚ map fst query) by now apply Permutation_map.
    now rewrite Hk. }
  split.
  - rewrite (Hint query' Hnd'), (Hint query Hnd). now apply Hspec.
  - rewrite (Hsdk query' Hnd'), (Hsdk query Hnd). now apply Hspec.
Qed.

Ltac nodup_keys :=
  simpl;
  repeat (apply NoDup_cons; split;
          [ rewrite ?elem_of_cons, ?elem_of_nil; intuition discriminate | ]);
  apply NoDup_nil_2.

Lemma string_to_sign_canonical_witness :
  NoDup (map fst Mock.page_query)
  /\ Integration._string_to_sign (H := Mock.runtime) "GET" "/v1.0/users/u1/devices"
       (Some Mock.page_query) ""
     = Spec.canonicalRequestString (H := Mock.runtime) "GET"
         "/v1.0/users/u1/devices" Mock.page_query "".
Proof.
  split.
  - nodup_keys.
  - apply (string_to_sign_canonical (H := Mock.runtime)). nodup_keys.
Defined.

(** * Token expiry *)

(** Against C2 as stated: the SDK token acquired at 1000 s with a lifetime
    of 7200 s, read at 8140 s, exactly sixty seconds before it expires, is
    reported usable. *)
Lemma sdk_token_usable_at_buffer_edge :
  result_of
    (run (Mock.world 8140 [])
         (Sdk.is_expired (S := unit)
            {| Sdk.access_token := JStr "tok"; Sdk.refresh_token := JStr "";
               Sdk.expire_time := JInt 7200; Sdk.uid := JStr "";
               Sdk.token_acquired_at := JFloat 1000 |} tt) [])
  = Ok false
  /\ (8140 == 1000 + inject_Z 7200 - 60)%Q.
Proof. split; reflexivity. Qed.

(** ** Binary64 *)

Lemma half_even_near n d :
  0 < d -> - d <= 2 * (d * half_even n d - n) <= d.
Proof.
  intros Hd. unfold half_even.
  pose proof (Z.div_mod n d ltac:(lia)) as Hdiv.
  pose proof (Z.mod_pos_bound n d Hd) as Hmod.
  destruct (Z.compare_spec (2 * (n mod d)) d); [destruct (Z.even (n / d))| |]; nia.
Qed.

(** Up to [2 ^ 41] a binary64 number is within [2 ^ -12] of what it
    rounds. *)
Lemma round64_near (x : Q) :
  (Qabs x <= inject_Z (2 ^ 41))%Q -> (Qabs (round64 x - x) <= 1 # 4096)%Q.
Proof.
  intros Hx. destruct x as [n d]. unfold round64. cbn [Qnum Qden].
  set (k := Z.log2 (Z.abs n * 2 ^ 1074 / Z.pos d)).
  assert (Hn : Z.abs n <= 2 ^ 41 * Z.pos d).
  { unfold Qabs, Qle, inject_Z in Hx. cbn [Qnum Qden] in Hx. lia. }
  assert (Hk : k <= 1115).
  { subst k. change 1115 with (Z.log2 (2 ^ 1115)). apply Z.log2_le_mono.
    apply Z.div_le_upper_bound; [lia|].
    replace (2 ^ 1115) with (2 ^ 41 * 2 ^ 1074) by (rewrite <- Z.pow_add_r; lia).
    nia. }
  set (e := Z.max (k - 52) 0 - 1074).
  assert (He : e <= -11) by (subst e; lia).
  destruct (Z.ltb_spec e 0) as [_|]; [|lia].
  rewrite Qred_correct.
  set (P := 2 ^ (- e)).
  assert (HP : 2 ^ 11 <= P) by (subst P; apply Z.pow_le_mono_r; lia).
  assert (HP0 : 0 < P) by lia.
  pose proof (half_even_near (n * P) (Z.pos d) ltac:(lia)) as Hm.
  set (m := half_even (n * P) (Z.pos d)) in *.
  apply Qabs_Qle_condition.
  unfold Qle, Qminus, Qplus, Qopp. cbn [Qnum Qden].
  rewrite !Pos2Z.inj_mul, Z2Pos.id by lia.
  change (2 ^ 11) with 2048 in HP.
  split; nia.
Qed.

Lemma float_of_sixty : float_of_int 60 = Ok (inject_Z 60).
Proof. vm_compute. reflexivity. Qed.

Lemma float_of_thirty : float_of_int 30 = Ok (inject_Z 30).
Proof. vm_compute. reflexivity. Qed.

Lemma float_of_two_minutes : float_of_int 120 = Ok (inject_Z 120).
Proof. vm_compute. reflexivity. Qed.

(** The product is rounded before it is truncated: the binary64 number
    nearest to 1762000000.001, read as a clock, is in its 1762000000001st
    millisecond, although it lies below 1762000000.001. *)
Example millis_rounds_the_product :
  millis (3695181824002097 # 2097152) = 1762000000001
  /\ ((3695181824002097 # 2097152) * 1000 < 1762000000001)%Q.
Proof. split; [vm_compute; reflexivity | reflexivity]. Qed.

(** The SDK's [token_acquired_at + expire_time - 60] for a float and an
    integer. *)
Lemma run_sdk_is_expired {S : Type} E (s : S) tr tok rt u (et : Z) (acq : Q) :
  result_of (run E (Sdk.is_expired
                      {| Sdk.access_token := JStr tok;
                         Sdk.refresh_token := rt;
                         Sdk.expire_time := JInt et;
                         Sdk.uid := u;
                         Sdk.token_acquired_at := JFloat acq |} s) tr)
  = if String.eqb tok "" then Ok true
    else match float_of_int et with
         | Ok lifetime =>
             Ok (negb (Qle_bool (clock E tr)
                         (round64 (round64 (acq + lifetime) - inject_Z 60))))
         | Exn e => Exn e
         end.
Proof.
  unfold Sdk.is_expired. cbn [Sdk.access_token truthy].
  destruct (String.eqb tok ""); cbn [negb]; [reflexivity|].
  rewrite run_bind, run_ask, run_lift. unfold result_of. cbn [fst answer].
  cbn [Sdk.token_acquired_at Sdk.expire_time py_add num_json as_float].
  destruct (float_of_int et) as [lifetime|e]; cbn [res_bind]; [|reflexivity].
  cbn [py_sub num_json as_float]. rewrite float_of_sixty. reflexivity.
Qed.

(** C2 (amended): a token with an empty access token is expired; otherwise
    the integration token is expired exactly when the clock, in
    milliseconds as the code computes them, is at or past
    [expire_at - 60000], and the SDK token exactly when the clock is
    strictly past [token_acquired_at + expire_time - 60] as float
    arithmetic computes it.  In both clients a token that expires 30 s
    from now is expired and one that expires 120 s from now is not (for
    the SDK, whose sum is rounded, at any clock reading up to [2 ^ 40]
    seconds). *)
Theorem is_expired_sixty_second_buffer :
  (forall (S : Type) E (s : S) tr tok rt u et (e : Z),
      result_of (run E (Integration.is_expired
                          {| Integration.access_token := JStr tok;
                             Integration.refresh_token := rt;
                             Integration.uid := u;
                             Integration.expire_time := et;
                             Integration.expire_at := JInt e |} s) tr)
      = Ok (String.eqb tok "" || (e - 60000 <=? millis (clock E tr))))
  /\ (forall (S : Type) E (s : S) tr tok rt u (et : Z) (acq : Q),
      result_of (run E (Sdk.is_expired
                          {| Sdk.access_token := JStr tok;
                             Sdk.refresh_token := rt;
                             Sdk.expire_time := JInt et;
                             Sdk.uid := u;
                             Sdk.token_acquired_at := JFloat acq |} s) tr)
      = if String.eqb tok "" then Ok true
        else match float_of_int et with
             | Ok lifetime =>
                 Ok (negb (Qle_bool (clock E tr)
                             (round64 (round64 (acq + lifetime) - inject_Z 60))))
             | Exn e => Exn e
             end)
  /\ (forall (S : Type) E (s : S) tr c tok rt u et,
      let now_ms := millis (clock E tr) in
      let token e := {| Integration.access_token := JStr (String c tok);
                        Integration.refresh_token := rt;
                        Integration.uid := u;
                        Integration.expire_time := et;
                        Integration.expire_at := JInt e |} in
      result_of (run E (Integration.is_expired (token (now_ms + 30000)) s) tr) = Ok true
      /\ result_of (run E (Integration.is_expired (token (now_ms + 120000)) s) tr)
         = Ok false)
  /\ (forall (S : Type) E (s : S) tr c tok rt u,
      (0 <= clock E tr <= inject_Z (2 ^ 40))%Q ->
      let token lifetime := {| Sdk.access_token := JStr (String c tok);
                               Sdk.refresh_token := rt;
                               Sdk.expire_time := JInt lifetime;
                               Sdk.uid := u;
                               Sdk.token_acquired_at := JFloat (clock E tr) |} in
      result_of (run E (Sdk.is_expired (token 30) s) tr) = Ok true
      /\ result_of (run E (Sdk.is_expired (token 120) s) tr) = Ok false).
Proof.
  split; [|split; [|split]].
  - intros. unfold Integration.is_expired. cbn [Integration.access_token truthy].
    destruct (String.eqb tok ""); cbn [negb orb]; [reflexivity|].
    rewrite run_bind, run_ask, run_lift. reflexivity.
  - intros. apply run_sdk_is_expired.
  - intros. unfold Integration.is_expired, token.
    cbn [Integration.access_token truthy String.eqb negb].
    rewrite !run_bind, !run_ask, !run_lift. unfold result_of.
    cbn [fst answer Integration.expire_at py_sub num_json res_bind num_le].
    subst now_ms. split; do 2 f_equal; lia.
  - intros S E s tr c tok rt u [Hlo Hhi] token. subst token. cbv beta.
    rewrite !run_sdk_is_expired. cbn [String.eqb].
    rewrite float_of_thirty, float_of_two_minutes.
    set (now := clock E tr) in *.
    assert (Hbig : (inject_Z (2 ^ 40) == 1099511627776)%Q) by reflexivity.
    assert (Hbigger : (inject_Z (2 ^ 41) == 2199023255552)%Q) by reflexivity.
    assert (Hnear : forall x, (Qabs x <= 2199023255552)%Q ->
                      (x - (1 # 4096) <= round64 x <= x + (1 # 4096))%Q).
    { intros x Hx. rewrite <- Hbigger in Hx. apply round64_near in Hx.
      apply Qabs_Qle_condition in Hx. lra. }
    assert (Habs : forall x, (0 <= x <= 2199023255552)%Q -> (Qabs x <= 2199023255552)%Q).
    { intros x Hx. apply Qabs_Qle_condition. lra. }
    rewrite Hbig in Hhi.
    assert (H30 : (inject_Z 30 == 30)%Q) by reflexivity.
    assert (H120 : (inject_Z 120 == 120)%Q) by reflexivity.
    assert (H60 : (inject_Z 60 == 60)%Q) by reflexivity.
    split; do 2 f_equal.
    + apply negb_true_iff. destruct (Qle_bool _ _) eqn:Hle; [|reflexivity].
      apply Qle_bool_iff in Hle. exfalso.
      pose proof (Hnear (now + inject_Z 30)%Q ltac:(apply Habs; lra)) as Ha.
      assert (Hb0 : (Qabs (round64 (now + inject_Z 30) - inject_Z 60)
                     <= 2199023255552)%Q) by (apply Qabs_Qle_condition; lra).
      pose proof (Hnear _ Hb0) as Hb. lra.
    + apply negb_false_iff. apply Qle_bool_iff.
      pose proof (Hnear (now + inject_Z 120)%Q ltac:(apply Habs; lra)) as Ha.
      assert (Hb0 : (Qabs (round64 (now + inject_Z 120) - inject_Z 60)
                     <= 2199023255552)%Q) by (apply Qabs_Qle_condition; lra).
      pose proof (Hnear _ Hb0) as Hb. lra.
Qed.

Lemma is_expired_sixty_second_buffer_witness :
  (0 <= clock (Mock.world 1000 []) [] <= inject_Z (2 ^ 40))%Q
  /\ result_of
       (run (Mock.world 1000 [])
            (Sdk.is_expired (S := unit)
               {| Sdk.access_token := JStr "tok"; Sdk.refresh_token := JStr "";
                  Sdk.expire_time := JInt 30; Sdk.uid := JStr "";
                  Sdk.token_acquired_at := JFloat (clock (Mock.world 1000 []) []) |}
               tt) [])
     = Ok true.
Proof.
  assert (Hnow : (0 <= clock (Mock.world 1000 []) [] <= inject_Z (2 ^ 40))%Q)
    by (split; discriminate).
  split; [exact Hnow|].
  exact (proj1 (proj2 (proj2 (proj2 is_expired_sixty_second_buffer)) unit
                  (Mock.world 1000 []) tt [] "t"%char "ok" (JStr "") (JStr "") Hnow)).
Defined.

(** * Command dispatch *)

Lemma run_send_commands `{PyRuntime} E s tr device_id commands :
  run E (Sync.send_commands device_id commands s) tr =
  match run E (Sync.on_api
                 (Integration.send_device_commands device_id commands) s) tr with
  | (Ok response, s1, tr1) => (Ok (Spec.success_flag response), s1, tr1)
  | (Exn _, s1, tr1) => (Ok false, s1, tr1)
  end.
Proof.
  unfold Sync.send_commands. rewrite run_catch, run_bind.
  destruct (run E (Sync.on_api _ s) tr) as [[[response | e] s1] tr1];
    simpl; [|reflexivity].
  rewrite run_bind, run_lift. unfold Spec.success_flag.
  destruct (py_get response "success" JNull) as [v | e]; simpl; [|reflexivity].
  now destruct (truthy v).
Qed.

(** C10: [send_commands] never raises: it returns a boolean whatever the
    call on the API does, and [False] when that call raises. *)
Theorem send_commands_never_raises `{PyRuntime} E s tr device_id commands :
  result_of (run E (Sync.send_commands device_id commands s) tr)
  = Ok match result_of
               (run E (Sync.on_api
                         (Integration.send_device_commands device_id commands) s) tr)
       with
       | Ok response => Spec.success_flag response
       | Exn _ => false
       end.
Proof.
  rewrite run_send_commands.
  now destruct (run E (Sync.on_api _ s) tr) as [[[response | e] s1] tr1].
Qed.

(** C8: [send_commands] returns [True] exactly when the reply to the
    commands call reported success -- and [False] when no call could be
    made or the call failed -- and it leaves the registry, with every
    status mapping in it, as it was. *)
Theorem send_commands_reports_and_keeps_status `{PyRuntime} E s tr device_id commands :
  let out := run E (Sync.send_commands device_id commands s) tr in
  Sync.device_map (state_of out) = Sync.device_map s
  /\ result_of out
     = Ok match run E (Integration._ensure_token (Sync.api s)) tr with
          | (Ok _, a1, tr1) =>
              match Integration.signed_request a1 (clock E tr1) "POST"
                      ("/v1.0/devices/" +:+ py_str device_id +:+ "/commands")
                      None (Some [("commands", commands)]) with
              | Ok rq => Spec.reported_success (net E (tr1 ++ [OClock]) rq)
              | Exn _ => false
              end
          | (Exn _, _, _) => false
          end.
Proof.
  intros out. subst out. rewrite run_send_commands, run_on_api.
  unfold Integration.send_device_commands, Integration.post.
  rewrite run_request.
  destruct (run E (Integration._ensure_token _) tr) as [[[[] | e] a1] tr1];
    [|now split].
  destruct (Integration.signed_request _ _ _ _ _ _) as [rq | e]; [|now split].
  pose proof (read_response_success (net E (tr1 ++ [OClock]) rq)) as Hr.
  unfold Spec.success_flag.
  destruct (Integration.read_response _) as [response | e]; simpl;
    split; try reflexivity; unfold result_of; simpl; now rewrite <- Hr.
Qed.

(** * Iterating over the devices *)

Section Siblings.
Context `{PyRuntime}.







End Siblings.



(** * The status merge *)

(** Against C6 as stated: a poll returns an entry with an empty code; the
    entry is not written and the status mapping stays as it was. *)
Lemma empty_code_is_not_merged :
  result_of Mock.polled_empty_code = Ok tt
  /\ Spec.last_value [Mock.item "" (JBool true)] (JStr "") = None
  /\ option_map status
       (pd_get (Sync.device_map (state_of Mock.polled_empty_code)) (JStr "d1"))
     = Some [(JStr "switch_1", JBool false); (JStr "bright_value", JInt 500)].
Proof. vm_compute. repeat split. Qed.

(** The example of the specification: [switch_1] is overwritten and
    [bright_value] survives. *)
Example switch_on_is_merged :
  option_map status
    (pd_get (Sync.device_map (state_of Mock.polled_switch_on)) (JStr "d1"))
  = Some [(JStr "switch_1", JBool true); (JStr "bright_value", JInt 500)].
Proof. vm_compute. reflexivity. Qed.

(** C6 (amended): [update_device_status] polls every device in turn; for a
    device whose poll succeeds with a well-formed status list, the status
    mapping afterwards holds, for every code that occurs non-empty in the
    list, the value of its last occurrence, and for every other code the
    value it held before; entries without a code are skipped; the device's
    other fields and the other devices are unchanged. *)
Theorem status_poll_merges_by_code `{PyRuntime} E s tr k device d a1 tr1 items :
  pd_get (Sync.device_map s) k = Some device ->
  run E (Integration.get_device_status k (Sync.api s)) tr = (Ok (JObj d), a1, tr1) ->
  truthy (dict_get_default d "success" JNull) = true ->
  py_iter (dict_get_default d "result" (JList [])) = Ok items ->
  forallb Spec.status_entry items = true ->
  let polled := run E (Sync.poll_device k s) tr in
  let all_polled := visit E Sync.poll_device (pd_keys (Sync.device_map s)) s tr in
  run E (Sync.update_device_status s) tr = (Ok tt, fst all_polled, snd all_polled)
  /\ Spec.only_device_changed k s (state_of polled)
  /\ exists device',
      pd_get (Sync.device_map (state_of polled)) k = Some device'
      /\ (forall c, pd_get (status device') c
                    = match Spec.last_value items c with
                      | Some v => Some v
                      | None => pd_get (status device) c
                      end)
      /\ set_status (status device) device' = device.
Proof.
  intros Hk Hcall Hsucc Hitems Hwf polled all_polled.
  split; [apply run_update_device_status|].
  split; [apply preserves_poll|].
  exists (set_status (fst (Sync.merge_status items (status device))) device).
  split; [|split].
  - subst polled.
    rewrite (run_poll_success E k s tr device d a1 tr1 items Hk Hcall Hsucc Hitems).
    now rewrite pd_get_alter, (key_eqb_refl_of_get _ _ _ Hk), Hk.
  - intros c. simpl. apply merge_status_values. now apply merge_status_ok.
  - now destruct device.
Qed.

Lemma status_poll_merges_by_code_witness :
  pd_get (Sync.device_map Mock.listed) (JStr "d1") = Some Mock.lamp
  /\ Mock.status_called
     = (Ok (JObj Mock.switch_response), state_of Mock.status_called,
        trace_of Mock.status_called)
  /\ truthy (dict_get_default Mock.switch_response "success" JNull) = true
  /\ py_iter (dict_get_default Mock.switch_response "result" (JList []))
     = Ok [Mock.item "switch_1" (JBool true)]
  /\ forallb Spec.status_entry [Mock.item "switch_1" (JBool true)] = true
  /\ Spec.only_device_changed (JStr "d1") Mock.listed
       (state_of (run (Mock.world 1000 Mock.switch_on)
                      (Sync.poll_device (H := Mock.runtime) (JStr "d1")
                         Mock.listed) [])).
Proof.
  assert (Hk : pd_get (Sync.device_map Mock.listed) (JStr "d1") = Some Mock.lamp)
    by (vm_compute; reflexivity).
  assert (Hcall : Mock.status_called
                  = (Ok (JObj Mock.switch_response), state_of Mock.status_called,
                     trace_of Mock.status_called))
    by (vm_compute; reflexivity).
  assert (Hsucc : truthy (dict_get_default Mock.switch_response "success" JNull)
                  = true) by reflexivity.
  assert (Hitems : py_iter (dict_get_default Mock.switch_response "result" (JList []))
                   = Ok [Mock.item "switch_1" (JBool true)]) by reflexivity.
  assert (Hwf : forallb Spec.status_entry [Mock.item "switch_1" (JBool true)] = true)
    by reflexivity.
  repeat (split; [assumption|]).
  exact (proj1 (proj2 (status_poll_merges_by_code (H := Mock.runtime)
                         (Mock.world 1000 Mock.switch_on) Mock.listed []
                         (JStr "d1") Mock.lamp Mock.switch_response _ _ _
                         Hk Hcall Hsucc Hitems Hwf))).
Defined.

(** * The cache rebuild *)

(** Against C3 as stated: the device list is answered with a 503;
    [request] returns [{"success": False}], the rebuild logs and returns,
    the registry stays empty and nothing is raised. *)
Lemma cache_rebuild_returns_without_the_list :
  result_of Mock.list_unavailable = Ok tt
  /\ Sync.device_map (state_of Mock.list_unavailable) = []
  /\ length (http_calls (trace_of Mock.list_unavailable)) = 1%nat.
Proof. vm_compute. repeat split. Qed.

(** C3 (amended): [update_device_cache] raises what the device-list call
    raises, and what reading the returned list raises; when the list call
    returns a response whose success flag is false it returns without
    raising and without touching the registry; once the list is read it
    does not raise, whatever the specification fetches of the devices do. *)
Theorem cache_rebuild_raises_only_for_the_list `{PyRuntime} E s tr :
  let called := run E (Sync.on_api (Integration.get_user_devices (Sync.uid s)) s) tr in
  let out := run E (Sync.update_device_cache s) tr in
  (forall e, result_of called = Exn e ->
     out = (Exn e, state_of called, trace_of called))
  /\ (forall response, result_of called = Ok response ->
       exists d, response = JObj d)
  /\ (forall d, result_of called = Ok (JObj d) ->
       truthy (dict_get_default d "success" JNull) = false ->
       out = (Ok tt, state_of called, trace_of called))
  /\ (forall d e, result_of called = Ok (JObj d) ->
       truthy (dict_get_default d "success" JNull) = true ->
       py_iter (dict_get_default d "result" (JList [])) = Exn e ->
       out = (Exn TypeError, state_of called, trace_of called))
  /\ (forall d devices, result_of called = Ok (JObj d) ->
       truthy (dict_get_default d "success" JNull) = true ->
       py_iter (dict_get_default d "result" (JList [])) = Ok devices ->
       match Sync.cache_devices devices (Sync.device_map s) with
       | (dm, Exn e) =>
           out = (Exn e, Sync.set_device_map dm (state_of called), trace_of called)
       | (dm, Ok _) =>
           result_of out = Ok tt
           /\ pd_keys (Sync.device_map (state_of out)) = pd_keys dm
       end).
Proof.
  intros called out. subst out. unfold Sync.update_device_cache.
  rewrite run_bind, run_get. cbv beta iota. rewrite run_bind. fold called.
  assert (Hmap : Sync.device_map (state_of called) = Sync.device_map s).
  { subst called. rewrite run_on_api.
    now destruct (run E (Integration.get_user_devices _ _) tr) as [[x a1] tr1]. }
  assert (Hobj : forall response, result_of called = Ok response ->
                   exists d, response = JObj d).
  { subst called. rewrite run_on_api. intros response.
    pose proof (request_returns_object E "GET"
                  ("/v1.0/users/" +:+ Sync.uid s +:+ "/devices") None None
                  (Sync.api s) tr response) as Hreq.
    unfold Integration.get_user_devices, Integration.get_.
    destruct (run E (Integration.request _ _ _ _ _) tr) as [[x a1] tr1].
    exact Hreq. }
  destruct called as [[r s1] tr1]. unfold result_of, state_of, trace_of in *.
  simpl in *.
  split; [|split; [exact Hobj|split; [|split]]].
  - intros e ->. reflexivity.
  - intros d -> Hs. exec. now rewrite Hs.
  - intros d e -> Hs Hit. exec. rewrite Hs. cbn [negb]. exec.
    destruct (dict_get_default d "result" (JList [])); try discriminate;
      reflexivity.
  - intros d devices -> Hs Hit. exec. rewrite Hs. cbn [negb]. exec.
    assert (Hlen : exists n, py_len (dict_get_default d "result" (JList [])) = Ok n).
    { destruct (dict_get_default d "result" (JList [])); try discriminate;
        eexists; reflexivity. }
    destruct Hlen as [n Hlen]. rewrite Hlen. cbv beta iota. exec.
    rewrite Hit. cbv beta iota. exec. rewrite Hmap.
    destruct (Sync.cache_devices devices (Sync.device_map s)) as [dm [[] | e]];
      exec; [|reflexivity].
    simpl Sync.device_map.
    pose proof (run_for_each_visit E Sync._fetch_device_specifications (pd_keys dm)
                  (Sync.set_device_map dm s1) tr1
                  (fun x s0 tr0 => run_catch_log E _ s0 tr0)) as Hrun.
    pose proof (preserves_for_each Spec.same_devices (pd_keys dm)
                  Sync._fetch_device_specifications
                  (fun x => preserves_weaken x _ (preserves_fetch x)) E
                  (Sync.set_device_map dm s1) tr1) as Hp.
    rewrite Hrun in *. split; [reflexivity | exact Hp].
Qed.

Lemma cache_rebuild_raises_only_for_the_list_witness :
  result_of Mock.list_called = Ok (JObj Mock.list_response)
  /\ truthy (dict_get_default Mock.list_response "success" JNull) = true
  /\ py_iter (dict_get_default Mock.list_response "result" (JList []))
     = Ok Mock.list_entries
  /\ result_of Mock.cached = Ok tt
  /\ pd_keys (Sync.device_map (state_of Mock.cached)) = [JStr "d1"; JStr "d2"].
Proof.
  assert (Hcall : result_of Mock.list_called = Ok (JObj Mock.list_response))
    by (vm_compute; reflexivity).
  assert (Hs : truthy (dict_get_default Mock.list_response "success" JNull) = true)
    by reflexivity.
  assert (Hit : py_iter (dict_get_default Mock.list_response "result" (JList []))
                = Ok Mock.list_entries) by reflexivity.
  repeat (split; [assumption|]).
  exact (proj2 (proj2 (proj2 (proj2 (cache_rebuild_raises_only_for_the_list
                                (H := Mock.runtime) (Mock.world 1000 Mock.two_devices)
                                Mock.manager0 []))))
           Mock.list_response Mock.list_entries Hcall Hs Hit).
Defined.

(** * The invalid-token retry *)

Lemma http_calls_app tr1 tr2 :
  http_calls (tr1 ++ tr2) = http_calls tr1 ++ http_calls tr2.
Proof.
  induction tr1 as [|o tr1 IH]; [reflexivity|].
  destruct o; simpl; now rewrite IH.
Qed.

Lemma run_session_json {S} E rq (s : S) tr :
  run E (session_json rq s) tr = (Spec.decoded (net E tr rq), s, tr ++ [OHttp rq]).
Proof.
  unfold session_json. rewrite run_bind, run_ask. simpl.
  now destruct (net E tr rq).
Qed.

Section Quiet.
Context {S : Type}.

Lemma quiet_ret {A} (a : A) : quiet (@ret S A a).
Proof. intros E s tr. reflexivity. Qed.

Lemma quiet_lift {A} (r : res A) : quiet (@lift S A r).
Proof. intros E s tr. reflexivity. Qed.

Lemma quiet_get : quiet (@get S).
Proof. intros E s tr. reflexivity. Qed.

Lemma quiet_modify (f : S -> S) : quiet (modify f).
Proof. intros E s tr. reflexivity. Qed.

Lemma quiet_clock : quiet (@ask S _ Clock).
Proof.
  intros E s tr. unfold trace_of. simpl.
  rewrite http_calls_app. simpl. apply app_nil_r.
Qed.

Lemma quiet_token_listener d : quiet (@ask S _ (TokenListener d)).
Proof.
  intros E s tr. unfold trace_of. simpl.
  rewrite http_calls_app. simpl. apply app_nil_r.
Qed.

Lemma quiet_bind {A B} (m : prog S A) (f : A -> prog S B) :
  quiet m -> (forall a, quiet (f a)) -> quiet (bind m f).
Proof.
  intros Hm Hf E s tr. rewrite run_bind. specialize (Hm E s tr).
  destruct (run E (m s) tr) as [[[a | e] s'] tr'].
  - rewrite (Hf a E s' tr'). exact Hm.
  - exact Hm.
Qed.

End Quiet.

Ltac quiet :=
  repeat first
    [ apply quiet_ret | apply quiet_lift | apply quiet_get | apply quiet_modify
    | apply quiet_clock | apply quiet_token_listener
    | apply quiet_bind; [| intros ?]
    | match goal with
      | |- quiet (match ?x with _ => _ end) => destruct x
      end ].

Section SdkFacts.
Context `{PyRuntime}.

Lemma run_sdk_build_headers E method path query body use_token a tr :
  run E (Sdk._build_headers method path query body use_token a) tr
  = (Ok (Sdk.headers_with a
           (Sdk.sign_with a method path query body
              (pretty (millis (clock E tr))) "" use_token)
           (pretty (millis (clock E tr))) use_token),
     a, tr ++ [OClock]).
Proof. reflexivity. Qed.

Lemma sdk_store_token_quiet response : quiet (Sdk.store_token response).
Proof. unfold Sdk.store_token, Sdk.new_token_info. quiet. Qed.

(** [get_access_token] makes one exchange. *)
Lemma sdk_get_access_token_calls E a tr :
  http_calls (trace_of (run E (Sdk.get_access_token a) tr))
  = http_calls tr ++ [Sdk.token_request_at a (clock E tr)].
Proof.
  unfold Sdk.get_access_token.
  rewrite run_bind, run_sdk_build_headers. exec.
  rewrite run_session_json.
  fold (Sdk.token_request_at a (clock E tr)).
  set (rq := Sdk.token_request_at a (clock E tr)).
  assert (Htr : http_calls ((tr ++ [OClock]) ++ [OHttp rq]) = http_calls tr ++ [rq]).
  { rewrite !http_calls_app. simpl. now rewrite app_nil_r. }
  destruct (Spec.decoded _) as [response | e]; [|exact Htr].
  exec. destruct (py_get response "success" JNull) as [v | e]; [|exact Htr].
  cbv beta iota.
  destruct (truthy v).
  - exec.
    pose proof (sdk_store_token_quiet response E a ((tr ++ [OClock]) ++ [OHttp rq]))
      as Hst.
    destruct (run E (Sdk.store_token response a) _) as [[[[] | e] a'] tr'];
      unfold trace_of in *; simpl in *; now rewrite Hst.
  - exec.
    destruct (py_get response "msg" _); [|exact Htr].
    cbv beta iota. exec.
    now destruct (py_get response "code" _).
Qed.

End SdkFacts.

(** Against C1 as stated: the mocked transport of the specification and the
    integration client: the call refused with the invalid-token code is not retried, no
    token is acquired, and the caller gets the error although the transport
    would have served the retry. *)
Lemma integration_request_does_not_retry :
  Spec.decoded (nth 0 Mock.invalid_once (ConnError AttributeError))
    = Ok (JObj Mock.rejected)
  /\ Sdk.invalid_token_code (dict_get_default Mock.rejected "code" (JStr "N/A")) = true
  /\ result_of Mock.integration_called
     = Exn (TrueXAPIError "API error" (JStr "token invalid") (JInt 1010))
  /\ length (http_calls (trace_of Mock.integration_called)) = 1%nat
  /\ result_of Mock.sdk_called = Ok Mock.served
  /\ length (http_calls (trace_of Mock.sdk_called)) = 3%nat.
Proof. vm_compute. repeat split. Qed.

(** C1 (amended): in the SDK client, a business call answered with a false
    success flag and the invalid-token code leads to exactly one recovery:
    one [get_access_token], whose failure is the caller's error, then the
    same call once more with rebuilt headers, whose response is returned
    when successful and raised as [TrueXAPIError] otherwise; with any other
    code the failed response is handed to the caller at once.  In the
    integration client the call is made once and never retried: a response
    with a false success flag raises [TrueXAPIError] whatever its code. *)
Theorem invalid_token_is_retried_once_by_the_sdk_only :
  (forall (H : PyRuntime) E a tr method path query body a1 tr1 d,
      run E (Sdk._ensure_token a) tr = (Ok tt, a1, tr1) ->
      let rq1 := Sdk.request_at a1 (clock E tr1) method path query body in
      let tr2 := tr1 ++ [OClock; OHttp rq1] in
      Spec.decoded (net E (tr1 ++ [OClock]) rq1) = Ok (JObj d) ->
      truthy (dict_get_default d "success" JNull) = false ->
      let out := run E (Sdk.request method path query body a) tr in
      if Sdk.invalid_token_code (dict_get_default d "code" (JStr "N/A"))
      then
        match run E (Sdk.get_access_token a1) tr2 with
        | (Exn e, a3, tr3) => out = (Exn e, a3, tr3)
        | (Ok _, a3, tr3) =>
            let rq2 := with_headers
                         (rq_headers (Sdk.request_at a3 (clock E tr3)
                                        method path query body)) rq1 in
            state_of out = a3
            /\ trace_of out = tr3 ++ [OClock; OHttp rq2]
            /\ http_calls (trace_of out)
               = http_calls tr1
                 ++ [rq1; Sdk.token_request_at a1 (clock E tr2); rq2]
            /\ match Spec.decoded (net E (tr3 ++ [OClock]) rq2) with
               | Ok (JObj d2) =>
                   result_of out
                   = if truthy (dict_get_default d2 "success" JNull)
                     then Ok (JObj d2)
                     else Exn (TrueXAPIError "API error after retry"
                                 (dict_get_default d2 "msg" JNull)
                                 (dict_get_default d2 "code" JNull))
               | Ok _ => result_of out = Exn AttributeError
               | Exn e => result_of out = Exn e
               end
        end
      else out = (Ok (JObj d), a1, tr2))
  /\ (forall (H : PyRuntime) E a tr method path params body a1 tr1 rq,
      run E (Integration._ensure_token a) tr = (Ok tt, a1, tr1) ->
      Integration.signed_request a1 (clock E tr1) method path params body = Ok rq ->
      let out := run E (Integration.request method path params body a) tr in
      state_of out = a1
      /\ trace_of out = tr1 ++ [OClock; OHttp rq]
      /\ forall text d,
          net E (tr1 ++ [OClock]) rq = Response true text (Ok (JObj d)) ->
          truthy (dict_get_default d "success" JNull) = false ->
          result_of out
          = Exn (TrueXAPIError "API error"
                   (dict_get_default d "msg" (JStr "Unknown error"))
                   (dict_get_default d "code" (JStr "N/A")))).
Proof.
  split.
  - intros H E a tr method path query body a1 tr1 d Hens rq1 tr2 Hdec Hsucc out.
    subst out. unfold Sdk.request.
    rewrite run_bind, Hens. cbv beta iota.
    rewrite run_bind, run_sdk_build_headers. cbv beta iota. exec.
    unfold Sdk.send. rewrite run_session_json.
    fold (Sdk.request_at a1 (clock E tr1) method path query body). fold rq1.
    rewrite Hdec. cbv beta iota. exec. rewrite Hsucc. cbn [negb]. exec.
    replace ((tr1 ++ [OClock]) ++ [OHttp rq1]) with tr2
      by (subst tr2; now rewrite <- app_assoc).
    destruct (Sdk.invalid_token_code _); [|reflexivity].
    pose proof (sdk_get_access_token_calls E a1 tr2) as Hcalls.
    rewrite run_bind.
    destruct (run E (Sdk.get_access_token a1) tr2) as [[[response | e] a3] tr3];
      [|reflexivity].
    cbv beta iota. rewrite run_bind, run_sdk_build_headers. cbv beta iota. exec.
    rewrite run_session_json.
    match goal with
    | |- context [net E (tr3 ++ [OClock]) ?r] =>
        change r with (with_headers
                         (rq_headers (Sdk.request_at a3 (clock E tr3)
                                        method path query body)) rq1)
    end.
    set (rq2 := with_headers
                  (rq_headers (Sdk.request_at a3 (clock E tr3)
                                 method path query body)) rq1).
    unfold trace_of in Hcalls. simpl in Hcalls.
    assert (Htr : forall (r : res json),
               state_of (r, a3, (tr3 ++ [OClock]) ++ [OHttp rq2]) = a3
               /\ trace_of (r, a3, (tr3 ++ [OClock]) ++ [OHttp rq2])
                  = tr3 ++ [OClock; OHttp rq2]
               /\ http_calls (trace_of (r, a3, (tr3 ++ [OClock]) ++ [OHttp rq2]))
                  = http_calls tr1
                    ++ [rq1; Sdk.token_request_at a1 (clock E tr2); rq2]).
    { intros r. unfold state_of, trace_of. simpl.
      split; [reflexivity|]. split; [now rewrite <- app_assoc|].
      rewrite !http_calls_app, Hcalls. subst tr2.
      rewrite http_calls_app. simpl. now rewrite <- !app_assoc. }
    destruct (Spec.decoded (net E (tr3 ++ [OClock]) rq2)) as [response2 | e].
    + cbv beta iota. exec.
      destruct response2; cbn [py_get]; cbv beta iota;
        try (destruct (Htr (Exn AttributeError)) as (? & ? & ?); now repeat split).
      exec.
      destruct (truthy (dict_get_default o "success" JNull)); cbn [negb]; exec.
      * destruct (Htr (Ok (JObj o))) as (? & ? & ?). now repeat split.
      * destruct (Htr (Exn (TrueXAPIError "API error after retry"
                              (dict_get_default o "msg" JNull)
                              (dict_get_default o "code" JNull)))) as (? & ? & ?).
        now repeat split.
    + destruct (Htr (Exn e)) as (? & ? & ?). now repeat split.
  - intros H E a tr method path params body a1 tr1 rq Hens Hsign out.
    subst out. rewrite run_request, Hens, Hsign.
    unfold state_of, trace_of, result_of. simpl.
    split; [reflexivity|]. split; [now rewrite <- app_assoc|].
    intros text d -> Hsucc. simpl. now rewrite Hsucc.
Qed.

Lemma invalid_token_is_retried_once_by_the_sdk_only_witness :
  run (Mock.world 1000 Mock.invalid_once)
      (Sdk._ensure_token (H := Mock.runtime) Mock.sdk0) []
  = (Ok tt, Mock.sdk0, [OClock])
  /\ Spec.decoded
       (net (Mock.world 1000 Mock.invalid_once) ([OClock] ++ [OClock])
            (Sdk.request_at (H := Mock.runtime) Mock.sdk0
               (clock (Mock.world 1000 Mock.invalid_once) [OClock])
               "GET" "/v1.0/devices/d1/status" None None))
     = Ok (JObj Mock.rejected)
  /\ truthy (dict_get_default Mock.rejected "success" JNull) = false
  /\ result_of Mock.sdk_called = Ok Mock.served
  /\ length (http_calls (trace_of Mock.sdk_called)) = 3%nat.
Proof.
  assert (Hens : run (Mock.world 1000 Mock.invalid_once)
                     (Sdk._ensure_token (H := Mock.runtime) Mock.sdk0) []
                 = (Ok tt, Mock.sdk0, [OClock])) by (vm_compute; reflexivity).
  assert (Hdec : Spec.decoded
                   (net (Mock.world 1000 Mock.invalid_once) ([OClock] ++ [OClock])
                        (Sdk.request_at (H := Mock.runtime) Mock.sdk0
                           (clock (Mock.world 1000 Mock.invalid_once) [OClock])
                           "GET" "/v1.0/devices/d1/status" None None))
                 = Ok (JObj Mock.rejected)) by (vm_compute; reflexivity).
  assert (Hsucc : truthy (dict_get_default Mock.rejected "success" JNull) = false)
    by reflexivity.
  repeat (split; [assumption|]).
  generalize (proj1 invalid_token_is_retried_once_by_the_sdk_only Mock.runtime
                (Mock.world 1000 Mock.invalid_once) Mock.sdk0 []
                "GET" "/v1.0/devices/d1/status" None None Mock.sdk0 [OClock]
                Mock.rejected Hens Hdec Hsucc).
  vm_compute. intros (_ & _ & _ & Hres). split; [exact Hres | reflexivity].
Defined.

(** * The refresh guard *)

(** Against C5 as stated: two callers on one loop, the token expired; while the first caller's
    refresh is in flight the second caller goes through the refresh path,
    makes no token call of its own, and sends its business call with the
    stale token; the refresh then produces another token. *)
Lemma concurrent_caller_proceeds_with_stale_token :
  map (fun rq => (rq_url rq, dict_get (rq_headers rq) "access_token"))
      (http_calls (history Mock.overlapped))
  = [ ("https://api.example/v1.0/token/ref", None);
      ("https://api.example/v1.0/b", Some (JStr "stale"));
      ("https://api.example/v1.0/a", Some (JStr "tok2")) ]
  /\ Integration.access_token (Integration.token_info (shared Mock.overlapped))
     = JStr "tok2".
Proof. vm_compute. split; reflexivity. Qed.

Section GuardFacts.
Context `{PyRuntime}.

Local Opaque hmac_sha256_upper sha256_hexdigest pretty.

(** A refresh that starts suspends in an exchange with the flag set and the
    stored token untouched. *)
Lemma refresh_suspends_with_flag_set E a tr :
  Integration._refreshing_token a = false ->
  exists rq k a',
    advance E (Integration._refresh_access_token a) tr
    = (Waiting rq k, a', tr ++ [OClock; OHttp rq])
    /\ Integration._refreshing_token a' = true
    /\ Integration.token_info a' = Integration.token_info a.
Proof.
  intros Hflag. destruct a as [url cid sec sch tok lst flag]. simpl in Hflag.
  subst flag. unfold Integration._refresh_access_token.
  destruct tok as [access refresh u et eat].
  destruct refresh; cbn; rewrite <- ?app_assoc; cbn;
    do 3 eexists; (split; [reflexivity|]); split; reflexivity.
Qed.

End GuardFacts.

Section During.
Context {S : Type} (P : S -> Prop).

Lemma during_weaken {A} (Q Q' : S -> Prop) (r : react S A) :
  (forall s, Q s -> Q' s) -> during P Q r -> during P Q' r.
Proof.
  intros HQ. induction r as [x s | X s e k IH]; simpl; [apply HQ|].
  intros [Hs Hk]. split; [exact Hs|]. intros x s' Hs'. apply IH, Hk, Hs'.
Qed.

Lemma during_bind {A B} (Q : S -> Prop) (r : react S A) (f : A -> prog S B) :
  during P P r ->
  (forall s, P s -> Q s) ->
  (forall a s, P s -> during P Q (f a s)) ->
  during P Q (bind_react r f).
Proof.
  intros Hr HQ Hf. induction r as [[a | e] s | X s e k IH]; simpl in *.
  - now apply Hf.
  - now apply HQ.
  - destruct Hr as [Hs Hk]. split; [exact Hs|].
    intros x s' Hs'. apply IH, Hk, Hs'.
Qed.

Lemma during_catch {A} (Q : S -> Prop) (r : react S A) (h : exn -> prog S A) :
  during P P r ->
  (forall s, P s -> Q s) ->
  (forall e s, P s -> during P Q (h e s)) ->
  during P Q (catch_react r h).
Proof.
  intros Hr HQ Hh. induction r as [[a | e] s | X s e k IH]; simpl in *.
  - now apply HQ.
  - now apply Hh.
  - destruct Hr as [Hs Hk]. split; [exact Hs|].
    intros x s' Hs'. apply IH, Hk, Hs'.
Qed.

Lemma during_finally {A} (Q : S -> Prop) (r : react S A) (fin : S -> S) :
  during P P r ->
  (forall s, P s -> Q (fin s)) ->
  during P Q (finally_react r fin).
Proof.
  intros Hr HQ. induction r as [x s | X s e k IH]; simpl in *.
  - now apply HQ.
  - destruct Hr as [Hs Hk]. split; [exact Hs|].
    intros x s' Hs'. apply IH, Hk, Hs'.
Qed.


Lemma keeps_ret {A} (a : A) : keeps P (ret a).
Proof. intros s Hs. exact Hs. Qed.

Lemma keeps_raise {A} e : keeps P (@raise S A e).
Proof. intros s Hs. exact Hs. Qed.

Lemma keeps_lift {A} (r : res A) : keeps P (lift r).
Proof. intros s Hs. exact Hs. Qed.

Lemma keeps_get : keeps P get.
Proof. intros s Hs. exact Hs. Qed.

Lemma keeps_ask {X} (e : event X) : keeps P (ask e).
Proof. intros s Hs. simpl. split; [exact Hs|]. intros x s' Hs'. exact Hs'. Qed.

Lemma keeps_modify (f : S -> S) : (forall s, P s -> P (f s)) -> keeps P (modify f).
Proof. intros Hf s Hs. simpl. now apply Hf. Qed.

Lemma keeps_bind {A B} (m : prog S A) (f : A -> prog S B) :
  keeps P m -> (forall a, keeps P (f a)) -> keeps P (bind m f).
Proof.
  intros Hm Hf s Hs. unfold bind.
  apply during_bind; [now apply Hm | auto | intros a s' Hs'; now apply Hf].
Qed.

Lemma keeps_catch {A} (m : prog S A) (h : exn -> prog S A) :
  keeps P m -> (forall e, keeps P (h e)) -> keeps P (catch m h).
Proof.
  intros Hm Hh s Hs. unfold catch.
  apply during_catch; [now apply Hm | auto | intros e s' Hs'; now apply Hh].
Qed.

(** The running task keeps the loop until it is done or suspended. *)
Lemma advance_during {A} (Q : S -> Prop) E (r : react S A) tr :
  during P Q r ->
  match advance E r tr with
  | (Finished _, s, _) => Q s
  | (Waiting _ k, s, _) => P s /\ forall x s', P s' -> during P Q (k x s')
  | (Ready _, _, _) => False
  end.
Proof.
  revert tr. induction r as [x s | X s e k IH]; intros tr Hr; simpl in *.
  - exact Hr.
  - destruct Hr as [Hs Hk].
    destruct e; try (apply IH, Hk, Hs). split; [exact Hs | exact Hk].
Qed.

End During.

Section LoopFacts.
Context {S A : Type} (P Q : S -> Prop).

Lemma resume_bystander E (l : loop S A) i j (r : react S A) :
  j <> i ->
  (j < length (tasks l))%nat ->
  during P P r ->
  guarded_loop P Q i l ->
  guarded_loop P Q i (resume E l j r).
Proof.
  intros Hji Hj Hr Hinv. unfold resume.
  pose proof (advance_during P P E r (history l) Hr) as Hadv.
  destruct (advance E r (history l)) as [[t s] tr].
  destruct Hinv as [[x Hdone] | (Hs & (ti & Hi & Hfl) & Hothers)].
  - left. exists x. simpl. now rewrite list_lookup_insert_ne.
  - right. simpl.
    assert (Ht : P s /\ bystander P t).
    { destruct t as [m | rq k | x]; simpl in Hadv;
        [destruct Hadv | exact Hadv | now split]. }
    destruct Ht as [Hs' Hby]. split; [exact Hs'|]. split.
    + exists ti. now rewrite list_lookup_insert_ne.
    + intros j' t' Hj' Hlook. destruct (decide (j = j')) as [<- | Hne].
      * rewrite list_lookup_insert_eq in Hlook by exact Hj.
        now inversion Hlook; subst.
      * rewrite list_lookup_insert_ne in Hlook by exact Hne. eauto.
Qed.

Lemma resume_in_flight E (l : loop S A) i (r : react S A) :
  (i < length (tasks l))%nat ->
  during P Q r ->
  (forall j t, j <> i -> tasks l !! j = Some t -> bystander P t) ->
  guarded_loop P Q i (resume E l i r).
Proof.
  intros Hi Hr Hothers. unfold resume.
  pose proof (advance_during P Q E r (history l) Hr) as Hadv.
  destruct (advance E r (history l)) as [[t s] tr].
  destruct t as [m | rq k | x]; simpl in Hadv; [destruct Hadv | |].
  - right. simpl. destruct Hadv as [Hs Hk]. split; [exact Hs|]. split.
    + exists (Waiting rq k). split; [now apply list_lookup_insert_eq | exact Hk].
    + intros j t Hj Hlook. rewrite list_lookup_insert_ne in Hlook by auto. eauto.
  - left. exists x. simpl. now apply list_lookup_insert_eq.
Qed.

Lemma loop_step_guarded E (l : loop S A) i a :
  guarded_loop P Q i l -> guarded_loop P Q i (loop_step E l a).
Proof.
  assert (Hdone : forall j r x, j <> i -> tasks l !! i = Some (Finished x) ->
                    guarded_loop P Q i (resume E l j r)).
  { intros j r x Hji Hx. unfold resume.
    destruct (advance E r (history l)) as [[t s] tr].
    left. exists x. simpl. now rewrite list_lookup_insert_ne. }
  intros Hinv. destruct a as [j | j reply]; simpl.
  - destruct (tasks l !! j) as [[m | rq k | x]|] eqn:Hj; try exact Hinv.
    destruct (decide (j = i)) as [-> | Hji].
    + destruct Hinv as [[x Hx] | (_ & (ti & Hi & Hfl) & _)]; [congruence|].
      rewrite Hj in Hi. inversion Hi; subst ti. destruct Hfl.
    + destruct Hinv as [[x Hx] | (Hs & Hi & Hothers)]; [now apply (Hdone j _ x)|].
      apply resume_bystander;
        [exact Hji | eapply lookup_lt_Some; eauto
         | apply (Hothers j (Ready m) Hji Hj), Hs | right; auto].
  - destruct (tasks l !! j) as [[m | rq k | x]|] eqn:Hj; try exact Hinv.
    destruct (decide (j = i)) as [-> | Hji].
    + destruct Hinv as [[x Hx] | (Hs & (ti & Hi & Hfl) & Hothers)]; [congruence|].
      rewrite Hj in Hi. inversion Hi; subst ti.
      apply resume_in_flight; [eapply lookup_lt_Some; eauto | | exact Hothers].
      apply Hfl, Hs.
    + destruct Hinv as [[x Hx] | (Hs & Hi & Hothers)]; [now apply (Hdone j _ x)|].
      apply resume_bystander;
        [exact Hji | eapply lookup_lt_Some; eauto
         | apply (Hothers j (Waiting rq k) Hji Hj), Hs | right; auto].
Qed.

Lemma run_loop_guarded E (l : loop S A) i schedule :
  guarded_loop P Q i l -> guarded_loop P Q i (run_loop E l schedule).
Proof.
  unfold run_loop. revert l.
  induction schedule as [|a schedule IH]; intros l Hinv; [exact Hinv|].
  simpl. apply IH, loop_step_guarded, Hinv.
Qed.

End LoopFacts.

Section GuardHeld.
Context `{PyRuntime}.

Local Opaque hmac_sha256_upper sha256_hexdigest pretty urlencode.

Ltac held_step :=
  match goal with
  | |- keeps _ (ret _) => apply keeps_ret
  | |- keeps _ (raise _) => apply keeps_raise
  | |- keeps _ (lift _) => apply keeps_lift
  | |- keeps _ get => apply keeps_get
  | |- keeps _ (ask _) => apply keeps_ask
  | |- keeps _ (modify _) => apply keeps_modify; intros ? ?; assumption
  | |- keeps _ (session_json _) => unfold session_json
  | |- keeps _ (bind _ _) => apply keeps_bind; [| intros ?]
  | |- keeps _ (catch _ _) => apply keeps_catch; [| intros ?]
  | |- keeps _ (match ?x with _ => _ end) => destruct x
  end.

Ltac held := repeat first [progress cbv zeta | held_step].

Lemma store_token_keeps_guard response :
  keeps guard_set (Integration.store_token response).
Proof. unfold Integration.store_token. held. Qed.

Lemma get_access_token_keeps_guard : keeps guard_set Integration.get_access_token.
Proof.
  unfold Integration.get_access_token.
  repeat first [ apply store_token_keeps_guard | progress cbv zeta | held_step ].
Qed.

(** From a clear guard: set at every event of the refresh, clear at its
    end. *)
Lemma refresh_holds_guard a :
  guard_clear a ->
  during guard_set guard_clear (Integration._refresh_access_token a).
Proof.
  intros Hclear. unfold guard_clear in Hclear.
  unfold Integration._refresh_access_token.
  match goal with
  | |- during ?P ?Q (bind get ?f ?s) => change (during P Q (f s s))
  end.
  cbv beta. rewrite Hclear.
  match goal with
  | |- during ?P ?Q (bind (modify ?g) ?f ?s) => change (during P Q (f tt (g s)))
  end.
  cbv beta.
  match goal with
  | |- during ?P ?Q (finally ?m ?fin ?s) =>
      change (during P Q (finally_react (m s) fin))
  end.
  apply during_finally; [|reflexivity].
  match goal with
  | |- during _ _ (catch ?m ?h ?s) =>
      assert (Hk : keeps guard_set (catch m h))
  end.
  { repeat first [ apply store_token_keeps_guard
                 | apply get_access_token_keeps_guard
                 | progress cbv zeta | held_step ]. }
  apply Hk. reflexivity.
Qed.

(** With the guard set, a refresh is a bystander, and so are token
    maintenance and a request. *)
Lemma refresh_keeps_guard : keeps guard_set Integration._refresh_access_token.
Proof.
  intros a Ha. unfold Integration._refresh_access_token.
  match goal with
  | |- during ?P ?Q (bind get ?f ?s) => change (during P Q (f s s))
  end.
  cbv beta. unfold guard_set in Ha. rewrite Ha. exact Ha.
Qed.

Lemma ensure_token_keeps_guard : keeps guard_set Integration._ensure_token.
Proof.
  unfold Integration._ensure_token, Integration.is_expired.
  repeat first [ apply refresh_keeps_guard
               | apply get_access_token_keeps_guard
               | progress cbv zeta | held_step ].
Qed.

Lemma request_keeps_guard method path params body :
  keeps guard_set (Integration.request method path params body).
Proof.
  unfold Integration.request.
  repeat first [ apply ensure_token_keeps_guard | progress cbv zeta | held_step ].
Qed.

End GuardHeld.

(** C5 (amended): a caller that enters the refresh path while the flag is
    set makes no network call and returns at once, without waiting for the
    refresh in flight and without changing the stored token: it goes on
    with the token it finds.  A refresh that starts from a clear flag has
    the flag set at every event until it is done, its fallback token calls
    included, and clears it at its end; so on an event loop whose other
    tasks are calls of [_ensure_token], [_refresh_access_token] or
    [request], the flag is set, and the refresh path is skipped, in every
    state in which the refresh is suspended. *)
Theorem refresh_is_skipped_while_in_flight `{PyRuntime} (a : Integration.CustomerApi) :
  Integration._refreshing_token a = true ->
  Integration._refresh_access_token a = Done (Ok tt) a
  /\ (forall E tr, run E (Integration._refresh_access_token a) tr = (Ok tt, a, tr))
  /\ (forall E tr a0,
        Integration._refreshing_token a0 = false ->
        exists rq k a',
          advance E (Integration._refresh_access_token a0) tr
          = (Waiting rq k, a', tr ++ [OClock; OHttp rq])
          /\ Integration._refreshing_token a' = true
          /\ Integration.token_info a' = Integration.token_info a0
          /\ Integration._refresh_access_token a' = Done (Ok tt) a')
  /\ (forall a0,
        guard_clear a0 ->
        during guard_set guard_clear (Integration._refresh_access_token a0))
  /\ (forall E (l : loop Integration.CustomerApi unit) i schedule,
        guard_clear (shared l) ->
        tasks l !! i = Some (Ready Integration._refresh_access_token) ->
        (forall j t, j <> i -> tasks l !! j = Some t -> bystander guard_set t) ->
        let l' := run_loop E l (Start i :: schedule) in
        match tasks l' !! i with
        | Some (Waiting _ _) =>
            guard_set (shared l')
            /\ Integration._refresh_access_token (shared l') = Done (Ok tt) (shared l')
        | Some (Finished _) => True
        | _ => False
        end)
  /\ (bystander guard_set (Ready Integration._ensure_token)
      /\ bystander guard_set (Ready Integration._refresh_access_token)
      /\ forall method path params body,
           bystander guard_set (Ready (Integration.request method path params body))).
Proof.
  intros Hflag.
  assert (Hskip : forall b, Integration._refreshing_token b = true ->
                    Integration._refresh_access_token b = Done (Ok tt) b).
  { intros b Hb. unfold Integration._refresh_access_token, bind, get. simpl.
    now rewrite Hb. }
  split; [now apply Hskip|]. split; [|split; [|split; [|split]]].
  - intros E tr. now rewrite (Hskip a Hflag).
  - intros E tr a0 H0.
    destruct (refresh_suspends_with_flag_set E a0 tr H0) as (rq & k & a' & Hadv & Hf & Ht).
    exists rq, k, a'. repeat split; auto.
  - apply refresh_holds_guard.
  - intros E l i schedule Hclear Hi Hothers l'. subst l'.
    change (run_loop E l (Start i :: schedule))
      with (run_loop E (loop_step E l (Start i)) schedule).
    assert (Hinv : guarded_loop guard_set guard_clear i
                     (run_loop E (loop_step E l (Start i)) schedule)).
    { apply run_loop_guarded. simpl. rewrite Hi.
      apply resume_in_flight;
        [eapply lookup_lt_Some; eauto | now apply refresh_holds_guard | exact Hothers]. }
    destruct Hinv as [[x ->] | (Hs & (t & -> & Hfl) & _)]; [exact I|].
    destruct t; try destruct Hfl. split; [exact Hs | now apply Hskip].
  - split; [exact ensure_token_keeps_guard|].
    split; [exact refresh_keeps_guard | intros; apply request_keeps_guard].
Qed.

Lemma refresh_is_skipped_while_in_flight_witness :
  Integration._refreshing_token (Integration.set_refreshing true Mock.expired_api) = true
  /\ Integration._refresh_access_token (H := Mock.runtime)
       (Integration.set_refreshing true Mock.expired_api)
     = Done (Ok tt) (Integration.set_refreshing true Mock.expired_api)
  /\ guard_set (shared Mock.fallback_in_flight)
  /\ map rq_url (http_calls (history Mock.fallback_in_flight))
     = [ "https://api.example/v1.0/token/ref";
         "https://api.example/v1.0/token?grant_type=1" ]
  /\ tasks Mock.fallback_in_flight !! 1%nat = Some (Finished (Ok tt)).
Proof.
  assert (Hflag : Integration._refreshing_token
                    (Integration.set_refreshing true Mock.expired_api) = true)
    by reflexivity.
  pose proof (refresh_is_skipped_while_in_flight (H := Mock.runtime) _ Hflag)
    as (Hskip & _ & _ & _ & Hloop & Hcaller & _).
  split; [exact Hflag|]. split; [exact Hskip|].
  split; [|split; vm_compute; reflexivity].
  assert (Hothers : forall j t, j <> 0%nat ->
             tasks Mock.refresher_and_caller !! j = Some t -> bystander guard_set t).
  { intros [|[|j]] t Hj Ht; [easy | | discriminate].
    inversion Ht; subst t. exact Hcaller. }
  specialize (Hloop (Mock.world 1000 []) Mock.refresher_and_caller 0%nat
                [Deliver 0 (Mock.ok_json (JObj Mock.refusal)); Start 1]
                eq_refl eq_refl Hothers).
  cbv zeta in Hloop. fold Mock.fallback_in_flight in Hloop.
  destruct (tasks Mock.fallback_in_flight !! 0%nat) as [[m | rq k | x]|];
    [destruct Hloop | exact (proj1 Hloop) | reflexivity | destruct Hloop].
Defined.

(** * The registry between calls *)

Lemma pd_get_congr {V} (d : pydict V) k c :
  key_eqb k c = true -> pd_get d k = pd_get d c.
Proof.
  intros Hkc. induction d as [|[k' v] d IH]; simpl; [reflexivity|].
  rewrite (key_eqb_sym k' k), (key_eqb_sym k' c), (key_eqb_congr _ _ k' Hkc).
  now rewrite IH.
Qed.

Lemma pd_keys_put {V} (d : pydict V) k v :
  pd_keys (pd_put d k v)
  = pd_keys d ++ match pd_get d k with Some _ => [] | None => [k] end.
Proof.
  unfold pd_keys. induction d as [|[k' v'] d IH]; simpl; [reflexivity|].
  destruct (key_eqb k' k); simpl; [now rewrite app_nil_r | now rewrite IH].
Qed.

#[global] Instance keys_kept_refl {V} : Reflexive (@keys_kept V).
Proof. intros m. exists []. now rewrite app_nil_r. Qed.

#[global] Instance keys_kept_trans {V} : Transitive (@keys_kept V).
Proof.
  intros m1 m2 m3 [e1 H1] [e2 H2]. exists (e1 ++ e2).
  now rewrite H2, H1, app_assoc.
Qed.

Lemma keys_kept_put {V} (d : pydict V) k v : keys_kept d (pd_put d k v).
Proof. eexists. apply pd_keys_put. Qed.

Lemma pd_get_is_Some {V} (d : pydict V) c :
  is_Some (pd_get d c) <-> exists k, In k (pd_keys d) /\ key_eqb k c = true.
Proof.
  induction d as [|[k v] d IH]; simpl.
  - split; [intros [? ?]; discriminate | intros (? & [] & _)].
  - destruct (key_eqb k c) eqn:Hk.
    + split; [intros _; exists k; auto | intros _; eauto].
    + rewrite IH. split.
      * intros (k0 & Hin & Hk0). exists k0. auto.
      * intros (k0 & [<- | Hin] & Hk0); [congruence | eauto].
Qed.

Lemma keys_kept_get {V} (m m' : pydict V) c :
  keys_kept m m' -> is_Some (pd_get m c) -> is_Some (pd_get m' c).
Proof.
  intros [extra Hk] Hc. apply pd_get_is_Some in Hc.
  destruct Hc as (k & Hk1 & Hk2). apply pd_get_is_Some.
  exists k. split; [|exact Hk2]. rewrite Hk. apply in_or_app. now left.
Qed.

Section RegistryFacts.
Context `{PyRuntime}.

Lemma merge_status_keys items m : keys_kept m (fst (Sync.merge_status items m)).
Proof.
  revert m. induction items as [|item items IH]; intros m; [reflexivity|].
  destruct item; try reflexivity. simpl.
  destruct (truthy (dict_get_default o "code" (JStr ""))); [|apply IH].
  unfold pd_set. destruct (hashable _); [|reflexivity].
  etransitivity; [apply keys_kept_put | apply IH].
Qed.

Lemma merge_specs_keys items m : keys_kept m (fst (Sync.merge_specs items m)).
Proof.
  revert m. induction items as [|item items IH]; intros m; [reflexivity|].
  destruct item; try reflexivity. simpl.
  destruct (truthy (dict_get_default o "code" (JStr ""))); [|apply IH].
  destruct (Sync.parse_values _); [|reflexivity].
  unfold pd_set. destruct (hashable _); [|reflexivity].
  etransitivity; [apply keys_kept_put | apply IH].
Qed.

End RegistryFacts.

#[global] Instance only_status_changed_refl : Reflexive only_status_changed.
Proof.
  intros s. repeat split. intros c d Hd. exists d.
  repeat split; [exact Hd | now destruct d | reflexivity].
Qed.

#[global] Instance only_status_changed_trans : Transitive only_status_changed.
Proof.
  intros s1 s2 s3 (Hu1 & Hl1 & Hk1 & Hd1) (Hu2 & Hl2 & Hk2 & Hd2).
  repeat split; try congruence.
  intros c d Hd. destruct (Hd1 c d Hd) as (d' & Hd' & Heq1 & Hc1).
  destruct (Hd2 c d' Hd') as (d'' & Hd'' & Heq2 & Hc2).
  exists d''. repeat split; [exact Hd'' | | now transitivity (status d')].
  rewrite <- Heq1 at 2. now rewrite <- Heq2.
Qed.

#[global] Instance only_specifications_changed_refl :
  Reflexive only_specifications_changed.
Proof.
  intros s. repeat split. intros c d Hd. exists d.
  repeat split; [exact Hd | now destruct d | reflexivity | reflexivity].
Qed.

#[global] Instance only_specifications_changed_trans :
  Transitive only_specifications_changed.
Proof.
  intros s1 s2 s3 (Hu1 & Hl1 & Hk1 & Hd1) (Hu2 & Hl2 & Hk2 & Hd2).
  repeat split; try congruence.
  intros c d Hd. destruct (Hd1 c d Hd) as (d' & Hd' & Heq1 & Hf1 & Hr1).
  destruct (Hd2 c d' Hd') as (d'' & Hd'' & Heq2 & Hf2 & Hr2).
  exists d''. repeat split;
    [exact Hd'' | | now transitivity (functions d')
     | now transitivity (status_range d')].
  rewrite <- Heq1 at 3. now rewrite <- Heq2.
Qed.

Section FrameFacts.
Context `{PyRuntime}.

(** A change of the device stored under [k], seen from any key. *)
Lemma alter_device (R : CustomerDevice -> CustomerDevice -> Prop)
    (f : CustomerDevice -> CustomerDevice) k device dm c d :
  pd_get dm k = Some device ->
  R device (f device) -> (forall x, R x x) ->
  pd_get dm c = Some d ->
  exists d', pd_get (pd_alter f k dm) c = Some d' /\ R d d'.
Proof.
  intros Hk Hf Hrefl Hc. rewrite pd_get_alter.
  destruct (key_eqb k c) eqn:Hkc.
  - rewrite (pd_get_congr dm k c Hkc) in Hk. rewrite Hc in Hk. inversion Hk; subst.
    rewrite Hc. simpl. eauto.
  - eauto.
Qed.

Lemma fill_status_frame k items :
  preserves only_status_changed
    (Sync.fill k items Sync.merge_status status set_status).
Proof.
  intros E s tr. unfold Sync.fill. rewrite run_bind, run_get.
  destruct (pd_get (Sync.device_map s) k) as [device|] eqn:Hk; [|reflexivity].
  pose proof (merge_status_keys items (status device)) as Hkeys.
  destruct (Sync.merge_status items (status device)) as [m r].
  unfold Sync.modify_device. rewrite run_bind, run_modify, run_lift.
  unfold state_of. simpl. repeat split; simpl.
  - apply pd_keys_alter.
  - intros c d Hc.
    apply (alter_device
             (fun d d' => set_status (status d) d' = d
                          /\ keys_kept (status d) (status d'))
             _ k device); auto.
    + split; [now destruct device | exact Hkeys].
    + intros x. split; [now destruct x | reflexivity].
Qed.

Lemma fill_functions_frame k items :
  preserves only_specifications_changed
    (Sync.fill k items Sync.merge_specs functions set_functions).
Proof.
  intros E s tr. unfold Sync.fill. rewrite run_bind, run_get.
  destruct (pd_get (Sync.device_map s) k) as [device|] eqn:Hk; [|reflexivity].
  pose proof (merge_specs_keys items (functions device)) as Hkeys.
  destruct (Sync.merge_specs items (functions device)) as [m r].
  unfold Sync.modify_device. rewrite run_bind, run_modify, run_lift.
  unfold state_of. simpl. repeat split; simpl.
  - apply pd_keys_alter.
  - intros c d Hc.
    apply (alter_device
             (fun d d' => set_functions (functions d)
                            (set_status_range (status_range d) d') = d
                          /\ keys_kept (functions d) (functions d')
                          /\ keys_kept (status_range d) (status_range d'))
             _ k device); auto.
    + split; [now destruct device | split; [exact Hkeys | reflexivity]].
    + intros x. split; [now destruct x | split; reflexivity].
Qed.

Lemma fill_status_range_frame k items :
  preserves only_specifications_changed
    (Sync.fill k items Sync.merge_specs status_range set_status_range).
Proof.
  intros E s tr. unfold Sync.fill. rewrite run_bind, run_get.
  destruct (pd_get (Sync.device_map s) k) as [device|] eqn:Hk; [|reflexivity].
  pose proof (merge_specs_keys items (status_range device)) as Hkeys.
  destruct (Sync.merge_specs items (status_range device)) as [m r].
  unfold Sync.modify_device. rewrite run_bind, run_modify, run_lift.
  unfold state_of. simpl. repeat split; simpl.
  - apply pd_keys_alter.
  - intros c d Hc.
    apply (alter_device
             (fun d d' => set_functions (functions d)
                            (set_status_range (status_range d) d') = d
                          /\ keys_kept (functions d) (functions d')
                          /\ keys_kept (status_range d) (status_range d'))
             _ k device); auto.
    + split; [now destruct device | split; [reflexivity | exact Hkeys]].
    + intros x. split; [now destruct x | split; reflexivity].
Qed.

Lemma on_api_status_frame {A} (m : prog Integration.CustomerApi A) :
  preserves only_status_changed (Sync.on_api m).
Proof.
  intros E s tr. rewrite run_on_api.
  destruct (run E (m (Sync.api s)) tr) as [[x a'] tr'].
  repeat split. intros c d Hd. exists d.
  repeat split; [exact Hd | now destruct d | reflexivity].
Qed.

Lemma on_api_specifications_frame {A} (m : prog Integration.CustomerApi A) :
  preserves only_specifications_changed (Sync.on_api m).
Proof.
  intros E s tr. rewrite run_on_api.
  destruct (run E (m (Sync.api s)) tr) as [[x a'] tr'].
  repeat split. intros c d Hd. exists d.
  repeat split; [exact Hd | now destruct d | reflexivity | reflexivity].
Qed.

Lemma notify_frame (R : relation Sync.Manager) `{!Reflexive R} n i k :
  preserves R (Sync.notify_listeners n i k).
Proof. intros E s tr. now rewrite notify_keeps_state. Qed.

(** Programs built from the steps above. *)
Ltac framed :=
  repeat first
    [ apply preserves_ret; apply _
    | apply preserves_raise; apply _
    | apply preserves_lift; apply _
    | apply preserves_get; apply _
    | apply preserves_ask; apply _
    | apply on_api_status_frame
    | apply on_api_specifications_frame
    | apply fill_status_frame
    | apply fill_functions_frame
    | apply fill_status_range_frame
    | apply notify_frame; apply _
    | apply preserves_bind; [apply _ | | intros ?]
    | apply preserves_catch; [apply _ | | intros ?]
    | apply preserves_for_each; [apply _ | apply _ | intros ?]
    | match goal with
      | |- preserves _ (match ?x with _ => _ end) => destruct x
      end ].

Lemma poll_device_frame k : preserves only_status_changed (Sync.poll_device k).
Proof. unfold Sync.poll_device. framed. Qed.

Lemma fetch_frame k :
  preserves only_specifications_changed (Sync._fetch_device_specifications k).
Proof. unfold Sync._fetch_device_specifications. framed. Qed.

Lemma update_device_status_frame :
  preserves only_status_changed Sync.update_device_status.
Proof.
  unfold Sync.update_device_status.
  apply preserves_bind; [apply _ | apply preserves_get; apply _ | intros self].
  apply preserves_for_each; [apply _ | apply _ | apply poll_device_frame].
Qed.

End FrameFacts.

(** X1: [update_device_status] never raises and changes nothing of the
    manager but the status mappings of its devices: the devices and their
    order, every other field of each device, the listeners and the user id
    are as before, and no status code is removed. *)
Theorem status_poll_changes_status_only `{PyRuntime} E (s : Sync.Manager) tr :
  let out := run E (Sync.update_device_status s) tr in
  result_of out = Ok tt /\ only_status_changed s (state_of out).
Proof.
  split.
  - now rewrite run_update_device_status.
  - apply update_device_status_frame.
Qed.

(** X2: [_fetch_device_specifications] never raises and changes nothing
    of the manager but the [functions] and [status_range] of its devices,
    from which no code is removed. *)
Theorem specification_fetch_changes_specifications_only `{PyRuntime} E k
    (s : Sync.Manager) tr :
  let out := run E (Sync._fetch_device_specifications k s) tr in
  result_of out = Ok tt /\ only_specifications_changed s (state_of out).
Proof.
  split.
  - unfold Sync._fetch_device_specifications. apply run_catch_log.
  - apply fetch_frame.
Qed.

(** * The cache rebuild, device by device *)

Lemma hashable_key_eqb_refl k : hashable k = true -> key_eqb k k = true.
Proof.
  destruct k; simpl; try discriminate; intros _; auto.
  - apply Qeq_bool_iff. reflexivity.
  - apply Qeq_bool_iff. reflexivity.
  - apply Qeq_bool_iff. reflexivity.
  - apply String.eqb_refl.
Qed.

Section CacheFacts.
Context `{PyRuntime}.

Lemma cache_device_keys dm dev_data dm' :
  Sync.cache_device dm dev_data = Ok dm' -> keys_kept dm dm'.
Proof.
  unfold Sync.cache_device. destruct dev_data; simpl; try discriminate.
  destruct (truthy (dict_get_default o "id" (JStr ""))); simpl.
  - destruct (py_iter _) as [items|]; simpl; [|discriminate].
    destruct (Sync.merge_status items []) as [st [[]|e]]; [|discriminate].
    unfold pd_set. destruct (hashable _); [|discriminate].
    intros Heq. inversion Heq. apply keys_kept_put.
  - intros Heq. inversion Heq. reflexivity.
Qed.

Lemma cache_devices_keys devices dm :
  keys_kept dm (fst (Sync.cache_devices devices dm)).
Proof.
  revert dm. induction devices as [|dev_data devices IH]; intros dm; [reflexivity|].
  simpl. destruct (Sync.cache_device dm dev_data) as [dm'|e] eqn:Hdev; [|reflexivity].
  etransitivity; [eapply cache_device_keys; eauto | apply IH].
Qed.

End CacheFacts.

#[global] Instance devices_kept_refl : Reflexive devices_kept.
Proof. intros s. unfold devices_kept. reflexivity. Qed.

#[global] Instance devices_kept_trans : Transitive devices_kept.
Proof. intros s1 s2 s3. unfold devices_kept. apply keys_kept_trans. Qed.

Lemma same_devices_kept s s' : Spec.same_devices s s' -> devices_kept s s'.
Proof. intros Hs. exists []. rewrite app_nil_r. exact Hs. Qed.

(** X3: [update_device_cache] never removes a device: whatever the server
    answers, the devices registered before are still registered under their
    keys and in their order, and new ones come after them. *)
Theorem cache_rebuild_keeps_registered_devices `{PyRuntime} E (s : Sync.Manager) tr :
  devices_kept s (state_of (run E (Sync.update_device_cache s) tr)).
Proof.
  assert (Hsame : forall (r : res unit) a tr',
             devices_kept s (state_of (r, Sync.set_api a s, tr'))).
  { intros r a tr'. unfold devices_kept, state_of. simpl. reflexivity. }
  unfold Sync.update_device_cache. rewrite run_bind, run_get, run_bind, run_on_api.
  destruct (run E (Integration.get_user_devices (Sync.uid s) (Sync.api s)) tr)
    as [[[response | e] a1] tr1]; [|apply Hsame].
  exec. destruct response; cbn [py_get]; exec; try apply Hsame.
  destruct (truthy (dict_get_default o "success" JNull)); cbn [negb]; exec;
    [|apply Hsame].
  destruct (py_len _); exec; [|apply Hsame].
  destruct (py_iter _) as [devices|]; exec; [|apply Hsame].
  change (Sync.device_map (Sync.set_api a1 s)) with (Sync.device_map s).
  pose proof (cache_devices_keys devices (Sync.device_map s)) as Hkeys.
  destruct (Sync.cache_devices devices (Sync.device_map s)) as [dm r].
  simpl in Hkeys. exec. destruct r as [[]|e]; cbv beta iota; [|exact Hkeys].
  exec.
  match goal with
  | |- devices_kept s (state_of (run E (for_each ?l ?body ?s0) ?tr0)) =>
      transitivity s0; [exact Hkeys|];
      apply same_devices_kept;
      apply (preserves_for_each Spec.same_devices l body)
  end.
  intros k. apply (preserves_weaken k), preserves_fetch.
Qed.

(** X4: a device-list entry with an id replaces what was registered under
    that id by a fresh device: built from the entry, without functions and
    status range, with exactly the status codes of the entry, each with the
    value of its last occurrence; the other devices are untouched. *)
Theorem listed_device_replaces_registered_one
    (dm dm' : pydict CustomerDevice) (entry : dict) (items : list json) :
  truthy (dict_get_default entry "id" (JStr "")) = true ->
  py_iter (dict_get_default entry "status" (JList [])) = Ok items ->
  Sync.cache_device dm (JObj entry) = Ok dm' ->
  exists device,
    pd_get dm' (dict_get_default entry "id" (JStr "")) = Some device
    /\ from_api_response (JObj entry) = Ok (set_status [] device)
    /\ functions device = [] /\ status_range device = [] /\ set_up device = false
    /\ (forall c, pd_get (status device) c = Spec.last_value items c)
    /\ (forall c, key_eqb (dict_get_default entry "id" (JStr "")) c = false ->
          pd_get dm' c = pd_get dm c).
Proof.
  intros Hid Hitems. unfold Sync.cache_device. simpl. rewrite Hid, Hitems. simpl.
  pose proof (merge_status_values items [] ) as Hvalues.
  destruct (Sync.merge_status items []) as [st [[]|e]]; [|discriminate].
  unfold pd_set. destruct (hashable _) eqn:Hhash; [|discriminate].
  intros Heq. inversion Heq; subst dm'. eexists. split.
  - rewrite pd_get_put, (hashable_key_eqb_refl _ Hhash). reflexivity.
  - repeat split.
    + intros c. simpl in *. rewrite (Hvalues c eq_refl).
      now destruct (Spec.last_value items c).
    + intros c Hc. now rewrite pd_get_put, Hc.
Qed.

(** * Polling twice, and who is told *)

Section PollFacts.
Context `{PyRuntime}.

Lemma last_value_present items m c v :
  snd (Sync.merge_status items m) = Ok tt ->
  Spec.last_value items c = Some v ->
  is_Some (pd_get (fst (Sync.merge_status items m)) c).
Proof.
  intros Hok Hv. rewrite (merge_status_values items m c Hok), Hv. eauto.
Qed.

(** Merging into a mapping that has every code of the list adds no key. *)
Lemma merge_status_keys_present items m :
  (forall c v, Spec.last_value items c = Some v -> is_Some (pd_get m c)) ->
  pd_keys (fst (Sync.merge_status items m)) = pd_keys m.
Proof.
  revert m. induction items as [|item items IH]; intros m Hin; [reflexivity|].
  destruct item; try reflexivity. simpl in *.
  destruct (truthy (dict_get_default o "code" (JStr ""))) eqn:Hcode; simpl in *.
  - unfold pd_set. destruct (hashable _) eqn:Hhash; [|reflexivity].
    assert (Hself : is_Some (pd_get m (dict_get_default o "code" (JStr "")))).
    { specialize (Hin (dict_get_default o "code" (JStr ""))).
      rewrite (hashable_key_eqb_refl _ Hhash) in Hin.
      destruct (Spec.last_value items _); eauto. }
    rewrite IH.
    + rewrite pd_keys_put. destruct Hself as [v ->]. apply app_nil_r.
    + intros c v Hv. rewrite pd_get_put.
      destruct (key_eqb _ c); [eauto|].
      apply (Hin c v). now rewrite Hv.
  - apply IH. intros c v Hv. apply (Hin c v). now rewrite Hv.
Qed.

(** Who is told: the listeners from [i] on, until one raises. *)
Lemma run_notify_told E n i k (s : Sync.Manager) tr d :
  pd_get (Sync.device_map s) k = Some d ->
  exists j r, (j <= n)%nat
    /\ run E (Sync.notify_listeners n i k s) tr
       = (r, s, tr ++ map (fun l => ODevice l d) (seq i j))
    /\ (forall l, (S l < j)%nat ->
          on_device E (tr ++ map (fun l => ODevice l d) (seq i l)) (i + l) d = Ok tt)
    /\ ((j < n)%nat ->
          exists l e, j = S l
            /\ on_device E (tr ++ map (fun l => ODevice l d) (seq i l)) (i + l) d
               = Exn e).
Proof.
  intros Hk. revert i tr. induction n as [|n IH]; intros i tr.
  - exists 0%nat, (Ok tt). split; [lia|]. split; [simpl; now rewrite app_nil_r|].
    split; intros; lia.
  - simpl. rewrite run_bind, run_get, Hk, run_bind, run_ask, run_bind, run_lift.
    simpl observe. simpl answer.
    destruct (on_device E tr i d) as [[]|e] eqn:Hi.
    + destruct (IH (S i) (tr ++ [ODevice i d])) as (j & r & Hj & Hrun & Hok & Hshort).
      exists (S j), r. split; [lia|]. split; [|split].
      * rewrite Hrun. simpl. now rewrite <- app_assoc.
      * intros [|l] Hl.
        -- simpl. now rewrite app_nil_r, Nat.add_0_r.
        -- specialize (Hok l ltac:(lia)). simpl.
           rewrite <- app_assoc in Hok. simpl in Hok.
           now rewrite Nat.add_succ_r.
      * intros Hlt. destruct (Hshort ltac:(lia)) as (l & e & -> & He).
        exists (S l), e. split; [reflexivity|]. simpl.
        rewrite <- app_assoc in He. simpl in He. now rewrite Nat.add_succ_r.
    + exists 1%nat, (Exn e). split; [lia|]. split; [reflexivity|]. split.
      * intros l Hl. lia.
      * intros _. exists 0%nat, e. split; [reflexivity|]. simpl.
        now rewrite app_nil_r, Nat.add_0_r.
Qed.

End PollFacts.

(** X6: the status merge is idempotent: merging a well-formed status list
    a second time changes neither the codes nor their values. *)
Theorem status_merge_is_idempotent (items : list json) (m : pydict json) :
  forallb Spec.status_entry items = true ->
  let once := fst (Sync.merge_status items m) in
  let twice := fst (Sync.merge_status items once) in
  pd_keys twice = pd_keys once /\ forall c, pd_get twice c = pd_get once c.
Proof.
  intros Hwf once twice. subst once twice.
  pose proof (merge_status_ok items m Hwf) as Hok1.
  pose proof (merge_status_ok items (fst (Sync.merge_status items m)) Hwf) as Hok2.
  split.
  - apply merge_status_keys_present. intros c v Hv.
    now apply (last_value_present items m c v).
  - intros c. rewrite (merge_status_values _ _ c Hok2), (merge_status_values _ _ c Hok1).
    now destruct (Spec.last_value items c).
Qed.

(** X7: a poll of one device adds to the exchanges of its status call only
    listener notifications: the first [j] listeners, in registration order,
    each told once and with the device as the merge left it; no listener is
    told, and nothing but the client is changed, when the call raised or
    returned a response without a true success flag.  After a call that
    reported success the device carries what the merge loop left; no
    listener is told when that loop raised; otherwise every listener told
    before the last one returned, and fewer than all the listeners are told
    only when the last one told raised. *)
Theorem listeners_are_told_after_the_merge `{PyRuntime} E k (s : Sync.Manager) tr :
  let call := run E (Sync.on_api (Integration.get_device_status k) s) tr in
  let out := run E (Sync.poll_device k s) tr in
  exists j, (j <= Sync.device_listeners s)%nat
    /\ trace_of out
       = trace_of call
         ++ match pd_get (Sync.device_map (state_of out)) k with
            | Some d => notified d j
            | None => []
            end
    /\ (match result_of call with
        | Ok response => Spec.success_flag response = false
        | Exn _ => True
        end -> j = 0%nat /\ state_of out = state_of call)
    /\ forall response items device,
         result_of call = Ok (JObj response) ->
         truthy (dict_get_default response "success" JNull) = true ->
         py_iter (dict_get_default response "result" (JList [])) = Ok items ->
         pd_get (Sync.device_map s) k = Some device ->
         let merged := Sync.merge_status items (status device) in
         let told := set_status (fst merged) device in
         pd_get (Sync.device_map (state_of out)) k = Some told
         /\ match snd merged with
            | Exn _ => j = 0%nat
            | Ok _ =>
                (forall i, (S i < j)%nat ->
                   on_device E (trace_of call ++ notified told i) i told = Ok tt)
                /\ ((j < Sync.device_listeners s)%nat ->
                      exists i e, j = S i
                        /\ on_device E (trace_of call ++ notified told i) i told
                           = Exn e)
            end.
Proof.
  intros call out. subst call out. unfold Sync.poll_device.
  rewrite run_catch, run_bind.
  destruct (run E (Sync.on_api (Integration.get_device_status k) s) tr)
    as [[[response | e] s1] tr1] eqn:Hcall.
  2:{ exists 0%nat. unfold trace_of, state_of, result_of, notified. simpl.
      split; [lia|]. split; [destruct (pd_get _ k); now rewrite app_nil_r|].
      split; [auto | discriminate]. }
  assert (Hs1 : Sync.device_listeners s1 = Sync.device_listeners s
                /\ Sync.device_map s1 = Sync.device_map s).
  { rewrite run_on_api in Hcall.
    destruct (run E _ tr) as [[x a'] tr'] in Hcall. now inversion Hcall. }
  destruct Hs1 as [Hl Hdm].
  unfold Spec.success_flag, result_of, trace_of, state_of. cbn [fst snd].
  exec. destruct response as [| | | | | |d]; cbn [py_get]; exec;
    try (exists 0%nat; cbn [fst snd]; split; [lia|];
         split; [destruct (pd_get _ k); unfold notified; simpl; now rewrite app_nil_r|];
         split; [auto | discriminate]).
  destruct (truthy (dict_get_default d "success" JNull)) eqn:Hs; exec.
  2:{ exists 0%nat. cbn [fst snd]. split; [lia|].
      split; [destruct (pd_get _ k); unfold notified; simpl; now rewrite app_nil_r|].
      split; [auto|]. intros response items device Heq. inversion Heq; subst.
      congruence. }
  destruct (py_iter _) as [items|e] eqn:Hitems; exec.
  2:{ exists 0%nat. cbn [fst snd]. split; [lia|].
      split; [destruct (pd_get _ k); unfold notified; simpl; now rewrite app_nil_r|].
      split; [discriminate|]. intros response items device Heq. inversion Heq; subst.
      congruence. }
  unfold Sync.fill. exec.
  destruct (pd_get (Sync.device_map s1) k) as [device|] eqn:Hk.
  - destruct (Sync.merge_status items (status device)) as [m r] eqn:Hmerge.
    unfold Sync.modify_device. exec.
    set (d' := set_status m device).
    set (s2 := Sync.set_device_map _ s1).
    assert (Hk2 : pd_get (Sync.device_map s2) k = Some d').
    { subst s2. simpl. rewrite pd_get_alter, (key_eqb_refl_of_get _ _ _ Hk), Hk.
      reflexivity. }
    destruct r as [[]|e]; cbv beta iota.
    + exec.
      destruct (run_notify_told E (Sync.device_listeners s2) 0 k s2 tr1 d' Hk2)
        as (j & r & Hj & Hrun & Hok & Hshort).
      rewrite Hrun. exists j. split; [subst s2; simpl in *; lia|].
      assert (Hstate : pd_get
                (Sync.device_map
                   (match r with
                    | Ok a => (Ok a, s2, tr1 ++ map (fun l => ODevice l d') (seq 0 j))
                    | Exn _ => run E (ret tt s2)
                                   (tr1 ++ map (fun l => ODevice l d') (seq 0 j))
                    end).1.2) k = Some d').
      { destruct r as [[]|e]; rewrite ?run_ret; cbn [fst snd]; exact Hk2. }
      split; [|split; [discriminate|]].
      * rewrite Hstate. unfold notified.
        destruct r as [[]|e]; rewrite ?run_ret; reflexivity.
      * intros response items0 device0 Heq Hs0 Hitems0 Hk0.
        inversion Heq; subst response. rewrite Hitems in Hitems0.
        inversion Hitems0; subst items0. rewrite <- Hdm, Hk in Hk0.
        inversion Hk0; subst device0. rewrite Hmerge. cbn [fst snd].
        fold d'. split; [exact Hstate|]. split.
        -- intros i Hi. exact (Hok i Hi).
        -- intros Hlt. apply Hshort. subst s2. simpl in *. lia.
    + exists 0%nat. split; [lia|]. rewrite ?run_ret. cbn [fst snd].
      split; [|split; [discriminate|]].
      * rewrite Hk2. unfold notified. simpl. now rewrite app_nil_r.
      * intros response items0 device0 Heq Hs0 Hitems0 Hk0.
        inversion Heq; subst response. rewrite Hitems in Hitems0.
        inversion Hitems0; subst items0. rewrite <- Hdm, Hk in Hk0.
        inversion Hk0; subst device0. rewrite Hmerge. cbn [fst snd].
        fold d'. split; [exact Hk2 | reflexivity].
  - exec.
    assert (Hn : Sync.notify_listeners (Sync.device_listeners s1) 0 k s1
                 = Done (Ok tt) s1).
    { destruct (Sync.device_listeners s1); [reflexivity|].
      simpl. unfold bind, get. simpl. now rewrite Hk. }
    rewrite Hn. simpl. exists 0%nat. split; [lia|].
    split; [rewrite Hk; now rewrite app_nil_r|]. split; [discriminate|].
    intros response items0 device0 _ _ _ Hk0. rewrite <- Hdm, Hk in Hk0. discriminate.
Qed.

(** * The integration client's token *)

#[global] Instance only_token_changed_refl : Reflexive only_token_changed.
Proof. intros a. now repeat split. Qed.

#[global] Instance only_token_changed_trans : Transitive only_token_changed.
Proof.
  intros a1 a2 a3 (? & ? & ? & ? & ? & ?) (? & ? & ? & ? & ? & ?).
  repeat split; congruence.
Qed.

Section TokenFacts.
Context `{PyRuntime}.

Local Opaque hmac_sha256_upper sha256_hexdigest pretty urlencode.

Lemma run_get_access_token E a tr :
  run E (Integration.get_access_token a) tr =
  let rq := Integration.token_request_at a (clock E tr) in
  let tr1 := tr ++ [OClock; OHttp rq] in
  match Spec.decoded (net E (tr ++ [OClock]) rq) with
  | Ok response =>
      match py_get response "success" JNull with
      | Ok success =>
          if truthy success
          then match run E (Integration.store_token response a) tr1 with
               | (Ok _, a', tr') => (Ok response, a', tr')
               | (Exn e, a', tr') => (Exn e, a', tr')
               end
          else (msg <- py_get response "msg" (JStr "Unknown error") ;;
                code <- py_get response "code" (JStr "N/A") ;;
                Exn (TrueXAPIError "Failed to get access token" msg code),
                a, tr1)%res
      | Exn e => (Exn e, a, tr1)
      end
  | Exn e => (Exn e, a, tr1)
  end.
Proof.
  unfold Integration.get_access_token. exec. simpl answer. simpl observe.
  cbn [Integration._calc_sign truthy String.eqb negb res_bind]. exec.
  rewrite run_session_json.
  fold (Integration.token_request_at a (clock E tr)).
  rewrite <- app_assoc. simpl app.
  destruct (Spec.decoded _) as [response|e]; [|reflexivity].
  exec. destruct (py_get response "success" JNull) as [success|e]; [|reflexivity].
  cbv beta iota. destruct (truthy success).
  - exec. destruct (run E (Integration.store_token response a) _) as [[[[]|e] a'] tr'];
      reflexivity.
  - exec. destruct (py_get response "msg" _); [|reflexivity].
    cbv beta iota. exec. destruct (py_get response "code" _); reflexivity.
Qed.

Lemma store_token_frame response :
  preserves only_token_changed (Integration.store_token response).
Proof.
  unfold Integration.store_token.
  repeat first
    [ apply preserves_ret; apply _
    | apply preserves_lift; apply _
    | apply preserves_get; apply _
    | apply preserves_ask; apply _
    | apply preserves_modify; intros ?; now repeat split
    | apply preserves_bind; [apply _ | | intros ?]
    | match goal with
      | |- preserves _ (match ?x with _ => _ end) => destruct x
      | |- preserves _ (if ?x then _ else _) => destruct x
      end ].
Qed.

Lemma get_access_token_frame :
  preserves only_token_changed Integration.get_access_token.
Proof.
  intros E a tr. rewrite run_get_access_token. cbv zeta.
  destruct (Spec.decoded _) as [response|e]; [|reflexivity].
  destruct (py_get response "success" JNull) as [success|e]; [|reflexivity].
  destruct (truthy success); [|reflexivity].
  pose proof (store_token_frame response E a
                (tr ++ [OClock; OHttp (Integration.token_request_at a (clock E tr))]))
    as Hst.
  destruct (run E (Integration.store_token response a) _) as [[[[]|e] a'] tr'];
    exact Hst.
Qed.

End TokenFacts.

Section ClientFacts.
Context `{PyRuntime}.

Local Opaque hmac_sha256_upper sha256_hexdigest pretty urlencode.

Ltac token_frame :=
  repeat first
    [ apply preserves_ret; apply _
    | apply preserves_raise; apply _
    | apply preserves_lift; apply _
    | apply preserves_get; apply _
    | apply preserves_ask; apply _
    | apply store_token_frame
    | apply get_access_token_frame
    | apply preserves_bind; [apply _ | | intros ?]
    | apply preserves_catch; [apply _ | | intros ?]
    | match goal with
      | |- preserves _ (match ?x with _ => _ end) => destruct x
      | |- preserves _ (if ?x then _ else _) => destruct x
      end ].

Lemma refresh_frame :
  preserves only_token_changed Integration._refresh_access_token.
Proof.
  intros E a tr. unfold Integration._refresh_access_token.
  rewrite run_bind, run_get.
  destruct (Integration._refreshing_token a) eqn:Hflag; [reflexivity|].
  rewrite run_bind, run_modify, run_finally.
  match goal with
  | |- context [run E (catch ?m ?h ?s) tr] =>
      assert (Hin : preserves only_token_changed (catch m h))
        by (unfold session_json; token_frame);
      specialize (Hin E s tr);
      destruct (run E (catch m h s) tr) as [[r a2] tr2]
  end.
  unfold state_of in *. simpl in *.
  destruct Hin as (? & ? & ? & ? & ? & ?). now repeat split.
Qed.

Lemma ensure_token_frame :
  preserves only_token_changed Integration._ensure_token.
Proof.
  unfold Integration._ensure_token, Integration.is_expired.
  repeat first
    [ apply refresh_frame
    | apply get_access_token_frame
    | apply preserves_ret; apply _
    | apply preserves_lift; apply _
    | apply preserves_get; apply _
    | apply preserves_ask; apply _
    | apply preserves_bind; [apply _ | | intros ?]
    | match goal with
      | |- preserves _ (if ?x then _ else _) => destruct x
      end ].
Qed.

Lemma run_ensure_token_usable E a tr tok x :
  Integration.access_token (Integration.token_info a) = JStr tok ->
  tok <> "" ->
  Integration.expire_at (Integration.token_info a) = JInt x ->
  millis (clock E tr) < x - 60000 ->
  run E (Integration._ensure_token a) tr = (Ok tt, a, tr ++ [OClock]).
Proof.
  intros Htok Hne Hexp Hnow.
  unfold Integration._ensure_token, Integration.is_expired.
  rewrite run_bind, run_get, Htok, Hexp. simpl truthy.
  destruct (String.eqb_spec tok "") as [->|_]; [easy|]. cbn [negb]. exec.
  simpl answer. simpl observe. unfold py_sub. simpl.
  destruct (Z.leb_spec (x - 60000) (millis (clock E tr))); [lia|]. now exec.
Qed.

End ClientFacts.

(** X9: whatever the server answers and whether it raises or not,
    [request] changes nothing of the integration client but the stored
    token: the configuration and the listener are kept and the refresh guard
    is back to what it was. *)
Theorem request_changes_the_token_only `{PyRuntime} E method path params body
    (a : Integration.CustomerApi) tr :
  only_token_changed a
    (state_of (run E (Integration.request method path params body a) tr)).
Proof.
  revert E a tr. change (preserves only_token_changed
                           (Integration.request method path params body)).
  unfold Integration.request.
  repeat first
    [ apply ensure_token_frame
    | apply preserves_lift; apply _
    | apply preserves_get; apply _
    | apply preserves_ask; apply _
    | apply preserves_bind; [apply _ | | intros ?] ].
Qed.

(** X10: with a non-empty string token whose [expire_at] is more than
    60000 ms past the clock reading in milliseconds, [int(time.time() * 1000)]
    as the double product rounds, [request] acquires nothing: it makes
    exactly one exchange, signed with that token and carrying it in its
    [access_token] header, and leaves the client as it was. *)
Theorem usable_token_costs_one_exchange `{PyRuntime} E (a : Integration.CustomerApi)
    tr tok x method path params body :
  Integration.access_token (Integration.token_info a) = JStr tok ->
  tok <> "" ->
  Integration.expire_at (Integration.token_info a) = JInt x ->
  millis (clock E tr) < x - 60000 ->
  exists rq,
    Integration.signed_request a (clock E (tr ++ [OClock])) method path params body
      = Ok rq
    /\ dict_get (rq_headers rq) "access_token" = Some (JStr tok)
    /\ run E (Integration.request method path params body a) tr
       = (Integration.read_response (net E (tr ++ [OClock; OClock]) rq), a,
          tr ++ [OClock; OClock; OHttp rq]).
Proof.
  intros Htok Hne Hexp Hnow.
  rewrite run_request, (run_ensure_token_usable E a tr tok x Htok Hne Hexp Hnow).
  unfold Integration.signed_request, Integration._calc_sign. rewrite Htok.
  simpl truthy. destruct (String.eqb_spec tok "") as [->|_]; [easy|]. cbn [negb].
  cbn [str_add res_bind]. eexists. split; [reflexivity|]. split; [reflexivity|].
  now rewrite <- !app_assoc.
Qed.

(** X15: a stored access token that is truthy but not a string makes
    [request] raise [TypeError] while signing, before any business
    exchange. *)
Theorem non_string_token_stops_the_request `{PyRuntime} E (a a1 : Integration.CustomerApi)
    tr tr1 method path params body :
  run E (Integration._ensure_token a) tr = (Ok tt, a1, tr1) ->
  truthy (Integration.access_token (Integration.token_info a1)) = true ->
  (forall s, Integration.access_token (Integration.token_info a1) <> JStr s) ->
  run E (Integration.request method path params body a) tr
  = (Exn TypeError, a1, tr1 ++ [OClock]).
Proof.
  intros Hens Htruthy Hstr. rewrite run_request, Hens.
  unfold Integration.signed_request, Integration._calc_sign. rewrite Htruthy.
  destruct (Integration.access_token (Integration.token_info a1)) eqn:Htok;
    try reflexivity.
  now destruct (Hstr s).
Qed.

Section AcquisitionFacts.
Context `{PyRuntime}.

Local Opaque hmac_sha256_upper sha256_hexdigest pretty urlencode.

Lemma integration_store_token_quiet response : quiet (Integration.store_token response).
Proof. unfold Integration.store_token. quiet. Qed.

Lemma get_access_token_calls E a tr :
  http_calls (trace_of (run E (Integration.get_access_token a) tr))
  = http_calls tr ++ [Integration.token_request_at a (clock E tr)].
Proof.
  rewrite run_get_access_token. cbv zeta.
  set (rq := Integration.token_request_at a (clock E tr)).
  assert (Htr : http_calls (tr ++ [OClock; OHttp rq]) = http_calls tr ++ [rq]).
  { now rewrite http_calls_app. }
  destruct (Spec.decoded _) as [response|e]; [|exact Htr].
  destruct (py_get response "success" JNull) as [success|e]; [|exact Htr].
  destruct (truthy success); [|exact Htr].
  pose proof (integration_store_token_quiet response E a (tr ++ [OClock; OHttp rq]))
    as Hq.
  destruct (run E (Integration.store_token response a) _) as [[[[]|e] a'] tr'];
    unfold trace_of in *; simpl in *; now rewrite Hq.
Qed.

Lemma run_ensure_token_absent E a tr :
  truthy (Integration.access_token (Integration.token_info a)) = false ->
  truthy (Integration.refresh_token (Integration.token_info a)) = false ->
  run E (Integration._ensure_token a) tr
  = match run E (Integration.get_access_token a) tr with
    | (Ok _, a1, tr1) => (Ok tt, a1, tr1)
    | (Exn e, a1, tr1) => (Exn e, a1, tr1)
    end.
Proof.
  intros Hacc Href. unfold Integration._ensure_token, Integration.is_expired.
  rewrite run_bind, run_get, Hacc, Href. cbn [negb]. exec.
  destruct (run E (Integration.get_access_token a) tr) as [[[r|e] a1] tr1];
    reflexivity.
Qed.

End AcquisitionFacts.

(** X11: a client without access token and refresh token starts every
    [request] with the token call; when that call raises, [request] raises
    the same error and sends no business call. *)
Theorem client_without_token_acquires_one_first `{PyRuntime} E
    (a : Integration.CustomerApi) tr method path params body :
  truthy (Integration.access_token (Integration.token_info a)) = false ->
  truthy (Integration.refresh_token (Integration.token_info a)) = false ->
  let acquired := run E (Integration.get_access_token a) tr in
  let out := run E (Integration.request method path params body a) tr in
  (exists rest,
      http_calls (trace_of out)
      = http_calls tr ++ Integration.token_request_at a (clock E tr) :: rest)
  /\ match result_of acquired with
     | Ok _ => True
     | Exn e =>
         out = (Exn e, state_of acquired, trace_of acquired)
         /\ http_calls (trace_of out)
            = http_calls tr ++ [Integration.token_request_at a (clock E tr)]
     end.
Proof.
  intros Hacc Href acquired out. subst acquired out.
  pose proof (get_access_token_calls E a tr) as Hcalls.
  rewrite run_request, (run_ensure_token_absent E a tr Hacc Href).
  destruct (run E (Integration.get_access_token a) tr) as [[[r|e] a1] tr1].
  - unfold trace_of, result_of in *. simpl in *. split; [|exact I].
    destruct (Integration.signed_request _ _ _ _ _ _) as [rq|e]; simpl.
    + exists [rq]. rewrite !http_calls_app, Hcalls. simpl.
      now rewrite app_nil_r, <- app_assoc.
    + exists []. rewrite http_calls_app, Hcalls. simpl. now rewrite app_nil_r.
  - unfold trace_of, result_of, state_of in *. simpl in *.
    split; [exists []; exact Hcalls | split; [reflexivity | exact Hcalls]].
Qed.

(** X12: a token response without a true success flag makes
    [get_access_token] raise [TrueXAPIError] with the response's [msg] and
    [code] (or their defaults) after a single exchange, the client
    untouched. *)
Theorem refused_token_raises_and_keeps_the_token `{PyRuntime} E
    (a : Integration.CustomerApi) tr (d : dict) :
  let rq := Integration.token_request_at a (clock E tr) in
  Spec.decoded (net E (tr ++ [OClock]) rq) = Ok (JObj d) ->
  truthy (dict_get_default d "success" JNull) = false ->
  run E (Integration.get_access_token a) tr
  = (Exn (TrueXAPIError "Failed to get access token"
            (dict_get_default d "msg" (JStr "Unknown error"))
            (dict_get_default d "code" (JStr "N/A"))),
     a, tr ++ [OClock; OHttp rq]).
Proof.
  intros rq Hdec Hs. rewrite run_get_access_token. cbv zeta. fold rq.
  rewrite Hdec. cbn [py_get]. now rewrite Hs.
Qed.

(** X13: a granted token response replaces the stored token as a whole,
    with [expire_at = t + expire_time * 1000]; a registered listener is
    told once, with a snapshot that [from_dict] restores to the stored
    token, and an error it raises is the caller's. *)
Theorem granted_token_is_stored_and_announced `{PyRuntime} E
    (a : Integration.CustomerApi) tr (d r : dict) (t e : Z) :
  let rq := Integration.token_request_at a (clock E tr) in
  let tr1 := tr ++ [OClock; OHttp rq] in
  Spec.decoded (net E (tr ++ [OClock]) rq) = Ok (JObj d) ->
  truthy (dict_get_default d "success" JNull) = true ->
  dict_get_default d "result" (JObj []) = JObj r ->
  dict_get_default d "t" (JInt 0) = JInt t ->
  dict_get_default r "expire_time" (JInt 0) = JInt e ->
  let token :=
    {| Integration.access_token := dict_get_default r "access_token" (JStr "");
       Integration.refresh_token := dict_get_default r "refresh_token" (JStr "");
       Integration.uid := dict_get_default r "uid" (JStr "");
       Integration.expire_time := JInt e;
       Integration.expire_at := JInt (t + e * 1000) |} in
  let out := run E (Integration.get_access_token a) tr in
  state_of out = Integration.set_token_info token a
  /\ (if Integration.token_listener a
      then exists snapshot,
             trace_of out = tr1 ++ [OToken snapshot]
             /\ Integration.from_dict snapshot = token
             /\ result_of out = match on_token E tr1 snapshot with
                                | Ok _ => Ok (JObj d)
                                | Exn x => Exn x
                                end
      else trace_of out = tr1 /\ result_of out = Ok (JObj d)).
Proof.
  intros rq tr1 Hdec Hs Hr Ht He token out. subst out.
  rewrite run_get_access_token. cbv zeta. fold rq. fold tr1.
  rewrite Hdec. cbn [py_get]. rewrite Hs.
  unfold Integration.store_token. exec. rewrite Hr. exec. rewrite Ht. cbn [py_get]. rewrite He. cbv beta iota. exec.
  cbn [Integration.new_token_info dict_get_default dict_get String.eqb Ascii.eqb
       Bool.eqb py_mul_int py_add num_json res_bind].
  exec. fold token.
  cbn [Integration.token_listener Integration.set_token_info].
  destruct (Integration.token_listener a).
  - exec. simpl answer. simpl observe.
    cbn [Integration.token_info Integration.set_token_info].
    split.
    + now destruct (on_token E tr1 (Integration.to_dict token)) as [[]|x].
    + exists (Integration.to_dict token). split; [|split].
      * now destruct (on_token E tr1 (Integration.to_dict token)) as [[]|x].
      * reflexivity.
      * now destruct (on_token E tr1 (Integration.to_dict token)) as [[]|x].
  - exec. now repeat split.
Qed.

(** * The refresh and its fallback *)

(** X14: a refresh that is not granted falls back to [get_access_token]:
    once when the refresh exchange itself fails, and a second time when the
    refresh was answered without a true success flag and the first fallback
    raised; the guard is cleared in every case. *)
Theorem failed_refresh_falls_back_to_a_new_token `{PyRuntime} E
    (a : Integration.CustomerApi) tr (refresh : string) :
  Integration._refreshing_token a = false ->
  Integration.refresh_token (Integration.token_info a) = JStr refresh ->
  let rq := Integration.refresh_request_at a (clock E tr) refresh in
  let tr1 := tr ++ [OClock; OHttp rq] in
  let once :=
    let '(r, a2, tr2) :=
      run E (Integration.get_access_token (Integration.set_refreshing true a)) tr1 in
    (res_bind r (fun _ => Ok tt), Integration.set_refreshing false a2, tr2) in
  let out := run E (Integration._refresh_access_token a) tr in
  match Spec.decoded (net E (tr ++ [OClock]) rq) with
  | Ok (JObj d) =>
      truthy (dict_get_default d "success" JNull) = false ->
      out = match run E (Integration.get_access_token
                           (Integration.set_refreshing true a)) tr1 with
            | (Ok _, a2, tr2) => (Ok tt, Integration.set_refreshing false a2, tr2)
            | (Exn _, a2, tr2) =>
                let '(r, a3, tr3) := run E (Integration.get_access_token a2) tr2 in
                (res_bind r (fun _ => Ok tt), Integration.set_refreshing false a3, tr3)
            end
  | _ => out = once
  end.
Proof.
  intros Hflag Href rq tr1 once out. subst out once.
  unfold Integration._refresh_access_token.
  rewrite run_bind, run_get, Hflag, run_bind, run_modify, run_finally, run_catch.
  rewrite run_bind, run_get.
  cbn [Integration.token_info Integration.set_refreshing]. rewrite Href.
  cbn [str_add]. exec. simpl answer. simpl observe.
  cbn [Integration._calc_sign truthy String.eqb negb res_bind]. exec.
  rewrite run_session_json.
  change (net E (tr ++ [OClock]) _) with (net E (tr ++ [OClock]) rq).
  change ((tr ++ [OClock]) ++ [OHttp _]) with ((tr ++ [OClock]) ++ [OHttp rq]).
  rewrite <- app_assoc. simpl app. fold tr1.
  set (a_on := Integration.set_refreshing true a).
  assert (Honce :
             (let '(x, s', tr') :=
                run E (bind Integration.get_access_token (fun _ => ret tt) a_on) tr1 in
              (x, Integration.set_refreshing false s', tr'))
             = (let '(r, a2, tr2) := run E (Integration.get_access_token a_on) tr1 in
                (res_bind r (fun _ => Ok tt), Integration.set_refreshing false a2, tr2))).
  { rewrite run_bind.
    destruct (run E (Integration.get_access_token a_on) tr1) as [[[r|x] a2] tr2];
      reflexivity. }
  destruct (Spec.decoded (net E (tr ++ [OClock]) rq)) as [response|e];
    [|exact Honce].
  rewrite run_bind, run_lift.
  destruct response; cbn [py_get]; cbv beta iota; try exact Honce.
  exec.
  intros Hs. rewrite Hs. exec.
  destruct (run E (Integration.get_access_token a_on) tr1) as [[[r|x] a2] tr2];
    [reflexivity|].
  exec.
  destruct (run E (Integration.get_access_token a2) tr2) as [[[r|x'] a3] tr3];
    reflexivity.
Qed.

(** * The SDK client's token *)

(** X16: in the SDK client a granted token response replaces the stored
    token by the fields of its [result] (of the response itself when it has
    none), stamped with the clock reading taken after the exchange; a
    registered listener gets its snapshot, and every request built from then
    on carries the new access token in its header. *)
Theorem sdk_granted_token_is_stamped_with_the_clock `{PyRuntime} E
    (a : Sdk.CustomerApi) tr (d r : dict) :
  let rq := Sdk.token_request_at a (clock E tr) in
  let tr1 := tr ++ [OClock; OHttp rq] in
  Spec.decoded (net E (tr ++ [OClock]) rq) = Ok (JObj d) ->
  truthy (dict_get_default d "success" JNull) = true ->
  dict_get_default d "result" (JObj d) = JObj r ->
  let token :=
    {| Sdk.access_token := dict_get_default r "access_token" (JStr "");
       Sdk.refresh_token := dict_get_default r "refresh_token" (JStr "");
       Sdk.expire_time := dict_get_default r "expire_time" (JInt 0);
       Sdk.uid := dict_get_default r "uid" (JStr "");
       Sdk.token_acquired_at := JFloat (clock E tr1) |} in
  let out := run E (Sdk.get_access_token a) tr in
  state_of out = Sdk.set_token_info token a
  /\ (if Sdk.token_listener a
      then trace_of out = tr1 ++ [OClock; OToken (Sdk.to_dict token)]
           /\ result_of out = match on_token E (tr1 ++ [OClock]) (Sdk.to_dict token) with
                              | Ok _ => Ok (JObj d)
                              | Exn x => Exn x
                              end
      else trace_of out = tr1 ++ [OClock] /\ result_of out = Ok (JObj d))
  /\ forall method path query body now,
       truthy (dict_get_default r "access_token" (JStr "")) = true ->
       dict_get (rq_headers (Sdk.request_at (state_of out) now method path query body))
                "access_token"
       = Some (dict_get_default r "access_token" (JStr "")).
Proof.
  intros rq tr1 Hdec Hs Hr token out.
  destruct d as [|kv d']; [discriminate|]. set (d := kv :: d') in *.
  assert (Hout : out = (match (if Sdk.token_listener a
                              then on_token E (tr1 ++ [OClock]) (Sdk.to_dict token)
                              else Ok tt) with
                       | Ok _ => Ok (JObj d)
                       | Exn x => Exn x
                       end,
                       Sdk.set_token_info token a,
                       if Sdk.token_listener a
                       then tr1 ++ [OClock; OToken (Sdk.to_dict token)]
                       else tr1 ++ [OClock])).
  { subst out. unfold Sdk.get_access_token.
    rewrite run_bind, run_sdk_build_headers. exec. rewrite run_session_json.
    fold (Sdk.token_request_at a (clock E tr)). fold rq. rewrite Hdec.
    rewrite <- app_assoc. simpl app. fold tr1.
    exec. rewrite Hs. exec. unfold Sdk.store_token, Sdk.new_token_info.
    unfold d at 1. cbv beta iota. rewrite Hr. exec.
    simpl answer. simpl observe. fold token.
    cbn [Sdk.token_listener Sdk.set_token_info].
    destruct (Sdk.token_listener a).
    - exec. simpl answer. simpl observe.
      cbn [Sdk.token_info Sdk.set_token_info]. rewrite <- app_assoc. simpl app.
      subst token. now destruct (on_token E (tr1 ++ [OClock]) _) as [[]|x].
    - now exec. }
  rewrite Hout. unfold state_of, trace_of, result_of. cbn [fst snd].
  split; [reflexivity|]. split.
  - destruct (Sdk.token_listener a); split; reflexivity.
  - intros method path query body now Htok.
    unfold Sdk.request_at, Sdk.headers_with. cbn [rq_headers].
    cbn [Sdk.token_info Sdk.set_token_info Sdk.access_token token andb].
    rewrite Htok.
    set (sign := Sdk.sign_with _ _ _ _ _ _ _ _). clearbody sign.
    set (t := pretty _). clearbody t. reflexivity.
Qed.

(** * The stream address *)

(** X8: [Manager.get_device_stream_allocate] never raises and never
    changes the registry; it returns something else than [None] only when
    the stream type is a string, the allocate call returned a response with
    a true success flag, and the address is the [url] of its [result]. *)
Theorem stream_address_is_none_on_any_failure `{PyRuntime} (str_upper : string -> string)
    E (s : Sync.Manager) tr (device_id stream_type : json) :
  let out := run E (Sync.get_device_stream_allocate str_upper device_id stream_type s) tr in
  (exists url, result_of out = Ok url)
  /\ Sync.device_map (state_of out) = Sync.device_map s
  /\ forall url, result_of out = Ok url -> url <> JNull ->
       exists kind d r,
         stream_type = JStr kind
         /\ result_of (run E (Sync.on_api (Integration.get_device_stream_allocate
                                             (Sync.uid s) device_id
                                             (JStr (str_upper kind))) s) tr)
            = Ok (JObj d)
         /\ truthy (dict_get_default d "success" JNull) = true
         /\ dict_get_default d "result" (JObj []) = JObj r
         /\ dict_get r "url" = Some url.
Proof.
  intros out. subst out. unfold Sync.get_device_stream_allocate.
  rewrite run_catch, run_bind, run_get.
  assert (Hnone : forall s1 tr1,
             Sync.device_map s1 = Sync.device_map s ->
             (exists url, result_of (Ok JNull, s1, tr1) = Ok url)
             /\ Sync.device_map (state_of (Ok JNull, s1, tr1)) = Sync.device_map s
             /\ forall url, result_of (Ok JNull, s1, tr1) = Ok url -> url <> JNull ->
                  exists kind d r,
                    stream_type = JStr kind
                    /\ result_of (run E (Sync.on_api (Integration.get_device_stream_allocate
                                                        (Sync.uid s) device_id
                                                        (JStr (str_upper kind))) s) tr)
                       = Ok (JObj d)
                    /\ truthy (dict_get_default d "success" JNull) = true
                    /\ dict_get_default d "result" (JObj []) = JObj r
                    /\ dict_get r "url" = Some url).
  { intros s1 tr1 Hdm. split; [eexists; reflexivity|]. split; [exact Hdm|].
    intros url Hurl Hne. inversion Hurl. congruence. }
  destruct stream_type as [| | | |kind| |]; cbn [Sync.py_upper]; exec;
    try (apply Hnone; reflexivity).
  rewrite run_on_api.
  destruct (run E (Integration.get_device_stream_allocate (Sync.uid s) device_id
                     (JStr (str_upper kind)) (Sync.api s)) tr)
    as [[[response|e] a1] tr1] eqn:Hcall; [|apply Hnone; reflexivity].
  exec. destruct response as [| | | | | |d]; cbn [py_get]; exec;
    try (apply Hnone; reflexivity).
  destruct (truthy (dict_get_default d "success" JNull)) eqn:Hs; exec;
    [|apply Hnone; reflexivity].
  destruct (dict_get_default d "result" (JObj [])) as [| | | | | |r] eqn:Hr;
    cbn [py_get]; exec; try (apply Hnone; reflexivity).
  unfold result_of, state_of. cbn [fst snd].
  split; [eexists; reflexivity|]. split; [reflexivity|].
  intros url Hurl Hne. inversion Hurl; subst url.
  exists kind, d, r. split; [reflexivity|].
  split; [unfold result_of; now rewrite run_on_api, Hcall|].
  split; [exact Hs|]. split; [exact Hr|].
  unfold dict_get_default in Hne |- *.
  destruct (dict_get r "url"); [reflexivity | congruence].
Qed.

(** * The base URL *)

Lemma rstrip_slash_spec (url : string) :
  (exists n, url = rstrip_slash url +:+ repeat_string n "/")
  /\ forall p, rstrip_slash url <> p +:+ "/".
Proof.
  induction url as [|c url [[n Hn] Hend]]; simpl.
  - split; [now exists 0%nat | intros []; discriminate].
  - destruct (rstrip_slash url) as [|c' r] eqn:Hr.
    + destruct (Ascii.eqb_spec c "/") as [->|Hc].
      * split; [exists (S n); unfold String.app in *; simpl in Hn |- *; now f_equal|].
        intros []; discriminate.
      * split; [exists n; unfold String.app in *; simpl in Hn |- *; now f_equal|].
        intros [|c0 [|? ?]]; simpl; try discriminate.
        intros Heq. inversion Heq. congruence.
    + split; [exists n; unfold String.app in *; simpl in Hn |- *; now f_equal|].
      intros [|c0 p]; simpl; [discriminate|].
      intros Heq. inversion Heq. now apply (Hend p).
Qed.

Lemma rstrip_slash_idem (url : string) :
  rstrip_slash (rstrip_slash url) = rstrip_slash url.
Proof.
  induction url as [|c url IH]; simpl; [reflexivity|].
  destruct (rstrip_slash url) as [|c' r] eqn:Hr.
  - destruct (Ascii.eqb_spec c "/") as [->|Hc]; simpl; [reflexivity|].
    now destruct (Ascii.eqb_spec c "/").
  - change (rstrip_slash (String c (String c' r)))
      with (match rstrip_slash (String c' r) with
            | EmptyString => if Ascii.eqb c "/" then EmptyString else String c EmptyString
            | String c0 r0 => String c (String c0 r0)
            end).
    now rewrite IH.
Qed.

(** X18: both clients store the base URL without its trailing slashes:
    what is stored does not end with a slash, the given URL is the stored
    one followed by slashes only, and normalising again changes nothing. *)
Theorem base_url_has_no_trailing_slash (url cid sec sch : string) :
  let a := Integration.new_api url cid sec sch in
  let b := Sdk.new_api url cid sec sch in
  Integration.api_url a = Sdk.api_url b
  /\ (exists n, url = Integration.api_url a +:+ repeat_string n "/")
  /\ (forall p, Integration.api_url a <> p +:+ "/")
  /\ Integration.new_api (Integration.api_url a) cid sec sch = a.
Proof.
  intros a b. subst a b. simpl.
  destruct (rstrip_slash_spec url) as [Hn Hend].
  split; [reflexivity|]. split; [exact Hn|]. split; [exact Hend|].
  unfold Integration.new_api. now rewrite rstrip_slash_idem.
Qed.

(** * One signature, two clients *)

Lemma string_app_assoc (s t u : string) : (s +:+ t) +:+ u = s +:+ (t +:+ u).
Proof.
  unfold String.app. induction s as [|c s IH]; simpl; [reflexivity | now rewrite IH].
Qed.

(** X17: the two clients agree on the wire: for the same credentials and a
    string token they build the same string-to-sign and the same business
    signature, and their token requests are identical. *)
Theorem both_clients_sign_alike `{PyRuntime} (a : Sdk.CustomerApi)
    (b : Integration.CustomerApi) (tok method path : string)
    (query : option dict) (body timestamp : string) :
  Sdk.client_id a = Integration.client_id b ->
  Sdk.secret a = Integration.secret b ->
  Sdk.api_url a = Integration.api_url b ->
  Sdk.access_token (Sdk.token_info a) = JStr tok ->
  Sdk.string_to_sign method path query body
  = Integration._string_to_sign method path query body
  /\ Integration._calc_sign (Integration.client_id b) (Integration.secret b)
       timestamp "" (Integration._string_to_sign method path query body) (JStr tok)
     = Ok (Sdk.sign_with a method path query body timestamp "" true)
  /\ forall now, Sdk.token_request_at a now = Integration.token_request_at b now.
Proof.
  intros Hcid Hsec Hurl Htok.
  assert (Hsts : forall m p q bd,
             Sdk.string_to_sign m p q bd = Integration._string_to_sign m p q bd).
  { intros m p q bd. unfold Sdk.string_to_sign, Integration._string_to_sign.
    destruct q as [[|kv q]|]; try reflexivity.
    destruct (String.eqb_spec
                (join "&" (map (fun k => k +:+ "=" +:+ py_str (dict_get_default (kv :: q) k JNull))
                               (sorted (map fst (kv :: q))))) "") as [Heq|Hne];
      [|reflexivity].
    now apply query_string_nonempty in Heq. }
  split; [apply Hsts|]. split.
  - unfold Integration._calc_sign, Sdk.sign_with. rewrite Htok, Hsts, Hcid, Hsec.
    simpl truthy. destruct (String.eqb_spec tok "") as [->|Hne]; cbn [negb].
    + reflexivity.
    + cbn [str_add res_bind py_str]. do 2 f_equal.
      apply string_app_assoc.
  - intros now. unfold Sdk.token_request_at, Integration.token_request_at.
    unfold Sdk.headers_with, Sdk.sign_with, Integration.token_headers.
    cbn [andb py_str]. now rewrite Hsts, Hcid, Hsec, Hurl.
Qed.

(** * Devices and their keys *)

Section KeyFacts.
Context `{PyRuntime}.

Lemma cache_device_keyed dm dev_data dm' :
  keyed_by_id dm -> Sync.cache_device dm dev_data = Ok dm' -> keyed_by_id dm'.
Proof.
  intros Hkeyed. unfold Sync.cache_device. destruct dev_data; simpl; try discriminate.
  destruct (truthy (dict_get_default o "id" (JStr ""))) eqn:Hid; simpl.
  - destruct (py_iter _) as [items|]; simpl; [|discriminate].
    destruct (Sync.merge_status items []) as [st [[]|e]]; [|discriminate].
    unfold pd_set. destruct (hashable _); [|discriminate].
    intros Heq. inversion Heq; subst dm'. intros k d. rewrite pd_get_put.
    destruct (key_eqb _ k) eqn:Hk; [|apply Hkeyed].
    intros Hd. inversion Hd; subst d. simpl. now split.
  - intros Heq. now inversion Heq; subst.
Qed.

Lemma cache_devices_keyed devices dm :
  keyed_by_id dm -> keyed_by_id (fst (Sync.cache_devices devices dm)).
Proof.
  revert dm. induction devices as [|dev_data devices IH]; intros dm Hkeyed; [exact Hkeyed|].
  simpl. destruct (Sync.cache_device dm dev_data) as [dm'|e] eqn:Hdev; [|exact Hkeyed].
  apply IH. eapply cache_device_keyed; eauto.
Qed.

Lemma same_ids_keyed (dm dm' : pydict CustomerDevice) :
  pd_keys dm' = pd_keys dm ->
  (forall c d, pd_get dm c = Some d ->
     exists d', pd_get dm' c = Some d' /\ id d' = id d) ->
  keyed_by_id dm -> keyed_by_id dm'.
Proof.
  intros Hkeys Hd Hkeyed k d' Hd'.
  destruct (pd_get dm k) as [d|] eqn:Hk.
  - destruct (Hd k d Hk) as (d0 & Hd0 & Heq). rewrite Hd' in Hd0.
    inversion Hd0; subst d0. rewrite Heq. now apply Hkeyed.
  - assert (Hs : is_Some (pd_get dm k)).
    { apply pd_get_is_Some. rewrite <- Hkeys. apply pd_get_is_Some. eauto. }
    rewrite Hk in Hs. destruct Hs; discriminate.
Qed.

Lemma specifications_keep_ids s s' :
  only_specifications_changed s s' ->
  keyed_by_id (Sync.device_map s) -> keyed_by_id (Sync.device_map s').
Proof.
  intros (_ & _ & Hkeys & Hd). apply same_ids_keyed; [exact Hkeys|].
  intros c d Hc. destruct (Hd c d Hc) as (d' & Hd' & Heq & _).
  exists d'. split; [exact Hd'|]. now rewrite <- Heq.
Qed.

Lemma status_keeps_ids s s' :
  only_status_changed s s' ->
  keyed_by_id (Sync.device_map s) -> keyed_by_id (Sync.device_map s').
Proof.
  intros (_ & _ & Hkeys & Hd). apply same_ids_keyed; [exact Hkeys|].
  intros c d Hc. destruct (Hd c d Hc) as (d' & Hd' & Heq & _).
  exists d'. split; [exact Hd'|]. now rewrite <- Heq.
Qed.

End KeyFacts.

(** X5: every device is registered under its own id: if the registry has
    each device under a key equal to its non-empty [id], so it has after a
    cache rebuild and after a status poll. *)
Theorem devices_stay_registered_under_their_id `{PyRuntime} E (s : Sync.Manager) tr :
  keyed_by_id (Sync.device_map s) ->
  keyed_by_id (Sync.device_map (state_of (run E (Sync.update_device_cache s) tr)))
  /\ keyed_by_id (Sync.device_map (state_of (run E (Sync.update_device_status s) tr))).
Proof.
  intros Hkeyed. split.
  - assert (Hsame : forall (r : res unit) a tr',
               keyed_by_id (Sync.device_map (state_of (r, Sync.set_api a s, tr'))))
      by (intros; exact Hkeyed).
    unfold Sync.update_device_cache.
    rewrite run_bind, run_get, run_bind, run_on_api.
    destruct (run E (Integration.get_user_devices (Sync.uid s) (Sync.api s)) tr)
      as [[[response | e] a1] tr1]; [|apply Hsame].
    exec. destruct response; cbn [py_get]; exec; try apply Hsame.
    destruct (truthy (dict_get_default o "success" JNull)); cbn [negb]; exec;
      [|apply Hsame].
    destruct (py_len _); exec; [|apply Hsame].
    destruct (py_iter _) as [devices|]; exec; [|apply Hsame].
    change (Sync.device_map (Sync.set_api a1 s)) with (Sync.device_map s).
    pose proof (cache_devices_keyed devices (Sync.device_map s) Hkeyed) as Hdm.
    destruct (Sync.cache_devices devices (Sync.device_map s)) as [dm r].
    simpl in Hdm. exec. destruct r as [[]|e]; cbv beta iota; [|exact Hdm].
    exec.
    match goal with
    | |- keyed_by_id (Sync.device_map (state_of (run E (for_each ?l ?body ?s0) ?tr0))) =>
        apply (specifications_keep_ids s0); [|exact Hdm];
        apply (preserves_for_each only_specifications_changed l body)
    end.
    apply fetch_frame.
  - apply (status_keeps_ids s); [|exact Hkeyed].
    apply update_device_status_frame.
Qed.

(** * What a caller of [request] can be handed *)

(** X19: what [request] returns without raising is a response with a true
    success flag, or the bare [{"success": False}] that stands for a
    non-2xx status: a failure the server reports in a 2xx response is never
    returned, it is raised. *)
Theorem request_returns_success_or_the_bare_failure `{PyRuntime} E method path
    params body (a : Integration.CustomerApi) tr (response : json) :
  result_of (run E (Integration.request method path params body a) tr) = Ok response ->
  Spec.success_flag response = true \/ response = JObj [("success", JBool false)].
Proof.
  rewrite run_request.
  destruct (run E (Integration._ensure_token a) tr) as [[[[] | e] a1] tr1];
    [|discriminate].
  destruct (Integration.signed_request _ _ _ _ _ _) as [rq|e]; [|discriminate].
  unfold result_of. cbn [fst].
  destruct (net E (tr1 ++ [OClock]) rq) as [e | [] text [r | e]]; simpl;
    try discriminate.
  - destruct r; simpl; try discriminate.
    destruct (truthy (dict_get_default o "success" JNull)) eqn:Hs; simpl;
      [|discriminate].
    intros Heq. inversion Heq. left. unfold Spec.success_flag. simpl. exact Hs.
  - destruct text; simpl; [|discriminate]. intros Heq. inversion Heq. now right.
  - destruct text; simpl; [|discriminate]. intros Heq. inversion Heq. now right.
Qed.

(** * Every listed device is registered *)

Lemma cache_device_registers dm entry dm' :
  Sync.cache_device dm (JObj entry) = Ok dm' ->
  truthy (dict_get_default entry "id" (JStr "")) = true ->
  is_Some (pd_get dm' (dict_get_default entry "id" (JStr ""))).
Proof.
  unfold Sync.cache_device. simpl. intros Hc Hid. rewrite Hid in Hc. simpl in Hc.
  destruct (py_iter _) as [items|]; simpl in Hc; [|discriminate].
  destruct (Sync.merge_status items []) as [st [[]|e]]; [|discriminate].
  unfold pd_set in Hc. destruct (hashable _) eqn:Hhash; [|discriminate].
  inversion Hc. rewrite pd_get_put, (hashable_key_eqb_refl _ Hhash). eauto.
Qed.

Lemma cache_devices_ok_cons dev_data devices dm :
  snd (Sync.cache_devices (dev_data :: devices) dm) = Ok tt ->
  exists dm1, Sync.cache_device dm dev_data = Ok dm1
              /\ fst (Sync.cache_devices (dev_data :: devices) dm)
                 = fst (Sync.cache_devices devices dm1)
              /\ snd (Sync.cache_devices devices dm1) = Ok tt.
Proof.
  simpl. destruct (Sync.cache_device dm dev_data) as [dm1|e]; [eauto | discriminate].
Qed.

(** X20: when the first loop of [update_device_cache] runs to its end, the
    registry holds a device under the id of every entry of the list that
    has one. *)
Theorem every_listed_device_is_registered (devices : list json)
    (dm : pydict CustomerDevice) (entry : dict) :
  snd (Sync.cache_devices devices dm) = Ok tt ->
  In (JObj entry) devices ->
  truthy (dict_get_default entry "id" (JStr "")) = true ->
  is_Some (pd_get (fst (Sync.cache_devices devices dm))
                  (dict_get_default entry "id" (JStr ""))).
Proof.
  revert dm. induction devices as [|dev_data devices IH]; intros dm Hok Hin Hid;
    [destruct Hin|].
  destruct (cache_devices_ok_cons _ _ _ Hok) as (dm1 & Hdev & Hfst & Hsnd).
  rewrite Hfst. destruct Hin as [-> | Hin].
  - apply (keys_kept_get dm1); [apply cache_devices_keys|].
    now apply (cache_device_registers dm).
  - now apply IH.
Qed.

(** * The properties at work *)

Lemma listed_device_replaces_registered_one_witness :
  truthy (dict_get_default Mock.relisted "id" (JStr "")) = true
  /\ py_iter (dict_get_default Mock.relisted "status" (JList []))
     = Ok [Mock.item "switch" (JBool true)]
  /\ option_map functions
       (pd_get (Sync.device_map (state_of Mock.cached)) (JStr "d2"))
     = Some [(JStr "switch", JObj [("type", JStr "Boolean"); ("values", JObj [])])]
  /\ exists dm' device,
       Sync.cache_device (Sync.device_map (state_of Mock.cached)) (JObj Mock.relisted)
       = Ok dm'
       /\ pd_get dm' (JStr "d2") = Some device
       /\ functions device = []
       /\ pd_get (status device) (JStr "switch") = Some (JBool true).
Proof.
  assert (Hid : truthy (dict_get_default Mock.relisted "id" (JStr "")) = true)
    by reflexivity.
  assert (Hitems : py_iter (dict_get_default Mock.relisted "status" (JList []))
                   = Ok [Mock.item "switch" (JBool true)]) by reflexivity.
  repeat (split; [assumption|]). split; [vm_compute; reflexivity|].
  destruct (Sync.cache_device (Sync.device_map (state_of Mock.cached))
              (JObj Mock.relisted)) as [dm'|e] eqn:Hcache;
    [|vm_compute in Hcache; discriminate].
  destruct (listed_device_replaces_registered_one _ dm' _ _ Hid Hitems Hcache)
    as (device & Hget & _ & Hf & _ & _ & Hst & _).
  exists dm', device. split; [reflexivity|]. split; [exact Hget|].
  split; [exact Hf|]. now rewrite Hst.
Defined.

Lemma status_merge_is_idempotent_witness :
  forallb Spec.status_entry Mock.toggled = true
  /\ fst (Sync.merge_status Mock.toggled (status Mock.lamp))
     = [(JStr "switch_1", JBool false); (JStr "bright_value", JInt 10)]
  /\ forall c,
       pd_get (fst (Sync.merge_status Mock.toggled
                      (fst (Sync.merge_status Mock.toggled (status Mock.lamp))))) c
       = pd_get (fst (Sync.merge_status Mock.toggled (status Mock.lamp))) c.
Proof.
  assert (Hwf : forallb Spec.status_entry Mock.toggled = true) by reflexivity.
  split; [exact Hwf|]. split; [reflexivity|].
  exact (proj2 (status_merge_is_idempotent Mock.toggled (status Mock.lamp) Hwf)).
Defined.

Lemma listeners_are_told_after_the_merge_witness :
  result_of (run (Mock.first_listener_raises Mock.switch_on)
               (Sync.on_api (Integration.get_device_status (H := Mock.runtime)
                               (JStr "d1")) Mock.watched) [])
  = Ok (JObj Mock.switch_response)
  /\ Sync.device_listeners Mock.watched = 2%nat
  /\ exists j,
       j = 1%nat
       /\ trace_of (run (Mock.first_listener_raises Mock.switch_on)
                      (Sync.poll_device (H := Mock.runtime) (JStr "d1") Mock.watched) [])
          = trace_of (run (Mock.first_listener_raises Mock.switch_on)
                        (Sync.on_api (Integration.get_device_status (H := Mock.runtime)
                                        (JStr "d1")) Mock.watched) [])
            ++ match pd_get
                       (Sync.device_map
                          (state_of
                             (run (Mock.first_listener_raises Mock.switch_on)
                                (Sync.poll_device (H := Mock.runtime) (JStr "d1")
                                   Mock.watched) []))) (JStr "d1") with
               | Some d => notified d j
               | None => []
               end.
Proof.
  assert (Hcall : result_of (run (Mock.first_listener_raises Mock.switch_on)
               (Sync.on_api (Integration.get_device_status (H := Mock.runtime)
                               (JStr "d1")) Mock.watched) [])
                  = Ok (JObj Mock.switch_response))
    by (vm_compute; reflexivity).
  assert (Hk : pd_get (Sync.device_map Mock.watched) (JStr "d1") = Some Mock.lamp)
    by (vm_compute; reflexivity).
  assert (Hmerge : snd (Sync.merge_status [Mock.item "switch_1" (JBool true)]
                          (status Mock.lamp)) = Ok tt)
    by (vm_compute; reflexivity).
  split; [exact Hcall|]. split; [reflexivity|].
  destruct (listeners_are_told_after_the_merge (H := Mock.runtime)
              (Mock.first_listener_raises Mock.switch_on) (JStr "d1") Mock.watched [])
    as (j & Hj & Htr & _ & Hfull).
  specialize (Hfull Mock.switch_response [Mock.item "switch_1" (JBool true)] Mock.lamp
                Hcall eq_refl eq_refl Hk).
  cbv zeta in Hfull. destruct Hfull as [_ Hm]. rewrite Hmerge in Hm.
  destruct Hm as [Hok Hshort].
  change (Sync.device_listeners Mock.watched) with 2%nat in Hj, Hshort.
  exists j. split; [|exact Htr].
  destruct j as [|[|[|j]]]; [| reflexivity | | lia].
  - destruct (Hshort ltac:(lia)) as (i & e & Hi & _). discriminate.
  - specialize (Hok 0%nat ltac:(lia)). discriminate.
Defined.

Lemma devices_stay_registered_under_their_id_witness :
  keyed_by_id (Sync.device_map Mock.listed)
  /\ keyed_by_id (Sync.device_map (state_of Mock.polled_switch_on)).
Proof.
  assert (Hkeyed : keyed_by_id (Sync.device_map Mock.listed)).
  { set (dm := Sync.device_map Mock.listed). vm_compute in dm. subst dm.
    intros k d. cbn [pd_get].
    destruct (key_eqb (JStr "d1") k) eqn:H1.
    - intros Hd. inversion Hd. split; [reflexivity | exact H1].
    - destruct (key_eqb (JStr "d2") k) eqn:H2; [|discriminate].
      intros Hd. inversion Hd. split; [reflexivity | exact H2]. }
  split; [exact Hkeyed|].
  exact (proj2 (devices_stay_registered_under_their_id (H := Mock.runtime)
                  (Mock.world 1000 Mock.switch_on) Mock.listed [] Hkeyed)).
Defined.

Lemma usable_token_costs_one_exchange_witness :
  Integration.access_token (Integration.token_info Mock.api0) = JStr "tok"
  /\ "tok" <> ""
  /\ Integration.expire_at (Integration.token_info Mock.api0) = JInt 9000000
  /\ millis (clock (Mock.world 1000 Mock.switch_on) []) < 9000000 - 60000
  /\ length (http_calls (trace_of Mock.status_called)) = 1%nat
  /\ state_of Mock.status_called = Mock.api0.
Proof.
  assert (Htok : Integration.access_token (Integration.token_info Mock.api0) = JStr "tok")
    by reflexivity.
  assert (Hne : "tok" <> "") by discriminate.
  assert (Hexp : Integration.expire_at (Integration.token_info Mock.api0) = JInt 9000000)
    by reflexivity.
  assert (Hnow : millis (clock (Mock.world 1000 Mock.switch_on) []) < 9000000 - 60000)
    by (vm_compute; reflexivity).
  repeat (split; [assumption|]).
  destruct (usable_token_costs_one_exchange (H := Mock.runtime)
              (Mock.world 1000 Mock.switch_on) Mock.api0 [] "tok" 9000000
              "GET" "/v1.0/devices/d1/status" None None Htok Hne Hexp Hnow)
    as (rq & _ & _ & Hrun).
  unfold Mock.status_called, Integration.get_device_status, Integration.get_.
  change (py_str (JStr "d1")) with "d1".
  change (Sync.api Mock.listed) with Mock.api0.
  change ("/v1.0/devices/" +:+ "d1" +:+ "/status") with "/v1.0/devices/d1/status".
  rewrite Hrun. split; reflexivity.
Defined.

Lemma non_string_token_stops_the_request_witness :
  run (Mock.world 1000 []) (Integration._ensure_token (H := Mock.runtime) Mock.numbered_api) []
  = (Ok tt, Mock.numbered_api, [OClock])
  /\ truthy (Integration.access_token (Integration.token_info Mock.numbered_api)) = true
  /\ run (Mock.world 1000 [])
         (Integration.request (H := Mock.runtime) "GET" "/v1.0/devices/d1/status"
            None None Mock.numbered_api) []
     = (Exn TypeError, Mock.numbered_api, [OClock] ++ [OClock]).
Proof.
  assert (Hens : run (Mock.world 1000 [])
                     (Integration._ensure_token (H := Mock.runtime) Mock.numbered_api) []
                 = (Ok tt, Mock.numbered_api, [OClock])) by (vm_compute; reflexivity).
  assert (Htruthy : truthy (Integration.access_token
                              (Integration.token_info Mock.numbered_api)) = true)
    by reflexivity.
  repeat (split; [assumption|]).
  apply (non_string_token_stops_the_request (H := Mock.runtime)); try assumption.
  intros s. discriminate.
Defined.

Lemma client_without_token_acquires_one_first_witness :
  truthy (Integration.access_token (Integration.token_info Mock.fresh_api)) = false
  /\ truthy (Integration.refresh_token (Integration.token_info Mock.fresh_api)) = false
  /\ exists rest,
       http_calls
         (trace_of (run (Mock.world 1000 [Mock.ok_json (JObj Mock.grant)])
                        (Integration.request (H := Mock.runtime) "GET"
                           "/v1.0/devices/d1/status" None None Mock.fresh_api) []))
       = http_calls []
         ++ Integration.token_request_at (H := Mock.runtime) Mock.fresh_api
              (clock (Mock.world 1000 [Mock.ok_json (JObj Mock.grant)]) []) :: rest.
Proof.
  assert (Hacc : truthy (Integration.access_token
                           (Integration.token_info Mock.fresh_api)) = false)
    by reflexivity.
  assert (Href : truthy (Integration.refresh_token
                           (Integration.token_info Mock.fresh_api)) = false)
    by reflexivity.
  repeat (split; [assumption|]).
  exact (proj1 (client_without_token_acquires_one_first (H := Mock.runtime)
                  (Mock.world 1000 [Mock.ok_json (JObj Mock.grant)]) Mock.fresh_api []
                  "GET" "/v1.0/devices/d1/status" None None Hacc Href)).
Defined.

Lemma refused_token_raises_and_keeps_the_token_witness :
  Spec.decoded
    (net (Mock.world 1000 [Mock.ok_json (JObj Mock.refusal)]) ([] ++ [OClock])
         (Integration.token_request_at (H := Mock.runtime) Mock.fresh_api
            (clock (Mock.world 1000 [Mock.ok_json (JObj Mock.refusal)]) [])))
  = Ok (JObj Mock.refusal)
  /\ truthy (dict_get_default Mock.refusal "success" JNull) = false
  /\ result_of (run (Mock.world 1000 [Mock.ok_json (JObj Mock.refusal)])
                    (Integration.get_access_token (H := Mock.runtime) Mock.fresh_api) [])
     = Exn (TrueXAPIError "Failed to get access token" (JStr "sign invalid") (JInt 1004)).
Proof.
  assert (Hdec : Spec.decoded
            (net (Mock.world 1000 [Mock.ok_json (JObj Mock.refusal)]) ([] ++ [OClock])
                 (Integration.token_request_at (H := Mock.runtime) Mock.fresh_api
                    (clock (Mock.world 1000 [Mock.ok_json (JObj Mock.refusal)]) [])))
          = Ok (JObj Mock.refusal)) by (vm_compute; reflexivity).
  assert (Hs : truthy (dict_get_default Mock.refusal "success" JNull) = false)
    by reflexivity.
  repeat (split; [assumption|]).
  now rewrite (refused_token_raises_and_keeps_the_token (H := Mock.runtime)
                 _ Mock.fresh_api [] Mock.refusal Hdec Hs).
Defined.

Lemma granted_token_is_stored_and_announced_witness :
  Spec.decoded
    (net (Mock.world 1000 [Mock.ok_json (JObj Mock.grant)]) ([] ++ [OClock])
         (Integration.token_request_at (H := Mock.runtime) Mock.watched_api
            (clock (Mock.world 1000 [Mock.ok_json (JObj Mock.grant)]) [])))
  = Ok (JObj Mock.grant)
  /\ truthy (dict_get_default Mock.grant "success" JNull) = true
  /\ dict_get_default Mock.grant "result" (JObj []) = JObj Mock.grant_result
  /\ dict_get_default Mock.grant "t" (JInt 0) = JInt 1000000
  /\ dict_get_default Mock.grant_result "expire_time" (JInt 0) = JInt 7200
  /\ Integration.token_info
       (state_of (run (Mock.world 1000 [Mock.ok_json (JObj Mock.grant)])
                      (Integration.get_access_token (H := Mock.runtime)
                         Mock.watched_api) []))
     = {| Integration.access_token := JStr "tok2";
          Integration.refresh_token := JStr "ref2";
          Integration.uid := JStr "u1";
          Integration.expire_time := JInt 7200;
          Integration.expire_at := JInt 8200000 |}.
Proof.
  assert (Hdec : Spec.decoded
            (net (Mock.world 1000 [Mock.ok_json (JObj Mock.grant)]) ([] ++ [OClock])
                 (Integration.token_request_at (H := Mock.runtime) Mock.watched_api
                    (clock (Mock.world 1000 [Mock.ok_json (JObj Mock.grant)]) [])))
          = Ok (JObj Mock.grant)) by (vm_compute; reflexivity).
  assert (Hs : truthy (dict_get_default Mock.grant "success" JNull) = true)
    by reflexivity.
  assert (Hr : dict_get_default Mock.grant "result" (JObj []) = JObj Mock.grant_result)
    by reflexivity.
  assert (Ht : dict_get_default Mock.grant "t" (JInt 0) = JInt 1000000) by reflexivity.
  assert (He : dict_get_default Mock.grant_result "expire_time" (JInt 0) = JInt 7200)
    by reflexivity.
  repeat (split; [assumption|]).
  now rewrite (proj1 (granted_token_is_stored_and_announced (H := Mock.runtime)
                        _ Mock.watched_api [] Mock.grant Mock.grant_result
                        1000000 7200 Hdec Hs Hr Ht He)).
Defined.

Lemma failed_refresh_falls_back_to_a_new_token_witness :
  Integration._refreshing_token Mock.expired_api = false
  /\ Integration.refresh_token (Integration.token_info Mock.expired_api) = JStr "ref"
  /\ Spec.decoded
       (net (Mock.world 1000 Mock.refresh_refused) ([] ++ [OClock])
            (Integration.refresh_request_at (H := Mock.runtime) Mock.expired_api
               (clock (Mock.world 1000 Mock.refresh_refused) []) "ref"))
     = Ok (JObj Mock.refusal)
  /\ let out := run (Mock.world 1000 Mock.refresh_refused)
                    (Integration._refresh_access_token (H := Mock.runtime)
                       Mock.expired_api) [] in
     result_of out = Ok tt
     /\ map rq_url (http_calls (trace_of out))
        = [ "https://api.example/v1.0/token/ref";
            "https://api.example/v1.0/token?grant_type=1";
            "https://api.example/v1.0/token?grant_type=1" ]
     /\ Integration.access_token (Integration.token_info (state_of out)) = JStr "tok2"
     /\ Integration._refreshing_token (state_of out) = false.
Proof.
  assert (Hflag : Integration._refreshing_token Mock.expired_api = false)
    by reflexivity.
  assert (Href : Integration.refresh_token (Integration.token_info Mock.expired_api)
                 = JStr "ref") by reflexivity.
  assert (Hdec : Spec.decoded
            (net (Mock.world 1000 Mock.refresh_refused) ([] ++ [OClock])
                 (Integration.refresh_request_at (H := Mock.runtime) Mock.expired_api
                    (clock (Mock.world 1000 Mock.refresh_refused) []) "ref"))
          = Ok (JObj Mock.refusal)) by (vm_compute; reflexivity).
  repeat (split; [assumption|]).
  pose proof (failed_refresh_falls_back_to_a_new_token (H := Mock.runtime)
                (Mock.world 1000 Mock.refresh_refused) Mock.expired_api [] "ref"
                Hflag Href) as Hthm.
  cbv zeta in Hthm. rewrite Hdec in Hthm. specialize (Hthm eq_refl).
  cbv zeta. rewrite Hthm. vm_compute. repeat split.
Defined.

Lemma sdk_granted_token_is_stamped_with_the_clock_witness :
  Spec.decoded
    (net (Mock.world 1000 [Mock.ok_json (JObj Mock.grant)]) ([] ++ [OClock])
         (Sdk.token_request_at (H := Mock.runtime) Mock.sdk0
            (clock (Mock.world 1000 [Mock.ok_json (JObj Mock.grant)]) [])))
  = Ok (JObj Mock.grant)
  /\ truthy (dict_get_default Mock.grant "success" JNull) = true
  /\ dict_get_default Mock.grant "result" (JObj Mock.grant) = JObj Mock.grant_result
  /\ Sdk.token_info
       (state_of (run (Mock.world 1000 [Mock.ok_json (JObj Mock.grant)])
                      (Sdk.get_access_token (H := Mock.runtime) Mock.sdk0) []))
     = {| Sdk.access_token := JStr "tok2"; Sdk.refresh_token := JStr "ref2";
          Sdk.expire_time := JInt 7200; Sdk.uid := JStr "u1";
          Sdk.token_acquired_at := JFloat 1000 |}.
Proof.
  assert (Hdec : Spec.decoded
            (net (Mock.world 1000 [Mock.ok_json (JObj Mock.grant)]) ([] ++ [OClock])
                 (Sdk.token_request_at (H := Mock.runtime) Mock.sdk0
                    (clock (Mock.world 1000 [Mock.ok_json (JObj Mock.grant)]) [])))
          = Ok (JObj Mock.grant)) by (vm_compute; reflexivity).
  assert (Hs : truthy (dict_get_default Mock.grant "success" JNull) = true)
    by reflexivity.
  assert (Hr : dict_get_default Mock.grant "result" (JObj Mock.grant)
               = JObj Mock.grant_result) by reflexivity.
  repeat (split; [assumption|]).
  now rewrite (proj1 (sdk_granted_token_is_stamped_with_the_clock (H := Mock.runtime)
                        _ Mock.sdk0 [] Mock.grant Mock.grant_result Hdec Hs Hr)).
Defined.

Lemma both_clients_sign_alike_witness :
  Sdk.client_id Mock.sdk0 = Integration.client_id Mock.api0
  /\ Sdk.secret Mock.sdk0 = Integration.secret Mock.api0
  /\ Sdk.api_url Mock.sdk0 = Integration.api_url Mock.api0
  /\ Sdk.access_token (Sdk.token_info Mock.sdk0) = JStr "tok"
  /\ Sdk.string_to_sign (H := Mock.runtime) "GET" "/v1.0/users/u1/devices"
       (Some Mock.page_query) ""
     = Integration._string_to_sign (H := Mock.runtime) "GET" "/v1.0/users/u1/devices"
         (Some Mock.page_query) "".
Proof.
  assert (Hcid : Sdk.client_id Mock.sdk0 = Integration.client_id Mock.api0)
    by reflexivity.
  assert (Hsec : Sdk.secret Mock.sdk0 = Integration.secret Mock.api0) by reflexivity.
  assert (Hurl : Sdk.api_url Mock.sdk0 = Integration.api_url Mock.api0) by reflexivity.
  assert (Htok : Sdk.access_token (Sdk.token_info Mock.sdk0) = JStr "tok")
    by reflexivity.
  repeat (split; [assumption|]).
  exact (proj1 (both_clients_sign_alike (H := Mock.runtime) Mock.sdk0 Mock.api0 "tok"
                  "GET" "/v1.0/users/u1/devices" (Some Mock.page_query) "" "0"
                  Hcid Hsec Hurl Htok)).
Defined.

Lemma every_listed_device_is_registered_witness :
  snd (Sync.cache_devices Mock.list_entries []) = Ok tt
  /\ In (JObj [("id", JStr "d2"); ("name", JStr "Plug")]) Mock.list_entries
  /\ is_Some (pd_get (fst (Sync.cache_devices Mock.list_entries []))
                     (JStr "d2")).
Proof.
  assert (Hok : snd (Sync.cache_devices Mock.list_entries [])
                = Ok tt) by reflexivity.
  assert (Hin : In (JObj [("id", JStr "d2"); ("name", JStr "Plug")]) Mock.list_entries)
    by (right; left; reflexivity).
  repeat (split; [assumption|]).
  exact (every_listed_device_is_registered Mock.list_entries []
           [("id", JStr "d2"); ("name", JStr "Plug")] Hok Hin eq_refl).
Defined.

Lemma request_returns_success_or_the_bare_failure_witness :
  result_of Mock.status_called = Ok (JObj Mock.switch_response)
  /\ (Spec.success_flag (JObj Mock.switch_response) = true
      \/ JObj Mock.switch_response = JObj [("success", JBool false)]).
Proof.
  assert (Hres : result_of Mock.status_called = Ok (JObj Mock.switch_response))
    by (vm_compute; reflexivity).
  split; [exact Hres|].
  exact (request_returns_success_or_the_bare_failure (H := Mock.runtime)
           (Mock.world 1000 Mock.switch_on) "GET" "/v1.0/devices/d1/status" None None
           Mock.api0 [] (JObj Mock.switch_response) Hres).
Defined.
